(** * Converter-2curs: the conversion job orchestrator of [app.py]

    A shallow embedding of the Flask video converter: the job record
    ([ConversionTask]), the registry ([TaskManager]), the format catalog and
    transcoder ([VideoConverter]), the extension check ([FileValidator]), the
    job runner ([process_conversion]) and the request handlers that create,
    poll and purge jobs.  Python exceptions are values of an error monad, the
    process-wide registry and the file system are an explicit [World], and
    everything the program does not own (the external encoder, [os.remove],
    [float], [str.lower], [secure_filename], [uuid4]) enters as a parameter. *)

From Stdlib Require Import String Ascii ZArith Bool List Lia.
From Stdlib Require Import Floats.PrimFloat Uint63.
From stdpp Require Import base option gmap strings list.
Import ListNotations.

Local Open Scope string_scope.

(** ** Python values and exceptions *)

(** An exception instance as the handlers of [app.py] see it: which of the
    classes named by an [except] clause it belongs to (every class is a
    subclass of [Exception]) and what [str(e)] gives. *)
Inductive ExcClass : Type :=
| TimeoutExpired
| RequestEntityTooLarge
| OtherException.

Record PyException : Type := mkExc {
  exc_class : ExcClass;
  exc_str : string
}.

(** Outcome of evaluating a Python expression: a value, or a raised exception. *)
Inductive result (A : Type) : Type :=
| Ok (a : A)
| Raise (e : PyException).
Arguments Ok {A} a.
Arguments Raise {A} e.

Definition ValueError (msg : string) : PyException := mkExc OtherException msg.
Definition IndexError (msg : string) : PyException := mkExc OtherException msg.
Definition RuntimeError (msg : string) : PyException := mkExc OtherException msg.
Definition ZeroDivisionError : PyException := mkExc OtherException "float division by zero".
Definition FileNotFoundError (path : string) : PyException :=
  mkExc OtherException ("[Errno 2] No such file or directory: '" +:+ path +:+ "'").

Definition result_bind {A B} (r : result A) (k : A -> result B) : result B :=
  match r with
  | Ok a => k a
  | Raise e => Raise e
  end.

(** The values [_parse_fps] can return: a float, the integer literal [0], or
    [None]. *)
Inductive pyval : Type :=
| PyNone
| PyInt (z : Z)
| PyFloat (f : float).

(** ** String operations of the Python built-ins the program calls *)

(** [c in s] for a one-character [c]. *)
Fixpoint contains (c : ascii) (s : string) : bool :=
  match s with
  | EmptyString => false
  | String a s' => if Ascii.eqb a c then true else contains c s'
  end.

(** [s.split(c)]: cut at every occurrence of [c]; never the empty list. *)
Fixpoint split (c : ascii) (s : string) : list string :=
  match s with
  | EmptyString => [EmptyString]
  | String a s' =>
      if Ascii.eqb a c then EmptyString :: split c s'
      else match split c s' with
           | h :: t => String a h :: t
           | [] => [String a EmptyString]
           end
  end.

(** [s.rsplit(c, 1)]: cut once, at the last occurrence of [c]; the string
    itself in a one-element list when [c] does not occur. *)
Fixpoint rsplit1 (c : ascii) (s : string) : list string :=
  match s with
  | EmptyString => [EmptyString]
  | String a s' =>
      match rsplit1 c s' with
      | [t] => if Ascii.eqb a c then [EmptyString; t] else [String a t]
      | h :: rest => String a h :: rest
      | [] => [String a EmptyString]
      end
  end.

(** [l[i]], raising [IndexError] out of range. *)
Definition py_index (l : list string) (i : nat) : result string :=
  match l !! i with
  | Some x => Ok x
  | None => Raise (IndexError "list index out of range")
  end.

(** [x or default] on strings: the empty string is falsy. *)
Definition str_or (x default : string) : string :=
  match x with
  | EmptyString => default
  | _ => x
  end.

(** ** Frame-rate parsing: [VideoConverter._parse_fps] *)

(** Float division as Python performs it: [ZeroDivisionError] on a zero
    divisor (either sign), the IEEE quotient otherwise. *)
Definition py_truediv (a b : float) : result float :=
  if PrimFloat.eqb b PrimFloat.zero then Raise ZeroDivisionError
  else Ok (PrimFloat.div a b).

Section ParseFps.
(** The built-in [float(s)] on a string: the parsed binary64 value, or
    [ValueError]. *)
Variable py_float : string -> result float.

(** [num, den = map(float, parts)]: exactly two items, each parsed. *)
Definition unpack_two_floats (parts : list string) : result (float * float) :=
  match parts with
  | [a; b] =>
      result_bind (py_float a) (fun num =>
      result_bind (py_float b) (fun den => Ok (num, den)))
  | [] | [_] =>
      Raise (ValueError "not enough values to unpack (expected 2)")
  | a :: b :: c :: _ =>
      result_bind (py_float a) (fun _ =>
      result_bind (py_float b) (fun _ =>
      result_bind (py_float c) (fun _ =>
      Raise (ValueError "too many values to unpack (expected 2)"))))
  end.

(** The body of the [try] block. *)
Definition parse_fps_body (fps_str : string) : result pyval :=
  if contains "/" fps_str then
    result_bind (unpack_two_floats (split "/" fps_str)) (fun '(num, den) =>
      if negb (PrimFloat.eqb den PrimFloat.zero)
      then result_bind (py_truediv num den) (fun q => Ok (PyFloat q))
      else Ok (PyInt 0))
  else
    result_bind (py_float fps_str) (fun f => Ok (PyFloat f)).

(** [_parse_fps]: the [try] body under the bare [except: return None]. *)
Definition _parse_fps (fps_str : string) : pyval :=
  match parse_fps_body fps_str with
  | Ok v => v
  | Raise _ => PyNone
  end.
End ParseFps.

(** [float] on a string of ASCII decimal digits whose value is below [2^53]
    (exactly representable); every other string is refused.  It agrees with
    Python on the digit strings it accepts and serves the concrete runs. *)
Definition digit_value (a : ascii) : option Z :=
  let n := Z.of_N (N_of_ascii a) in
  if ((48 <=? n) && (n <=? 57))%Z then Some (n - 48)%Z else None.

Fixpoint digits_value (acc : Z) (s : string) : option Z :=
  match s with
  | EmptyString => Some acc
  | String a s' =>
      match digit_value a with
      | Some d => digits_value (10 * acc + d) s'
      | None => None
      end
  end.

Definition float_of_digits (s : string) : result float :=
  match s with
  | EmptyString => Raise (ValueError "could not convert string to float: ''")
  | _ =>
      match digits_value 0 s with
      | Some z =>
          if (z <? 2 ^ 53)%Z then Ok (PrimFloat.of_uint63 (Uint63.of_Z z))
          else Raise (ValueError ("could not convert string to float: '" +:+ s +:+ "'"))
      | None => Raise (ValueError ("could not convert string to float: '" +:+ s +:+ "'"))
      end
  end.

(** ** The data model: [VideoInfo], [ConversionTask] *)

Record VideoInfo : Type := mkVideoInfo {
  duration : float;
  size : Z;
  bitrate : Z;
  format_name : string;
  video_codec : option string;
  audio_codec : option string;
  width : option Z;
  height : option Z;
  fps : pyval
}.

(** The three values [ConversionTask.status] is ever assigned. *)
Inductive Status : Type :=
| Processing
| Completed
| Error.

Global Instance Status_eq_dec : EqDecision Status.
Proof. solve_decision. Defined.

(** [ConversionTask]; [error] is [None] or a string. *)
Record ConversionTask : Type := mkTask {
  task_id : string;
  input_path : string;
  output_path : string;
  output_filename : string;
  original_filename : string;
  format : string;
  video_info : option VideoInfo;
  status : Status;
  error : option string
}.

(** [ConversionTask.__init__]. *)
Definition new_task (task_id input_path output_path output_filename
                     original_filename output_format : string)
                    (video_info : option VideoInfo) : ConversionTask :=
  {| task_id := task_id;
     input_path := input_path;
     output_path := output_path;
     output_filename := output_filename;
     original_filename := original_filename;
     format := output_format;
     video_info := video_info;
     status := Processing;
     error := None |}.

Definition mark_completed (self : ConversionTask) : ConversionTask :=
  {| task_id := task_id self;
     input_path := input_path self;
     output_path := output_path self;
     output_filename := output_filename self;
     original_filename := original_filename self;
     format := format self;
     video_info := video_info self;
     status := Completed;
     error := error self |}.

(** The two stores of [mark_error], in the order the method makes them:
    [self.status = 'error'], then [self.error = error_message]. *)
Definition store_status_error (self : ConversionTask) : ConversionTask :=
  {| task_id := task_id self;
     input_path := input_path self;
     output_path := output_path self;
     output_filename := output_filename self;
     original_filename := original_filename self;
     format := format self;
     video_info := video_info self;
     status := Error;
     error := error self |}.

Definition store_error (self : ConversionTask) (error_message : string)
  : ConversionTask :=
  {| task_id := task_id self;
     input_path := input_path self;
     output_path := output_path self;
     output_filename := output_filename self;
     original_filename := original_filename self;
     format := format self;
     video_info := video_info self;
     status := status self;
     error := Some error_message |}.

Definition mark_error (self : ConversionTask) (error_message : string)
  : ConversionTask :=
  store_error (store_status_error self) error_message.

(** ** The process state and the effect monad *)

(** Arguments of a started [process_conversion] thread:
    [(task_id, input_path, output_path, output_format)]. *)
Record Job : Type := mkJob {
  job_task_id : string;
  job_input_path : string;
  job_output_path : string;
  job_format : string
}.

(** What the handlers read and write: the registry [task_manager.tasks], the
    paths that exist on disk, the argument vector of every [subprocess.run]
    call so far (latest first), and the background threads that were started
    and have not run yet. *)
Record World : Type := mkWorld {
  tasks : gmap string ConversionTask;
  files : gset string;
  spawned : list (list string);
  threads : list Job
}.

(** A computation: from a world to a value or a raised exception, and the
    world it leaves (writes made before a [raise] stay). *)
Definition M (A : Type) : Type := World -> result A * World.

Definition ret {A} (a : A) : M A := fun w => (Ok a, w).

Definition raise {A} (e : PyException) : M A := fun w => (Raise e, w).

Definition bind {A B} (c : M A) (k : A -> M B) : M B :=
  fun w =>
    match c w with
    | (Ok a, w') => k a w'
    | (Raise e, w') => (Raise e, w')
    end.

(** [try: body / except Exception as e: handler e]. *)
Definition try_except {A} (body : M A) (handler : PyException -> M A) : M A :=
  fun w =>
    match body w with
    | (Ok a, w') => (Ok a, w')
    | (Raise e, w') => handler e w'
    end.

Definition lift {A} (r : result A) : M A := fun w => (r, w).

Notation "'do' x <- c ; k" := (bind c (fun x => k))
  (at level 10, x pattern, c at level 100, k at level 200).

Definition set_tasks (f : gmap string ConversionTask -> gmap string ConversionTask)
  : M unit :=
  fun w => (Ok tt, mkWorld (f (tasks w)) (files w) (spawned w) (threads w)).

Definition set_files (f : gset string -> gset string) : M unit :=
  fun w => (Ok tt, mkWorld (tasks w) (f (files w)) (spawned w) (threads w)).

Definition log_spawn (komanda : list string) : M unit :=
  fun w => (Ok tt, mkWorld (tasks w) (files w) (komanda :: spawned w) (threads w)).

Definition set_threads (f : list Job -> list Job) : M unit :=
  fun w => (Ok tt, mkWorld (tasks w) (files w) (spawned w) (f (threads w))).

(** ** [TaskManager] *)

Definition create_task (task_id input_path output_path output_filename
                        original_filename output_format : string)
                       (video_info : option VideoInfo) : M ConversionTask :=
  let task := new_task task_id input_path output_path output_filename
                       original_filename output_format video_info in
  do _ <- set_tasks (fun ts => <[task_id := task]> ts);
  ret task.

Definition get_task (task_id : string) : M (option ConversionTask) :=
  fun w => (Ok (tasks w !! task_id), w).

Definition task_exists (task_id : string) : M bool :=
  fun w => (Ok (bool_decide (is_Some (tasks w !! task_id))), w).

Definition delete_task (task_id : string) : M unit :=
  do present <- task_exists task_id;
  if (present : bool) then set_tasks (fun ts => delete task_id ts) else ret tt.

(** A method call on the object [get_task] returned: the registry holds the
    same object under [task_id], so the mutation shows there. *)
Definition update_task (task_id : string) (t : ConversionTask) : M unit :=
  set_tasks (fun ts => <[task_id := t]> ts).

(** [os.path.exists]. *)
Definition path_exists (path : string) : M bool :=
  fun w => (Ok (bool_decide (path ∈ files w)), w).

(** ** [VideoConverter]: the format catalog and the transcoder *)

Record FormatSettings : Type := mkFormat {
  ext : string;
  codec : string;
  audio : string
}.

(** The items of the [OUTPUT_FORMATS] literal, in source order. *)
Definition OUTPUT_FORMATS_items : list (string * FormatSettings) :=
  [ ("mp4",  mkFormat "mp4"  "libx264"    "aac");
    ("webm", mkFormat "webm" "libvpx-vp9" "libopus");
    ("avi",  mkFormat "avi"  "libx264"    "mp3");
    ("mkv",  mkFormat "mkv"  "libx264"    "aac") ].

Definition OUTPUT_FORMATS : gmap string FormatSettings :=
  list_to_map OUTPUT_FORMATS_items.

(** [OUTPUT_FORMATS.keys()]. *)
Definition supported_formats : list string := fst <$> OUTPUT_FORMATS_items.

(** [output_format in cls.OUTPUT_FORMATS]. *)
Definition format_supported (output_format : string) : bool :=
  bool_decide (is_Some (OUTPUT_FORMATS !! output_format)).

(** [l.insert(-1, x)]: [x] goes before the last item (first in an empty list). *)
Fixpoint insert_before_last {A} (x : A) (l : list A) : list A :=
  match l with
  | [] => [x]
  | [y] => [x; y]
  | y :: l' => y :: insert_before_last x l'
  end.

(** [subprocess.CompletedProcess] with [capture_output=True, text=True]. *)
Record CompletedProcess : Type := mkCompleted {
  returncode : Z;
  stdout : string;
  stderr : string
}.

Definition unsupported_format_message : string := "Неподдерживаемый формат".

Definition timeout_message : string := "Превышено время ожидания конвертации".

Definition unknown_error_message : string := "Неизвестная ошибка конвертации".

(** The [ffmpeg] argument vector [convert] builds. *)
Definition ffmpeg_command (input_path output_path output_format : string)
                          (format_nastroyki : FormatSettings) : list string :=
  let komanda :=
    [ "ffmpeg"; "-i"; input_path;
      "-c:v"; codec format_nastroyki;
      "-c:a"; audio format_nastroyki;
      "-y"; output_path ] in
  if String.eqb output_format "webm" then
    insert_before_last "30"
      (insert_before_last "-crf"
        (insert_before_last "0"
          (insert_before_last "-b:v" komanda)))
  else komanda.

Section Transcoder.
(** The external world behind [subprocess.run(komanda, timeout=...)]: what
    the tool returns or which exception the call raises (a timeout, a launch
    failure), and the world the blocking call leaves behind, which covers
    the files the tool wrote and whatever other threads did meanwhile. *)
Variable tool : list string -> Z -> World -> result CompletedProcess * World.

Definition subprocess_run (komanda : list string) (timeout : Z)
  : M CompletedProcess :=
  do _ <- log_spawn komanda;
  tool komanda timeout.

(** [VideoConverter.convert]. *)
Definition convert (input_path output_path output_format : string)
  : M (bool * string) :=
  match OUTPUT_FORMATS !! output_format with
  | None => ret (false, unsupported_format_message)
  | Some format_nastroyki =>
      let komanda :=
        ffmpeg_command input_path output_path output_format format_nastroyki in
      try_except
        (do rezultat <- subprocess_run komanda 600;
         ret ((returncode rezultat =? 0)%Z, stderr rezultat))
        (fun e =>
           match exc_class e with
           | TimeoutExpired => ret (false, timeout_message)
           | _ => ret (false, exc_str e)
           end)
  end.

(** The [ffprobe] argument vector of [get_video_info]. *)
Definition ffprobe_command (filepath : string) : list string :=
  [ "ffprobe"; "-v"; "quiet"; "-print_format"; "json";
    "-show_format"; "-show_streams"; filepath ].

(** [json.loads] of the probe's output followed by the field extraction
    into a [VideoInfo]; any [KeyError], [ValueError] or [TypeError] of that
    code is a [Raise]. *)
Variable decode_probe : string -> result VideoInfo.

(** [VideoConverter.get_video_info]: [None] on a non-zero exit and on every
    exception. *)
Definition get_video_info (filepath : string) : M (option VideoInfo) :=
  try_except
    (do rezultat <- subprocess_run (ffprobe_command filepath) 10;
     if (returncode rezultat =? 0)%Z then
       do info <- lift (decode_probe (stdout rezultat));
       ret (Some info)
     else ret None)
    (fun _ => ret None).

(** ** The job runner: [process_conversion] *)

(** The runner over the transcoder it calls.  [os.path.exists] changes
    nothing, so asking it before the test of [uspekh] is the same as the
    short-circuit [and] of the source. *)
Definition process_conversion_with
    (transcode : string -> string -> string -> M (bool * string))
    (task_id input_path output_path output_format : string) : M unit :=
  try_except
    (do para <- transcode input_path output_path output_format;
     let uspekh : bool := fst para in
     let soobshchenie_ob_oshibke : string := snd para in
     do zadacha <- get_task task_id;
     match zadacha with
     | Some z =>
         do na_diske <- path_exists output_path;
         if uspekh && (na_diske : bool) then
           update_task task_id (mark_completed z)
         else
           update_task task_id
             (mark_error z (str_or soobshchenie_ob_oshibke unknown_error_message))
     | None => ret tt
     end)
    (fun e =>
       do zadacha <- get_task task_id;
       match zadacha with
       | Some z => update_task task_id (mark_error z (exc_str e))
       | None => ret tt
       end).

Definition process_conversion
    (task_id input_path output_path output_format : string) : M unit :=
  process_conversion_with convert task_id input_path output_path output_format.

(** [process_conversion] as far as the first store of [mark_error]: what the
    thread has done when it is about to store the message.  The answer is
    that message, or [None] when the thread is through without a call of
    [mark_error]. *)
Definition process_conversion_to_first_store
    (task_id input_path output_path output_format : string) : M (option string) :=
  try_except
    (do para <- convert input_path output_path output_format;
     let uspekh : bool := fst para in
     let soobshchenie_ob_oshibke : string := snd para in
     do zadacha <- get_task task_id;
     match zadacha with
     | Some z =>
         do na_diske <- path_exists output_path;
         if uspekh && (na_diske : bool) then
           do _ <- update_task task_id (mark_completed z);
           ret None
         else
           do _ <- update_task task_id (store_status_error z);
           ret (Some (str_or soobshchenie_ob_oshibke unknown_error_message))
     | None => ret None
     end)
    (fun e =>
       do zadacha <- get_task task_id;
       match zadacha with
       | Some z =>
           do _ <- update_task task_id (store_status_error z);
           ret (Some (exc_str e))
       | None => ret None
       end).
End Transcoder.

(** The second store of [mark_error], by a thread that holds the record
    object of [task_id].  The object is the registry's entry for the token
    unless a cleanup has deleted the entry in between; then the store goes
    to an object no request can reach. *)
Definition process_conversion_second_store (task_id error_message : string)
  : M unit :=
  do zadacha <- get_task task_id;
  match zadacha with
  | Some z => update_task task_id (store_error z error_message)
  | None => ret tt
  end.

(** ** [FileValidator] *)

Record FileValidator : Type := mkValidator {
  allowed_extensions : gset string
}.

(** [app.config['ALLOWED_EXTENSIONS']]. *)
Definition ALLOWED_EXTENSIONS : gset string :=
  list_to_set ["mp4"; "avi"; "mov"; "mkv"; "webm"].

Definition file_validator : FileValidator := mkValidator ALLOWED_EXTENSIONS.

Section Validator.
(** The built-in [str.lower]. *)
Variable str_lower : string -> string.

(** [FileValidator.is_allowed]: [and] evaluates the right operand, with its
    [[1]] index, only when the name holds a dot. *)
Definition is_allowed (self : FileValidator) (filename : string) : result bool :=
  if contains "." filename then
    result_bind (py_index (rsplit1 "." filename) 1) (fun rasshirenie =>
      Ok (bool_decide (str_lower rasshirenie ∈ allowed_extensions self)))
  else Ok false.
End Validator.

(** [str.lower] on ASCII text: [A]-[Z] become [a]-[z], every other byte stays.
    It serves the concrete runs. *)
Definition lower_ascii_char (a : ascii) : ascii :=
  let n := N_of_ascii a in
  if ((65 <=? n) && (n <=? 90))%N then ascii_of_N (n + 32) else a.

Fixpoint lower_ascii (s : string) : string :=
  match s with
  | EmptyString => EmptyString
  | String a s' => String (lower_ascii_char a) (lower_ascii s')
  end.

(** ** The request handlers *)

Record FileStorage : Type := mkFile {
  filename : string
}.

(** The part of a POST to [/upload] the handler reads: [request.files.get
    ('file')] and [request.form.get('format')], each absent or present. *)
Record Request : Type := mkRequest {
  request_file : option FileStorage;
  form_format : option string
}.

(** What a handler returns. *)
Inductive Response : Type :=
| RedirectError (message : string)
    (* redirect(url_for('error', message=message)) *)
| RedirectProcessing (task_id : string)
    (* redirect(url_for('processing', task_id=task_id)) *)
| StatusNotFound
    (* jsonify({'status': 'not_found'}), 404 *)
| StatusJson (state : Status) (err : option string)
    (* jsonify({'status': ..., 'error': ...}) *)
| CleanupNotFound (message : string)
    (* jsonify({'success': False, 'message': message}), 404 *)
| CleanupDone
    (* jsonify({'success': True}) *)
| CleanupFailed (message : string).
    (* jsonify({'success': False, 'message': message}), 500 *)

Definition UPLOAD_FOLDER : string := "uploads".
Definition CONVERTED_FOLDER : string := "converted".

(** [os.path.join] of a folder name and a file name. *)
Definition path_join (folder name : string) : string := folder +:+ "/" +:+ name.

Definition no_file_message : string := "Файл не выбран".

Definition bad_extension_message : string :=
  "Неподдерживаемый формат файла. Разрешенные форматы: MP4, AVI, MOV, MKV, WEBM".

Definition too_large_message : string :=
  "Файл слишком большой. Максимальный размер: 500 МБ".

Definition upload_error_prefix : string := "Ошибка загрузки: ".

Definition task_not_found_message : string := "Задача не найдена".

Definition AttributeError (attr : string) : PyException :=
  mkExc OtherException ("'NoneType' object has no attribute '" +:+ attr +:+ "'").

Definition KeyError (key : string) : PyException :=
  mkExc OtherException ("'" +:+ key +:+ "'").

(** [VideoConverter.OUTPUT_FORMATS[key]]. *)
Definition catalog_getitem (key : string) : result FormatSettings :=
  match OUTPUT_FORMATS !! key with
  | Some nastroyki => Ok nastroyki
  | None => Raise (KeyError key)
  end.

(** [fail.save(path)]: the file appears at [path], unless the write fails
    with the given exception. *)
Definition save (path : string) (fault : option PyException) : M unit :=
  match fault with
  | Some e => raise e
  | None => set_files (fun fs => {[path]} ∪ fs)
  end.

(** [threading.Thread(target=process_conversion, args=...).start()]: the
    thread joins those that wait to run, unless the interpreter cannot start
    one more thread and [start] raises the given [RuntimeError]. *)
Definition thread_start (fault : option PyException) (j : Job) : M unit :=
  match fault with
  | Some e => raise e
  | None => set_threads (fun l => (l ++ [j])%list)
  end.

Module Routes.
Section Handlers.
Variable str_lower : string -> string.
(** [werkzeug.utils.secure_filename]. *)
Variable secure_filename : string -> string.
Variable tool : list string -> Z -> World -> result CompletedProcess * World.
Variable decode_probe : string -> result VideoInfo.

(** The requested format: [request.form.get('format', 'mp4')]. *)
Definition requested_format (req : Request) : string :=
  default "mp4" (form_format req).

(** The [try] block of [upload_file]; the session cookie it also sets is
    not part of the world. *)
Definition upload_body (fail : FileStorage) (format_vyhoda unikalnyy_id : string)
                       (save_fault start_fault : option PyException) : M Response :=
  let originalnoe_imya := secure_filename (filename fail) in
  do rasshirenie_ <- lift (py_index (rsplit1 "." originalnoe_imya) 1);
  let rasshirenie := str_lower rasshirenie_ in
  let imya_vhodnogo := unikalnyy_id +:+ "." +:+ rasshirenie in
  let put_vhodnogo := path_join UPLOAD_FOLDER imya_vhodnogo in
  do _ <- save put_vhodnogo save_fault;
  do video_informatsiya <- get_video_info tool decode_probe put_vhodnogo;
  do nastroyki <- lift (catalog_getitem format_vyhoda);
  let imya_vyhodnogo := unikalnyy_id +:+ "." +:+ ext nastroyki in
  let put_vyhodnogo := path_join CONVERTED_FOLDER imya_vyhodnogo in
  do zadacha <- create_task unikalnyy_id put_vhodnogo put_vyhodnogo
                  imya_vyhodnogo originalnoe_imya format_vyhoda
                  video_informatsiya;
  do _ <- thread_start start_fault
            (mkJob unikalnyy_id put_vhodnogo put_vyhodnogo format_vyhoda);
  ret (RedirectProcessing unikalnyy_id).

(** [upload_file] from the extension check on, once the file and the
    requested format have passed the checks before it. *)
Definition upload_after_format_check
    (fail : FileStorage) (format_vyhoda unikalnyy_id : string)
    (save_fault start_fault : option PyException) : M Response :=
  do razresheno <- lift (is_allowed str_lower file_validator (filename fail));
  if negb razresheno then ret (RedirectError bad_extension_message)
  else
    try_except
      (upload_body fail format_vyhoda unikalnyy_id save_fault start_fault)
      (fun e =>
         match exc_class e with
         | RequestEntityTooLarge => ret (RedirectError too_large_message)
         | _ => ret (RedirectError (upload_error_prefix +:+ exc_str e))
         end).

(** [upload_file]; [unikalnyy_id] is the string [uuid.uuid4()] produced,
    [save_fault] the exception [fail.save] meets, if any, and [start_fault]
    the one [potok.start()] meets, if any. *)
Definition upload_file (req : Request) (unikalnyy_id : string)
                       (save_fault start_fault : option PyException) : M Response :=
  match request_file req with
  | None => ret (RedirectError no_file_message)
  | Some fail =>
      let format_vyhoda := requested_format req in
      if String.eqb (filename fail) "" then
        ret (RedirectError no_file_message)
      else if negb (format_supported format_vyhoda) then
        ret (RedirectError unsupported_format_message)
      else
        upload_after_format_check fail format_vyhoda unikalnyy_id save_fault start_fault
  end.

(** [os.remove]: [FileNotFoundError] on a missing path; on an existing one
    the file goes, unless the operating system refuses with the exception
    [remove_fault] gives for that path. *)
Variable remove_fault : string -> option PyException.

Definition os_remove (path : string) : M unit :=
  do na_diske <- path_exists path;
  if (na_diske : bool) then
    match remove_fault path with
    | Some e => raise e
    | None => set_files (fun fs => fs ∖ {[path]})
    end
  else raise (FileNotFoundError path).

(** [cleanup]. *)
Definition cleanup (task_id : string) : M Response :=
  do est <- task_exists task_id;
  if negb est then ret (CleanupNotFound task_not_found_message)
  else
    do zadacha <- get_task task_id;
    try_except
      (match zadacha with
       | None => raise (AttributeError "input_path")
       | Some z =>
           do vhod <- path_exists (input_path z);
           do _ <- (if (vhod : bool) then os_remove (input_path z) else ret tt);
           do vyhod <- path_exists (output_path z);
           do _ <- (if (vyhod : bool) then os_remove (output_path z) else ret tt);
           do _ <- delete_task task_id;
           ret CleanupDone
       end)
      (fun e => ret (CleanupFailed (exc_str e))).

(** [status], the polling handler. *)
Definition status (task_id : string) : M Response :=
  do est <- task_exists task_id;
  if negb est then ret StatusNotFound
  else
    do zadacha <- get_task task_id;
    match zadacha with
    | None => raise (AttributeError "status")
    | Some z => ret (StatusJson (status z) (error z))
    end.
End Handlers.
End Routes.

(** ** The running system *)

(** The external tool works on files; the registry and the list of started
    threads belong to the Python process and the tool leaves them alone. *)
Definition keeps_registry
    (tool : list string -> Z -> World -> result CompletedProcess * World) : Prop :=
  forall komanda timeout w,
    tasks (snd (tool komanda timeout w)) = tasks w /\
    threads (snd (tool komanda timeout w)) = threads w.

(** What can happen next: a request to [/upload], a started thread running
    [process_conversion], a poll of [/status/<task_id>], a request to
    [/cleanup/<task_id>]. *)
Inductive Action : Type :=
| Upload (req : Request) (unikalnyy_id : string)
| Run (j : Job)
| Poll (task_id : string)
| Cleanup (task_id : string).

(** The world with one started thread taken off the list, as it begins to run. *)
Definition take_thread (before after : list Job) (w : World) : World :=
  mkWorld (tasks w) (files w) (spawned w) (before ++ after)%list.

(** A runner thread between the two stores of [mark_error]: the token of the
    record object it holds and the message it is about to store. *)
Record HalfDone : Type := mkHalfDone {
  half_task_id : string;
  half_message : string
}.

(** The process with its runner threads stopped between the two stores. *)
Record Interleaved : Type := mkInterleaved {
  shared : World;
  between_stores : list HalfDone
}.

Section System.
Variable str_lower : string -> string.
Variable secure_filename : string -> string.

(** One transition of the process, at the grain of a whole handler and of
    a whole runner thread: it relates the states in which no runner is
    between the two stores of [mark_error] ([fine_step] below takes the two
    stores apart and lets requests come in between).  [uuid.uuid4()] gives
    a token no live record and no started thread carries; a thread runs
    once, at any moment after it was started (the handlers that ran in
    between are the steps in between; the page-rendering handlers write
    nothing and are left out).  An upload whose thread could not be started
    is a transition as well: [start_fault] is the exception of
    [Thread.start()]. *)
Inductive step : World -> Action -> World -> Prop :=
| step_upload tool decode_probe req unikalnyy_id save_fault start_fault w r w' :
    keeps_registry tool ->
    tasks w !! unikalnyy_id = None ->
    unikalnyy_id ∉ (job_task_id <$> threads w) ->
    Routes.upload_file str_lower secure_filename tool decode_probe
      req unikalnyy_id save_fault start_fault w = (r, w') ->
    step w (Upload req unikalnyy_id) w'
| step_run tool j before after w r w' :
    keeps_registry tool ->
    threads w = (before ++ j :: after)%list ->
    process_conversion tool (job_task_id j) (job_input_path j)
      (job_output_path j) (job_format j) (take_thread before after w) = (r, w') ->
    step w (Run j) w'
| step_poll task_id w r w' :
    Routes.status task_id w = (r, w') ->
    step w (Poll task_id) w'
| step_cleanup remove_fault task_id w r w' :
    Routes.cleanup remove_fault task_id w = (r, w') ->
    step w (Cleanup task_id) w'.

(** The process starts with an empty registry and no thread. *)
Definition initial (w : World) : Prop :=
  tasks w = ∅ /\ threads w = [].

Inductive reachable : World -> Prop :=
| reachable_initial w : initial w -> reachable w
| reachable_step w a w' : reachable w -> step w a w' -> reachable w'.

(** Any number of steps, with the actions taken, in order. *)
Inductive steps : World -> list Action -> World -> Prop :=
| steps_refl w : steps w [] w
| steps_cons w a w' trace w'' :
    step w a w' -> steps w' trace w'' -> steps w (a :: trace) w''.

(** The same system with the two stores of [mark_error] as two steps, and
    whatever requests and other threads come in between.  [between_stores]
    lists the runner threads that have stored the status and hold the
    message they are about to store. *)
Inductive fine_step : Interleaved -> Interleaved -> Prop :=
| fine_request w a w' ps :
    step w a w' ->
    match a with
    | Upload _ unikalnyy_id => unikalnyy_id ∉ (half_task_id <$> ps)
    | Run _ => False
    | Poll _ | Cleanup _ => True
    end ->
    fine_step (mkInterleaved w ps) (mkInterleaved w' ps)
| fine_run tool j before after w m w' ps :
    keeps_registry tool ->
    threads w = (before ++ j :: after)%list ->
    process_conversion_to_first_store tool (job_task_id j) (job_input_path j)
      (job_output_path j) (job_format j) (take_thread before after w)
    = (Ok m, w') ->
    fine_step (mkInterleaved w ps)
      (mkInterleaved w'
         match m with
         | Some soobshchenie =>
             (ps ++ [mkHalfDone (job_task_id j) soobshchenie])%list
         | None => ps
         end)
| fine_second_store w before p after r w' :
    process_conversion_second_store (half_task_id p) (half_message p) w = (r, w') ->
    fine_step (mkInterleaved w (before ++ p :: after)%list)
              (mkInterleaved w' (before ++ after)%list).

Inductive fine_reachable : Interleaved -> Prop :=
| fine_reachable_initial w : initial w -> fine_reachable (mkInterleaved w [])
| fine_reachable_step s s' : fine_reachable s -> fine_step s s' -> fine_reachable s'.
End System.

(** The invariant of the Job Record: [error] holds a non-empty string exactly
    when [status] is ['error']. *)
Definition error_nonempty (t : ConversionTask) : Prop :=
  exists s, error t = Some s /\ s <> "".

Definition error_iff_status (t : ConversionTask) : Prop :=
  error_nonempty t <-> status t = Error.

Definition terminal (s : Status) : Prop := s = Completed \/ s = Error.

(** The tokens of the threads that were started and have not run yet. *)
Definition pending (w : World) : list string := job_task_id <$> threads w.

(** What every reachable world satisfies: no two waiting threads carry the
    same token; every record obeys [error_iff_status]; and the record a
    waiting thread is about to settle is still ['processing']. *)
Definition system_invariant (w : World) : Prop :=
  NoDup (pending w) /\
  forall id t,
    tasks w !! id = Some t ->
    error_iff_status t /\ (id ∈ pending w -> status t = Processing).

(** The two shapes of a record no thread is in the middle of writing, and
    the shape of a record between the two stores of [mark_error]. *)
Definition settled_shape (t : ConversionTask) : Prop :=
  (status t <> Error /\ error t = None) \/ (status t = Error /\ error_nonempty t).

Definition half_written (t : ConversionTask) : Prop :=
  status t = Error /\ error t = None.

Definition paused (s : Interleaved) : list string :=
  half_task_id <$> between_stores s.

(** What every state of the finer system satisfies. *)
Definition fine_invariant (s : Interleaved) : Prop :=
  NoDup (pending (shared s)) /\
  NoDup (paused s) /\
  (forall id, id ∈ pending (shared s) -> id ∉ paused s) /\
  (forall p, p ∈ between_stores s -> half_message p <> "") /\
  forall id t,
    tasks (shared s) !! id = Some t ->
    (id ∈ pending (shared s) -> status t = Processing) /\
    (id ∈ paused s -> half_written t) /\
    (id ∉ paused s -> settled_shape t).

(** What the second half of [cleanup] amounts to, from the check of the
    output path on; the statements about [cleanup] are phrased with it. *)
Definition cleanup_output_phase (remove_fault : string -> option PyException)
    (id : string) (z : ConversionTask) (w1 : World) : result Response * World :=
  if bool_decide (output_path z ∈ files w1) then
    match remove_fault (output_path z) with
    | Some e => (Ok (CleanupFailed (exc_str e)), w1)
    | None =>
        (Ok CleanupDone,
         mkWorld (delete id (tasks w1)) (files w1 ∖ {[output_path z]})
                 (spawned w1) (threads w1))
    end
  else
    (Ok CleanupDone,
     mkWorld (delete id (tasks w1)) (files w1) (spawned w1) (threads w1)).

(** The token an action is about. *)
Definition action_token (a : Action) : string :=
  match a with
  | Upload _ unikalnyy_id => unikalnyy_id
  | Run j => job_task_id j
  | Poll task_id => task_id
  | Cleanup task_id => task_id
  end.

(** ** What the records and the waiting threads of a running system look like *)

(** A record as [upload_file] makes it for the token [id]: it knows its
    token; its format is in the catalog; its original name has an extension;
    its input path is the upload folder, the token and that extension in
    lower case; its output name is the token and the catalog's extension,
    and its output path is that name in the folder of converted files. *)
Definition record_well_formed (str_lower : string -> string)
    (id : string) (t : ConversionTask) : Prop :=
  task_id t = id /\
  exists nastroyki stem rasshirenie,
    OUTPUT_FORMATS !! format t = Some nastroyki /\
    original_filename t = stem +:+ "." +:+ rasshirenie /\
    contains "." rasshirenie = false /\
    input_path t =
      path_join UPLOAD_FOLDER (id +:+ "." +:+ str_lower rasshirenie) /\
    output_filename t = id +:+ "." +:+ ext nastroyki /\
    output_path t = path_join CONVERTED_FOLDER (output_filename t).

(** The arguments a thread was started with are those of its record. *)
Definition job_matches (j : Job) (t : ConversionTask) : Prop :=
  job_input_path j = input_path t /\
  job_output_path j = output_path t /\
  job_format j = format t.

Definition bookkeeping_invariant (str_lower : string -> string) (w : World) : Prop :=
  (forall id t,
     tasks w !! id = Some t -> record_well_formed str_lower id t) /\
  (forall j t,
     j ∈ threads w -> tasks w !! job_task_id j = Some t -> job_matches j t).

(** ** Python objects: decoded JSON and the dictionaries built by [to_dict] *)

#[local] Unset Elimination Schemes.
Inductive PyObj : Type :=
| ONone
| OBool (b : bool)
| OInt (z : Z)
| OFloat (f : float)
| OStr (s : string)
| OList (items : list PyObj)
| ODict (entries : list (string * PyObj)).
#[local] Set Elimination Schemes.

(** The value under [key] among the entries of a dict (keys are distinct). *)
Fixpoint dict_lookup (entries : list (string * PyObj)) (key : string)
  : option PyObj :=
  match entries with
  | [] => None
  | (k, v) :: rest => if String.eqb k key then Some v else dict_lookup rest key
  end.

Definition type_name (o : PyObj) : string :=
  match o with
  | ONone => "NoneType"
  | OBool _ => "bool"
  | OInt _ => "int"
  | OFloat _ => "float"
  | OStr _ => "str"
  | OList _ => "list"
  | ODict _ => "dict"
  end.

Definition TypeError (msg : string) : PyException := mkExc OtherException msg.

Definition no_attribute (o : PyObj) (attr : string) : PyException :=
  mkExc OtherException
    ("'" +:+ type_name o +:+ "' object has no attribute '" +:+ attr +:+ "'").

(** [o[key]] for a string [key]: only a dict can be indexed that way. *)
Definition getitem (o : PyObj) (key : string) : result PyObj :=
  match o with
  | ODict entries =>
      match dict_lookup entries key with
      | Some v => Ok v
      | None => Raise (KeyError key)
      end
  | _ => Raise (TypeError ("'" +:+ type_name o +:+ "' object is not subscriptable by 'str'"))
  end.

(** [o.get(key, default)]: only a dict has the method. *)
Definition dict_get (o : PyObj) (key : string) (default : PyObj) : result PyObj :=
  match o with
  | ODict entries =>
      Ok (match dict_lookup entries key with
          | Some v => v
          | None => default
          end)
  | _ => Raise (no_attribute o "get")
  end.

Fixpoint chars (s : string) : list PyObj :=
  match s with
  | EmptyString => []
  | String a s' => OStr (String a EmptyString) :: chars s'
  end.

(** The items [for s in o] goes through: the elements of a list, the keys of
    a dict, the characters of a string; anything else is not iterable. *)
Definition iterate (o : PyObj) : result (list PyObj) :=
  match o with
  | OList items => Ok items
  | ODict entries => Ok (OStr <$> (fst <$> entries))
  | OStr s => Ok (chars s)
  | _ => Raise (TypeError ("'" +:+ type_name o +:+ "' object is not iterable"))
  end.

(** [o == s] for a string [s]. *)
Definition str_equals (o : PyObj) (s : string) : bool :=
  match o with
  | OStr x => String.eqb x s
  | _ => false
  end.

(** ** [to_dict] of the two records *)

Definition status_str (s : Status) : string :=
  match s with
  | Processing => "processing"
  | Completed => "completed"
  | Error => "error"
  end.

Definition pyval_obj (v : pyval) : PyObj :=
  match v with
  | PyNone => ONone
  | PyInt z => OInt z
  | PyFloat f => OFloat f
  end.

Definition opt_obj {A} (f : A -> PyObj) (o : option A) : PyObj :=
  match o with
  | Some a => f a
  | None => ONone
  end.

(** [VideoInfo.to_dict]. *)
Definition VideoInfo_to_dict (self : VideoInfo) : PyObj :=
  ODict [ ("duration", OFloat (duration self));
          ("size", OInt (size self));
          ("bitrate", OInt (bitrate self));
          ("format", OStr (format_name self));
          ("video_codec", opt_obj OStr (video_codec self));
          ("audio_codec", opt_obj OStr (audio_codec self));
          ("width", opt_obj OInt (width self));
          ("height", opt_obj OInt (height self));
          ("fps", pyval_obj (fps self)) ].

(** [ConversionTask.to_dict]. *)
Definition ConversionTask_to_dict (self : ConversionTask) : PyObj :=
  ODict [ ("status", OStr (status_str (status self)));
          ("input_path", OStr (input_path self));
          ("output_path", OStr (output_path self));
          ("output_filename", OStr (output_filename self));
          ("original_filename", OStr (original_filename self));
          ("format", OStr (format self));
          ("video_info", opt_obj VideoInfo_to_dict (video_info self));
          ("error", opt_obj OStr (error self)) ].

(** ** The field extraction of [get_video_info] *)

(** What [get_video_info] passes to the [VideoInfo] constructor; the names
    are kept as the decoded JSON has them, of whatever type. *)
Record ProbedInfo : Type := mkProbed {
  probed_duration : float;
  probed_size : Z;
  probed_bitrate : Z;
  probed_format_name : PyObj;
  probed_video_codec : PyObj;
  probed_audio_codec : PyObj;
  probed_width : option Z;
  probed_height : option Z;
  probed_fps : pyval
}.

Notation "'let?' x := c 'in' k" := (result_bind c (fun x => k))
  (at level 10, x name, c at level 100, k at level 200).

(** [next((s for s in streams if s['codec_type'] == kind), None)]: the items
    are tried in order, and indexing one that is not a dict with that key
    raises before any later item is looked at. *)
Fixpoint first_stream (kind : string) (streams : list PyObj)
  : result (option PyObj) :=
  match streams with
  | [] => Ok None
  | s :: rest =>
      let? codec_type := getitem s "codec_type" in
      if str_equals codec_type kind then Ok (Some s) else first_stream kind rest
  end.

Section Probe.
(** The built-ins [float(x)] and [int(x)] on a decoded value. *)
Variable float_of : PyObj -> result float.
Variable int_of : PyObj -> result Z.

(** [cls._parse_fps(x)] on a decoded value: on anything but a string the
    test ['/' in x], the call [x.split] or [float(x)] raises, and the bare
    [except] answers [None]. *)
Definition parse_fps_of (x : PyObj) : pyval :=
  match x with
  | OStr fps_str => _parse_fps (fun s => float_of (OStr s)) fps_str
  | _ => PyNone
  end.

(** The arguments of [VideoInfo(...)] in [get_video_info], from the decoded
    output [dannye] of the probe. *)
Definition probe_fields (dannye : PyObj) : result ProbedInfo :=
  let? streams := getitem dannye "streams" in
  let? items := iterate streams in
  let? video_potok := first_stream "video" items in
  let? audio_potok := first_stream "audio" items in
  let? format_ := getitem dannye "format" in
  let? duration_ := dict_get format_ "duration" (OInt 0) in
  let? duration := float_of duration_ in
  let? size_ := dict_get format_ "size" (OInt 0) in
  let? size := int_of size_ in
  let? bitrate_ := dict_get format_ "bit_rate" (OInt 0) in
  let? bitrate := int_of bitrate_ in
  let? format_name := dict_get format_ "format_name" (OStr "unknown") in
  let? video_codec :=
    match video_potok with
    | Some v => dict_get v "codec_name" (OStr "unknown")
    | None => Ok ONone
    end in
  let? audio_codec :=
    match audio_potok with
    | Some a => dict_get a "codec_name" (OStr "unknown")
    | None => Ok ONone
    end in
  let? width :=
    match video_potok with
    | Some v =>
        let? width_ := dict_get v "width" (OInt 0) in
        let? n := int_of width_ in Ok (Some n)
    | None => Ok None
    end in
  let? height :=
    match video_potok with
    | Some v =>
        let? height_ := dict_get v "height" (OInt 0) in
        let? n := int_of height_ in Ok (Some n)
    | None => Ok None
    end in
  let? fps :=
    match video_potok with
    | Some v =>
        let? rate := dict_get v "r_frame_rate" (OStr "0/1") in
        Ok (parse_fps_of rate)
    | None => Ok PyNone
    end in
  Ok (mkProbed duration size bitrate format_name video_codec audio_codec
               width height fps).
End Probe.

(** ** The page handlers *)

(** What a page handler returns: a redirect, a rendered template with the
    keyword arguments [task_id] and [task], or a file sent as attachment. *)
Inductive View : Type :=
| ViewRedirect (r : Response)
| RenderTemplate (template task_id : string) (task : PyObj)
| SendFile (path download_name : string).

Definition file_not_found_message : string := "Файл не найден".

Definition conversion_error_message : string := "Ошибка конвертации".

(** [zadacha.error or default]. *)
Definition error_or (error : option string) (default : string) : string :=
  match error with
  | Some s => str_or s default
  | None => default
  end.

Module Pages.

(** [processing]. *)
Definition processing (task_id : string) : M View :=
  do est <- task_exists task_id;
  if negb est then ret (ViewRedirect (RedirectError task_not_found_message))
  else
    do zadacha <- get_task task_id;
    match zadacha with
    | None => raise (AttributeError "to_dict")
    | Some z =>
        ret (RenderTemplate "processing.html" task_id (ConversionTask_to_dict z))
    end.

(** [download_file]. *)
Definition download_file (task_id : string) : M View :=
  do est <- task_exists task_id;
  if negb est then ret (ViewRedirect (RedirectError task_not_found_message))
  else
    do zadacha <- get_task task_id;
    match zadacha with
    | None => raise (AttributeError "output_path")
    | Some z =>
        do na_diske <- path_exists (output_path z);
        if negb na_diske then
          ret (ViewRedirect (RedirectError file_not_found_message))
        else
          do stem <- lift (py_index (rsplit1 "." (original_filename z)) 0);
          do nastroyki <- lift (catalog_getitem (format z));
          ret (SendFile (output_path z) (stem +:+ "." +:+ ext nastroyki))
    end.

(** [result]. *)
Definition result (task_id : string) : M View :=
  do est <- task_exists task_id;
  if negb est then ret (ViewRedirect (RedirectError task_not_found_message))
  else
    do zadacha <- get_task task_id;
    match zadacha with
    | None => raise (AttributeError "status")
    | Some z =>
        match status z with
        | Error =>
            ret (ViewRedirect
                   (RedirectError (error_or (error z) conversion_error_message)))
        | Processing => ret (ViewRedirect (RedirectProcessing task_id))
        | Completed =>
            do na_diske <- path_exists (output_path z);
            if negb na_diske then
              ret (ViewRedirect (RedirectError file_not_found_message))
            else
              ret (RenderTemplate "result.html" task_id (ConversionTask_to_dict z))
        end
    end.

End Pages.

(** ** Concrete tools and worlds for running the model *)

(** An encoder that exceeds the time limit. *)
Definition tool_times_out
  : list string -> Z -> World -> result CompletedProcess * World :=
  fun _ _ w =>
    (Raise (mkExc TimeoutExpired "Command 'ffmpeg' timed out after 600 seconds"), w).

(** An encoder that cannot be launched. *)
Definition tool_missing
  : list string -> Z -> World -> result CompletedProcess * World :=
  fun _ _ w => (Raise (FileNotFoundError "ffmpeg"), w).

(** An encoder that exits with [code] and [text] on its error stream and
    writes nothing. *)
Definition tool_exits (code : Z) (text : string)
  : list string -> Z -> World -> result CompletedProcess * World :=
  fun _ _ w => (Ok (mkCompleted code "" text), w).

(** An encoder that writes its last argument, the output path, and exits
    with zero. *)
Definition tool_writes_output
  : list string -> Z -> World -> result CompletedProcess * World :=
  fun komanda _ w =>
    (Ok (mkCompleted 0 "" "ffmpeg version 6.0"),
     mkWorld (tasks w) ({[ List.last komanda "" ]} ∪ files w) (spawned w) (threads w)).

(** A probe decoder for which no metadata is available. *)
Definition decode_unavailable : string -> result VideoInfo :=
  fun _ => Raise (ValueError "Expecting value: line 1 column 1 (char 0)").

Definition sample_task : ConversionTask :=
  new_task "job-1" "uploads/job-1.avi" "converted/job-1.mp4" "job-1.mp4"
           "clip.avi" "mp4" None.

(** A world right after an accepted upload of [clip.avi]. *)
Definition sample_world : World :=
  mkWorld {[ "job-1" := sample_task ]} {[ "uploads/job-1.avi" ]} []
          [mkJob "job-1" "uploads/job-1.avi" "converted/job-1.mp4" "mp4"].

(** A world in which the record of [job-1] is gone. *)
Definition world_without_task : World :=
  mkWorld ∅ {[ "uploads/job-1.avi" ]} [] [].

(** [os.remove] never refused. *)
Definition no_remove_fault : string -> option PyException := fun _ => None.

(** [os.remove] refused on every path. *)
Definition remove_denied : string -> option PyException :=
  fun path => Some (mkExc OtherException ("[Errno 13] Permission denied: '" +:+ path +:+ "'")).

(** A [secure_filename] for names that are already safe. *)
Definition secure_filename_id : string -> string := fun name => name.

(** [secure_filename] drops what is not ASCII: of [видео.mp4] the letters
    and the dot that would lead the name go, and [mp4] is left. *)
Definition secure_filename_cyrillic : string -> string :=
  fun name => if String.eqb name "видео.mp4" then "mp4" else name.

(** A run of the system: the empty process, then an upload of [clip.AVI]
    with no format field, then the started thread doing its work. *)
Definition world_empty : World := mkWorld ∅ ∅ [] [].

Definition sample_request : Request := mkRequest (Some (mkFile "clip.AVI")) None.

Definition world_uploaded : World :=
  snd (Routes.upload_file lower_ascii secure_filename_id tool_writes_output
         decode_unavailable sample_request "job-1" None None world_empty).

Definition sample_job : Job :=
  mkJob "job-1" "uploads/job-1.avi" "converted/job-1.mp4" "mp4".

Definition world_converted : World :=
  snd (process_conversion tool_writes_output "job-1" "uploads/job-1.avi"
         "converted/job-1.mp4" "mp4" (take_thread [] [] world_uploaded)).

(** The same upload when the interpreter cannot start one more thread. *)
Definition world_start_failed : World :=
  snd (Routes.upload_file lower_ascii secure_filename_id tool_writes_output
         decode_unavailable sample_request "job-1" None
         (Some (RuntimeError "can't start new thread")) world_empty).

(** [float] and [int] on the values a probe gives: integers, booleans and
    strings of decimal digits below [2^53]; they refuse everything else and
    serve the concrete runs. *)
Definition float_of_obj (o : PyObj) : result float :=
  match o with
  | OStr s => float_of_digits s
  | OInt z =>
      if ((0 <=? z) && (z <? 2 ^ 53))%Z then Ok (PrimFloat.of_uint63 (Uint63.of_Z z))
      else if ((- 2 ^ 53 <? z) && (z <? 0))%Z
           then Ok (PrimFloat.opp (PrimFloat.of_uint63 (Uint63.of_Z (- z))))
           else Raise (ValueError "int too large for this model")
  | OBool b => Ok (if b then PrimFloat.one else PrimFloat.zero)
  | OFloat f => Ok f
  | _ => Raise (TypeError ("float() argument must be a string or a real number, not '"
                           +:+ type_name o +:+ "'"))
  end.

Definition int_of_obj (o : PyObj) : result Z :=
  match o with
  | OInt z => Ok z
  | OBool b => Ok (if b then 1 else 0)%Z
  | OStr EmptyString => Raise (ValueError "invalid literal for int() with base 10: ''")
  | OStr s =>
      match digits_value 0 s with
      | Some z => Ok z
      | None => Raise (ValueError ("invalid literal for int() with base 10: '" +:+ s +:+ "'"))
      end
  | _ => Raise (TypeError ("int() argument must be a string or a real number, not '"
                           +:+ type_name o +:+ "'"))
  end.

(** The decoded output of a probe of a clip with an audio and a video stream. *)
Definition sample_probe : PyObj :=
  ODict
    [ ("streams",
       OList
         [ ODict [("codec_type", OStr "audio"); ("codec_name", OStr "aac")];
           ODict [("codec_type", OStr "video"); ("codec_name", OStr "h264");
                  ("width", OInt 1280); ("height", OInt 720);
                  ("r_frame_rate", OStr "30/1")] ]);
      ("format",
       ODict [("duration", OStr "5"); ("size", OStr "1048576");
              ("bit_rate", OStr "800000"); ("format_name", OStr "avi")]) ].

(** The same upload, with an encoder that rejects the input. *)
Definition world_failed : World :=
  snd (process_conversion (tool_exits 1 "Invalid data found when processing input")
         "job-1" "uploads/job-1.avi" "converted/job-1.mp4" "mp4"
         (take_thread [] [] world_uploaded)).

(** The same run, stopped between the two stores of [mark_error]. *)
Definition state_between_stores : Interleaved :=
  mkInterleaved
    (snd (process_conversion_to_first_store
            (tool_exits 1 "Invalid data found when processing input")
            "job-1" "uploads/job-1.avi" "converted/job-1.mp4" "mp4"
            (take_thread [] [] world_uploaded)))
    [mkHalfDone "job-1" "Invalid data found when processing input"].

(** * Properties *)

(** ** Strings *)

Lemma contains_append_sep c stem e :
  contains c (stem +:+ String c e) = true.
Proof.
  induction stem as [|a stem IH]; simpl.
  - now rewrite Ascii.eqb_refl.
  - destruct (Ascii.eqb a c); [reflexivity | exact IH].
Qed.

Lemma rsplit1_no_sep c s :
  contains c s = false -> rsplit1 c s = [s].
Proof.
  induction s as [|a s IH]; simpl; [reflexivity |].
  destruct (Ascii.eqb a c) eqn:Hac; [discriminate |].
  intros Hs. now rewrite (IH Hs).
Qed.

Lemma rsplit1_cut c stem e :
  contains c e = false -> rsplit1 c (stem +:+ String c e) = [stem; e].
Proof.
  intros He. induction stem as [|a stem IH]; simpl.
  - now rewrite (rsplit1_no_sep c e He), Ascii.eqb_refl.
  - now rewrite IH.
Qed.

Lemma rsplit1_sep c s :
  contains c s = true ->
  exists stem e,
    s = stem +:+ String c e /\ contains c e = false /\ rsplit1 c s = [stem; e].
Proof.
  induction s as [|a s IH]; simpl; [discriminate |].
  destruct (contains c s) eqn:Hs.
  - intros _. destruct (IH eq_refl) as (stem & e & -> & He & _).
    exists (String a stem), e. repeat split; [exact He |].
    now rewrite (rsplit1_cut c stem e He).
  - destruct (Ascii.eqb a c) eqn:Hac; [| discriminate].
    intros _. apply Ascii.eqb_eq in Hac. subst a.
    exists EmptyString, s. repeat split; [exact Hs |].
    now rewrite (rsplit1_no_sep c s Hs).
Qed.

Lemma split_no_sep c s :
  contains c s = false -> split c s = [s].
Proof.
  induction s as [|a s IH]; simpl; [reflexivity |].
  destruct (Ascii.eqb a c) eqn:Hac; [discriminate |].
  intros Hs. now rewrite (IH Hs).
Qed.

Lemma split_once c a b :
  contains c a = false -> contains c b = false ->
  split c (a +:+ String c b) = [a; b].
Proof.
  intros Ha Hb. induction a as [|x a IH]; simpl in *.
  - now rewrite Ascii.eqb_refl, (split_no_sep c b Hb).
  - destruct (Ascii.eqb x c); [discriminate |]. now rewrite (IH Ha).
Qed.

Lemma elem_of_ALLOWED_EXTENSIONS x :
  x ∈ ALLOWED_EXTENSIONS <->
  x = "mp4" \/ x = "avi" \/ x = "mov" \/ x = "mkv" \/ x = "webm".
Proof.
  unfold ALLOWED_EXTENSIONS. rewrite elem_of_list_to_set.
  rewrite !elem_of_cons, elem_of_nil. tauto.
Qed.

(** ** The File Validator *)

Example is_allowed_upper_case :
  is_allowed lower_ascii file_validator "Holiday.clip.MP4" = Ok true.
Proof. vm_compute. reflexivity. Qed.

Example is_allowed_no_extension :
  is_allowed lower_ascii file_validator "holiday" = Ok false.
Proof. vm_compute. reflexivity. Qed.

Example is_allowed_other_extension :
  is_allowed lower_ascii file_validator "holiday.mp4.exe" = Ok false.
Proof. vm_compute. reflexivity. Qed.

(** C8. [is_allowed] never raises and answers from the file name alone: it
    says yes exactly when the name splits at its last dot into a stem and an
    extension whose lower-cased form is in the allow-list; a name without a
    dot, and a name whose lower-cased extension is outside the list, are
    rejected. *)
Theorem is_allowed_extension_check (str_lower : string -> string) (filename : string) :
  exists b,
    is_allowed str_lower file_validator filename = Ok b /\
    (b = true <->
     exists stem rasshirenie,
       filename = stem +:+ "." +:+ rasshirenie /\
       contains "." rasshirenie = false /\
       str_lower rasshirenie ∈ ALLOWED_EXTENSIONS) /\
    (contains "." filename = false -> b = false) /\
    (forall stem rasshirenie,
       filename = stem +:+ "." +:+ rasshirenie ->
       contains "." rasshirenie = false ->
       str_lower rasshirenie ∉ ALLOWED_EXTENSIONS -> b = false).
Proof.
  unfold is_allowed. destruct (contains "." filename) eqn:Hdot.
  - destruct (rsplit1_sep _ _ Hdot) as (stem & e & Hname & He & Hsplit).
    rewrite Hsplit. simpl.
    exists (bool_decide (str_lower e ∈ ALLOWED_EXTENSIONS)).
    assert (Huniq : forall stem' e',
               filename = stem' +:+ "." +:+ e' -> contains "." e' = false -> e' = e).
    { intros stem' e' Hn He'.
      pose proof (rsplit1_cut "." stem' e' He') as Hcut.
      change (stem' +:+ String "." e') with (stem' +:+ "." +:+ e') in Hcut.
      rewrite <- Hn, Hsplit in Hcut. congruence. }
    repeat split.
    + intros Hb. apply bool_decide_eq_true in Hb. exists stem, e. auto.
    + intros (stem' & e' & Hn & He' & Hin).
      rewrite (Huniq _ _ Hn He') in Hin. now apply bool_decide_eq_true.
    + discriminate.
    + intros stem' e' Hn He' Hout.
      rewrite (Huniq _ _ Hn He') in Hout. now apply bool_decide_eq_false.
  - exists false. repeat split; try reflexivity; try discriminate.
    intros (stem & e & Hn & _ & _). subst filename.
    change (stem +:+ "." +:+ e) with (stem +:+ String "." e) in Hdot.
    now rewrite contains_append_sep in Hdot.
Qed.

Lemma is_allowed_extension_check_witness :
  is_allowed lower_ascii file_validator "clip.MOV" = Ok true /\
  is_allowed lower_ascii file_validator "notes.txt" = Ok false.
Proof.
  split.
  - destruct (is_allowed_extension_check lower_ascii "clip.MOV")
      as (b & Hb & Hyes & _).
    rewrite Hb. f_equal. apply Hyes.
    exists "clip", "MOV". split; [reflexivity |]. split; [reflexivity |].
    apply elem_of_ALLOWED_EXTENSIONS. vm_compute. tauto.
  - destruct (is_allowed_extension_check lower_ascii "notes.txt")
      as (b & Hb & _ & _ & Hno).
    rewrite Hb. f_equal. apply (Hno "notes" "txt"); [reflexivity | reflexivity |].
    rewrite elem_of_ALLOWED_EXTENSIONS. vm_compute.
    intros [H | [H | [H | [H | H]]]]; discriminate H.
Defined.

(** ** Frame-rate parsing *)

Example parse_fps_plain_number :
  _parse_fps float_of_digits "25" = PyFloat 25%float.
Proof. reflexivity. Qed.

Example parse_fps_three_parts :
  _parse_fps float_of_digits "30/1/1" = PyNone.
Proof. reflexivity. Qed.

Example parse_fps_not_a_number :
  _parse_fps float_of_digits "n/a" = PyNone.
Proof. reflexivity. Qed.

Lemma parse_fps_two_parts py_float a b num den :
  contains "/" a = false -> contains "/" b = false ->
  py_float a = Ok num -> py_float b = Ok den ->
  parse_fps_body py_float (a +:+ "/" +:+ b) =
    if negb (PrimFloat.eqb den PrimFloat.zero)
    then result_bind (py_truediv num den) (fun q => Ok (PyFloat q))
    else Ok (PyInt 0).
Proof.
  intros Ha Hb Hnum Hden. unfold parse_fps_body.
  change (a +:+ "/" +:+ b) with (a +:+ String "/" b).
  rewrite contains_append_sep, (split_once "/" a b Ha Hb).
  simpl. now rewrite Hnum, Hden.
Qed.

(** With a zero denominator the answer is the integer [0], which is not the
    [None] an unparseable string gets. *)
Lemma parse_fps_zero_denominator_not_none :
  _parse_fps float_of_digits "0/0" = PyInt 0 /\
  _parse_fps float_of_digits "0/0" <> PyNone /\
  _parse_fps float_of_digits "0/0" <> _parse_fps float_of_digits "unknown".
Proof. repeat split; discriminate. Qed.

(** C2 (amended).  Whatever [float] is, as long as it reads the decimal
    numerals involved the way Python does: ["30/1"] gives [30.0];
    ["24000/1001"] gives the binary64 quotient, within 1/1024 of 23.976;
    a rational whose denominator is zero, such as ["0/0"], gives the integer
    [0]; a string [float] refuses, alone or as either side of the slash,
    gives [None].  No exception leaves [_parse_fps]: it is a total function
    into values. *)
Theorem parse_fps_results (py_float : string -> result float)
  (H30 : py_float "30" = Ok 30%float)
  (H1 : py_float "1" = Ok 1%float)
  (H24000 : py_float "24000" = Ok 24000%float)
  (H1001 : py_float "1001" = Ok 1001%float)
  (H0 : py_float "0" = Ok 0%float) :
  _parse_fps py_float "30/1" = PyFloat 30%float /\
  (exists f, _parse_fps py_float "24000/1001" = PyFloat f /\
             f = PrimFloat.div 24000%float 1001%float /\
             PrimFloat.ltb 23.9755859375%float f = true /\
             PrimFloat.ltb f 23.9765625%float = true) /\
  _parse_fps py_float "0/0" = PyInt 0 /\
  (forall a b num den,
     contains "/" a = false -> contains "/" b = false ->
     py_float a = Ok num -> py_float b = Ok den ->
     PrimFloat.eqb den PrimFloat.zero = true ->
     _parse_fps py_float (a +:+ "/" +:+ b) = PyInt 0) /\
  (forall s e,
     contains "/" s = false -> py_float s = Raise e ->
     _parse_fps py_float s = PyNone) /\
  (forall a b e,
     contains "/" a = false -> contains "/" b = false ->
     py_float a = Raise e \/ py_float b = Raise e ->
     _parse_fps py_float (a +:+ "/" +:+ b) = PyNone).
Proof.
  repeat split.
  - unfold _parse_fps. change "30/1" with ("30" +:+ "/" +:+ "1").
    now rewrite (parse_fps_two_parts py_float "30" "1" _ _ eq_refl eq_refl H30 H1).
  - exists (PrimFloat.div 24000%float 1001%float). repeat split.
    unfold _parse_fps. change "24000/1001" with ("24000" +:+ "/" +:+ "1001").
    now rewrite (parse_fps_two_parts py_float "24000" "1001" _ _
                   eq_refl eq_refl H24000 H1001).
  - unfold _parse_fps. change "0/0" with ("0" +:+ "/" +:+ "0").
    now rewrite (parse_fps_two_parts py_float "0" "0" _ _ eq_refl eq_refl H0 H0).
  - intros a b num den Ha Hb Hnum Hden Hzero. unfold _parse_fps.
    now rewrite (parse_fps_two_parts py_float a b num den Ha Hb Hnum Hden), Hzero.
  - intros s e Hs He. unfold _parse_fps, parse_fps_body.
    now rewrite Hs, He.
  - intros a b e Ha Hb Hbad. unfold _parse_fps, parse_fps_body.
    change (a +:+ "/" +:+ b) with (a +:+ String "/" b).
    rewrite contains_append_sep, (split_once "/" a b Ha Hb). simpl.
    destruct Hbad as [Hbad | Hbad].
    + now rewrite Hbad.
    + rewrite Hbad. now destruct (py_float a).
Qed.

Lemma parse_fps_results_witness :
  _parse_fps float_of_digits "30/1" = PyFloat 30%float /\
  _parse_fps float_of_digits "0/0" = PyInt 0 /\
  _parse_fps float_of_digits "x/1" = PyNone.
Proof.
  destruct (parse_fps_results float_of_digits
              eq_refl eq_refl eq_refl eq_refl eq_refl)
    as (H30 & _ & H0 & _ & _ & Hbad).
  split; [exact H30 | split; [exact H0 |]].
  apply (Hbad "x" "1" (ValueError "could not convert string to float: 'x'")
           eq_refl eq_refl).
  left. reflexivity.
Defined.

(** ** The Format Catalog and the Transcoder *)

Lemma OUTPUT_FORMATS_lookup (f : string) :
  OUTPUT_FORMATS !! f =
    if decide ("mp4" = f) then Some (mkFormat "mp4" "libx264" "aac")
    else if decide ("webm" = f) then Some (mkFormat "webm" "libvpx-vp9" "libopus")
    else if decide ("avi" = f) then Some (mkFormat "avi" "libx264" "mp3")
    else if decide ("mkv" = f) then Some (mkFormat "mkv" "libx264" "aac")
    else None.
Proof.
  unfold OUTPUT_FORMATS, OUTPUT_FORMATS_items. simpl.
  rewrite !lookup_insert, lookup_empty. reflexivity.
Qed.

Lemma elem_of_supported_formats (f : string) :
  f ∈ supported_formats <-> f = "mp4" \/ f = "webm" \/ f = "avi" \/ f = "mkv".
Proof.
  unfold supported_formats, OUTPUT_FORMATS_items. simpl.
  rewrite !elem_of_cons, elem_of_nil. tauto.
Qed.

Lemma format_supported_spec (f : string) :
  format_supported f = true <-> f ∈ supported_formats.
Proof.
  unfold format_supported. rewrite bool_decide_eq_true, elem_of_supported_formats.
  rewrite OUTPUT_FORMATS_lookup.
  repeat case_decide; subst; split; intros Hx;
    try tauto; try (eexists; reflexivity).
  - destruct Hx as [x Hx]. discriminate Hx.
  - destruct Hx as [Hx | [Hx | [Hx | Hx]]]; congruence.
Qed.

(** What [convert] does once the catalog has an entry: the tool is called on
    the [ffmpeg] command, and its outcome decides the pair. *)
Lemma convert_supported tool input_path output_path output_format nastroyki w :
  OUTPUT_FORMATS !! output_format = Some nastroyki ->
  let komanda := ffmpeg_command input_path output_path output_format nastroyki in
  convert tool input_path output_path output_format w =
    match tool komanda 600%Z (snd (log_spawn komanda w)) with
    | (Ok rezultat, w1) =>
        (Ok ((returncode rezultat =? 0)%Z, stderr rezultat), w1)
    | (Raise e, w1) =>
        (Ok (false, match exc_class e with
                    | TimeoutExpired => timeout_message
                    | _ => exc_str e
                    end), w1)
    end.
Proof.
  intros Hfmt komanda. unfold convert. rewrite Hfmt.
  unfold try_except, subprocess_run, bind, log_spawn, ret. simpl.
  fold komanda.
  destruct (tool komanda 600%Z _) as [[rezultat | e] w1]; [reflexivity |].
  now destruct (exc_class e).
Qed.

Lemma convert_unsupported tool input_path output_path output_format w :
  OUTPUT_FORMATS !! output_format = None ->
  convert tool input_path output_path output_format w =
    (Ok (false, unsupported_format_message), w).
Proof. intros Hfmt. unfold convert. now rewrite Hfmt. Qed.

(** [convert] always returns a pair. *)
Lemma convert_returns tool input_path output_path output_format w :
  exists uspekh diag w1,
    convert tool input_path output_path output_format w = (Ok (uspekh, diag), w1).
Proof.
  destruct (OUTPUT_FORMATS !! output_format) as [nastroyki |] eqn:Hfmt.
  - rewrite (convert_supported _ _ _ _ _ _ Hfmt). simpl.
    destruct (tool _ _ _) as [[rezultat | e] w1]; eauto.
  - rewrite (convert_unsupported _ _ _ _ _ Hfmt). eauto.
Qed.

Example ffmpeg_command_mp4 :
  ffmpeg_command "in.avi" "out.mp4" "mp4" (mkFormat "mp4" "libx264" "aac") =
  ["ffmpeg"; "-i"; "in.avi"; "-c:v"; "libx264"; "-c:a"; "aac"; "-y"; "out.mp4"].
Proof. reflexivity. Qed.

Example ffmpeg_command_webm :
  ffmpeg_command "in.avi" "out.webm" "webm" (mkFormat "webm" "libvpx-vp9" "libopus") =
  ["ffmpeg"; "-i"; "in.avi"; "-c:v"; "libvpx-vp9"; "-c:a"; "libopus"; "-y";
   "-b:v"; "0"; "-crf"; "30"; "out.webm"].
Proof. reflexivity. Qed.

(** C7. The catalog has four distinct identifiers; each of them is found,
    with a non-empty extension, video codec and audio codec; any other string
    is not found, and [convert] then returns failure with the world as it
    was: no tool was called and no command was logged. *)
Theorem catalog_lookup_fails_closed (output_format : string) :
  length supported_formats = 4 /\
  NoDup supported_formats /\
  (output_format ∈ supported_formats ->
   exists nastroyki,
     OUTPUT_FORMATS !! output_format = Some nastroyki /\
     ext nastroyki <> "" /\ codec nastroyki <> "" /\ audio nastroyki <> "") /\
  (output_format ∉ supported_formats ->
   OUTPUT_FORMATS !! output_format = None /\
   forall tool input_path output_path w,
     convert tool input_path output_path output_format w =
       (Ok (false, unsupported_format_message), w) /\
     spawned (snd (convert tool input_path output_path output_format w)) =
       spawned w).
Proof.
  split; [reflexivity |]. split.
  { unfold supported_formats, OUTPUT_FORMATS_items. simpl.
    repeat (apply NoDup_cons; split;
            [rewrite ?elem_of_cons, elem_of_nil; intros H;
             repeat destruct H as [H | H]; discriminate || exact H |]).
    apply NoDup_nil. exact I. }
  split.
  - intros Hin. apply elem_of_supported_formats in Hin.
    destruct Hin as [-> | [-> | [-> | ->]]]; eexists;
      (split; [reflexivity | repeat split; discriminate]).
  - intros Hout.
    assert (Hnone : OUTPUT_FORMATS !! output_format = None).
    { rewrite OUTPUT_FORMATS_lookup.
      repeat case_decide; try reflexivity; subst; exfalso; apply Hout;
        apply elem_of_supported_formats; tauto. }
    split; [exact Hnone |].
    intros tool input_path output_path w.
    now rewrite (convert_unsupported _ _ _ _ _ Hnone).
Qed.

Lemma catalog_lookup_fails_closed_witness :
  (exists nastroyki, OUTPUT_FORMATS !! "webm" = Some nastroyki /\ codec nastroyki <> "") /\
  convert tool_writes_output "uploads/a.avi" "converted/a.mov" "mov" sample_world =
    (Ok (false, unsupported_format_message), sample_world).
Proof.
  split.
  - destruct (catalog_lookup_fails_closed "webm") as (_ & _ & Hin & _).
    destruct Hin as (nastroyki & Hn & _ & Hc & _).
    + apply elem_of_supported_formats. tauto.
    + exists nastroyki. split; assumption.
  - destruct (catalog_lookup_fails_closed "mov") as (_ & _ & _ & Hout).
    destruct Hout as (_ & Hconv).
    + rewrite elem_of_supported_formats. intros [H | [H | [H | H]]]; discriminate.
    + apply Hconv.
Defined.

Lemma timeout_message_not_unsupported :
  timeout_message <> unsupported_format_message.
Proof. discriminate. Qed.

Example convert_timeout :
  convert tool_times_out "uploads/job-1.avi" "converted/job-1.mp4" "mp4" world_without_task
  = (Ok (false, timeout_message),
     snd (log_spawn (ffmpeg_command "uploads/job-1.avi" "converted/job-1.mp4" "mp4"
                       (mkFormat "mp4" "libx264" "aac")) world_without_task)).
Proof. reflexivity. Qed.

Example convert_missing_binary :
  fst (convert tool_missing "uploads/job-1.avi" "converted/job-1.mp4" "mp4" world_without_task)
  = Ok (false, "[Errno 2] No such file or directory: 'ffmpeg'").
Proof. reflexivity. Qed.

(** C4, where the claim fails: an encoder that exits with status 1 and
    whose error stream is the sentence of the timeout message is answered
    exactly as an encoder that exceeds the time limit, and so is an encoder
    that cannot be launched when the text of the exception is that
    sentence; the diagnostic does not tell the caller which of them
    happened. *)
Lemma convert_timeout_diagnostic_not_distinct :
  convert tool_times_out "uploads/job-1.avi" "converted/job-1.mp4" "mp4" sample_world
  = (Ok (false, timeout_message),
     snd (log_spawn (ffmpeg_command "uploads/job-1.avi" "converted/job-1.mp4" "mp4"
                       (mkFormat "mp4" "libx264" "aac")) sample_world)) /\
  convert (tool_exits 1 timeout_message)
    "uploads/job-1.avi" "converted/job-1.mp4" "mp4" sample_world
  = convert tool_times_out
      "uploads/job-1.avi" "converted/job-1.mp4" "mp4" sample_world /\
  convert (fun _ _ w => (Raise (mkExc OtherException timeout_message), w))
    "uploads/job-1.avi" "converted/job-1.mp4" "mp4" sample_world
  = convert tool_times_out
      "uploads/job-1.avi" "converted/job-1.mp4" "mp4" sample_world.
Proof. repeat split. Qed.

(** C4 (amended). For every input path, output path and format identifier,
    and whatever the external tool does, [convert] returns a pair and raises
    nothing.  A timeout gives [(False, timeout_message)], whatever text the
    exception itself carries; any other exception of the call gives [False]
    with [str(e)]; a finished run gives the exit-status test with the tool's
    error stream.  The timeout message is the program's own constant, not
    empty and different from the unsupported-format message; and a
    diagnostic equal to it comes from a timeout or from a tool or an
    operating system whose own text is that very sentence, from nothing
    else. *)
Theorem convert_never_raises_and_marks_timeout
    (tool : list string -> Z -> World -> result CompletedProcess * World)
    (input_path output_path output_format : string) (w : World) :
  (exists uspekh diag w1,
     convert tool input_path output_path output_format w = (Ok (uspekh, diag), w1)) /\
  (forall nastroyki,
     OUTPUT_FORMATS !! output_format = Some nastroyki ->
     let komanda := ffmpeg_command input_path output_path output_format nastroyki in
     let w0 := snd (log_spawn komanda w) in
     (forall e w1,
        tool komanda 600%Z w0 = (Raise e, w1) -> exc_class e = TimeoutExpired ->
        convert tool input_path output_path output_format w =
          (Ok (false, timeout_message), w1)) /\
     (forall e w1,
        tool komanda 600%Z w0 = (Raise e, w1) -> exc_class e <> TimeoutExpired ->
        convert tool input_path output_path output_format w =
          (Ok (false, exc_str e), w1)) /\
     (forall rezultat w1,
        tool komanda 600%Z w0 = (Ok rezultat, w1) ->
        convert tool input_path output_path output_format w =
          (Ok ((returncode rezultat =? 0)%Z, stderr rezultat), w1))) /\
  timeout_message <> unsupported_format_message /\
  timeout_message <> "" /\
  (forall uspekh w1,
     convert tool input_path output_path output_format w =
       (Ok (uspekh, timeout_message), w1) ->
     exists nastroyki,
       OUTPUT_FORMATS !! output_format = Some nastroyki /\
       let komanda := ffmpeg_command input_path output_path output_format nastroyki in
       match fst (tool komanda 600%Z (snd (log_spawn komanda w))) with
       | Raise e => exc_class e = TimeoutExpired \/ exc_str e = timeout_message
       | Ok rezultat => stderr rezultat = timeout_message
       end).
Proof.
  split; [apply convert_returns |].
  split; [| split; [discriminate | split; [discriminate |]]].
  - intros nastroyki Hfmt komanda w0. subst w0 komanda.
    pose proof (convert_supported tool input_path output_path output_format
                  nastroyki w Hfmt) as Hconv.
    cbv zeta in Hconv.
    split; [| split].
    + intros e w1 Htool Hclass. rewrite Hconv, Htool, Hclass. reflexivity.
    + intros e w1 Htool Hclass. rewrite Hconv, Htool.
      destruct (exc_class e); congruence.
    + intros rezultat w1 Htool. rewrite Hconv, Htool. reflexivity.
  - intros uspekh w1.
    destruct (OUTPUT_FORMATS !! output_format) as [nastroyki |] eqn:Hfmt.
    + rewrite (convert_supported _ _ _ _ _ _ Hfmt). cbv zeta.
      intros Hconv. exists nastroyki. split; [reflexivity |].
      destruct (tool _ _ _) as [[rezultat | e] w2]; simpl in *.
      * congruence.
      * destruct (exc_class e); [now left | right; congruence..].
    + rewrite (convert_unsupported _ _ _ _ _ Hfmt). discriminate.
Qed.

Lemma convert_never_raises_and_marks_timeout_witness :
  convert tool_times_out "uploads/job-1.avi" "converted/job-1.mp4" "mp4" sample_world =
    (Ok (false, timeout_message),
     snd (log_spawn (ffmpeg_command "uploads/job-1.avi" "converted/job-1.mp4" "mp4"
                       (mkFormat "mp4" "libx264" "aac")) sample_world)) /\
  convert tool_missing "uploads/job-1.avi" "converted/job-1.mp4" "mp4" sample_world =
    (Ok (false, "[Errno 2] No such file or directory: 'ffmpeg'"),
     snd (log_spawn (ffmpeg_command "uploads/job-1.avi" "converted/job-1.mp4" "mp4"
                       (mkFormat "mp4" "libx264" "aac")) sample_world)).
Proof.
  split.
  - destruct (convert_never_raises_and_marks_timeout tool_times_out
                "uploads/job-1.avi" "converted/job-1.mp4" "mp4" sample_world)
      as (_ & Hcases & _).
    destruct (Hcases (mkFormat "mp4" "libx264" "aac") eq_refl) as (Htimeout & _).
    apply (Htimeout
             (mkExc TimeoutExpired "Command 'ffmpeg' timed out after 600 seconds"));
      reflexivity.
  - destruct (convert_never_raises_and_marks_timeout tool_missing
                "uploads/job-1.avi" "converted/job-1.mp4" "mp4" sample_world)
      as (_ & Hcases & _).
    destruct (Hcases (mkFormat "mp4" "libx264" "aac") eq_refl) as (_ & Hother & _).
    apply (Hother (FileNotFoundError "ffmpeg")); [reflexivity | discriminate].
Defined.

(** ** The Job Runner *)

(** What the runner does, case by case on what the transcoder did and on
    whether the record is still there. *)
Lemma process_conversion_with_run transcode id input_path output_path output_format w :
  process_conversion_with transcode id input_path output_path output_format w =
    match transcode input_path output_path output_format w with
    | (Ok (uspekh, diag), w1) =>
        match tasks w1 !! id with
        | Some z =>
            (Ok tt,
             mkWorld
               (<[id := if uspekh && bool_decide (output_path ∈ files w1)
                        then mark_completed z
                        else mark_error z (str_or diag unknown_error_message)]>
                  (tasks w1))
               (files w1) (spawned w1) (threads w1))
        | None => (Ok tt, w1)
        end
    | (Raise e, w1) =>
        match tasks w1 !! id with
        | Some z =>
            (Ok tt,
             mkWorld (<[id := mark_error z (exc_str e)]> (tasks w1))
                     (files w1) (spawned w1) (threads w1))
        | None => (Ok tt, w1)
        end
    end.
Proof.
  unfold process_conversion_with, try_except, bind, get_task, path_exists,
    update_task, set_tasks, ret.
  destruct (transcode input_path output_path output_format w)
    as [[[uspekh diag] | e] w1]; simpl.
  - destruct (tasks w1 !! id) as [z |]; [| reflexivity].
    destruct uspekh, (bool_decide (output_path ∈ files w1)); reflexivity.
  - destruct (tasks w1 !! id) as [z |]; reflexivity.
Qed.

Lemma str_or_nonempty x default : default <> "" -> str_or x default <> "".
Proof. intros Hd. destruct x; simpl; [exact Hd | discriminate]. Qed.

Example process_conversion_success :
  tasks (snd (process_conversion tool_writes_output "job-1" "uploads/job-1.avi"
                "converted/job-1.mp4" "mp4" sample_world)) !! "job-1"
  = Some (mark_completed sample_task).
Proof. vm_compute. reflexivity. Qed.

Example process_conversion_success_without_output :
  tasks (snd (process_conversion (tool_exits 0 "") "job-1" "uploads/job-1.avi"
                "converted/job-1.mp4" "mp4" sample_world)) !! "job-1"
  = Some (mark_error sample_task unknown_error_message).
Proof. vm_compute. reflexivity. Qed.

Example process_conversion_timeout :
  tasks (snd (process_conversion tool_times_out "job-1" "uploads/job-1.avi"
                "converted/job-1.mp4" "mp4" sample_world)) !! "job-1"
  = Some (mark_error sample_task timeout_message).
Proof. vm_compute. reflexivity. Qed.

(** C1. When the transcode has returned [(uspekh, diag)] and the record of
    the token is in the registry, [process_conversion] leaves that record
    ['completed'] exactly when [uspekh] is true and the output path exists in
    the world the transcode left; otherwise it leaves it ['error'].  So a
    reported success without an output file gives ['error']. *)
Theorem process_conversion_completed_iff_success_and_output
    (tool : list string -> Z -> World -> result CompletedProcess * World)
    (id input_path output_path output_format : string)
    (w w1 : World) (uspekh : bool) (diag : string) (z : ConversionTask)
    (Hconvert : convert tool input_path output_path output_format w
                = (Ok (uspekh, diag), w1))
    (Hpresent : tasks w1 !! id = Some z) :
  exists z',
    tasks (snd (process_conversion tool id input_path output_path output_format w))
      !! id = Some z' /\
    (status z' = Completed <-> uspekh = true /\ output_path ∈ files w1) /\
    (status z' = Error <-> ~ (uspekh = true /\ output_path ∈ files w1)) /\
    (uspekh = true -> output_path ∉ files w1 -> status z' = Error).
Proof.
  unfold process_conversion.
  rewrite process_conversion_with_run, Hconvert, Hpresent. simpl.
  rewrite lookup_insert_eq. eexists. split; [reflexivity |].
  destruct uspekh; simpl.
  - destruct (decide (output_path ∈ files w1)) as [Hin | Hout].
    + rewrite (bool_decide_eq_true_2 _ Hin). simpl.
      intuition (try discriminate; try congruence).
    + rewrite (bool_decide_eq_false_2 _ Hout). simpl.
      intuition (try discriminate; try congruence).
  - intuition (try discriminate; try congruence).
Qed.

Lemma process_conversion_completed_iff_success_and_output_witness :
  exists z',
    tasks (snd (process_conversion (tool_exits 0 "") "job-1" "uploads/job-1.avi"
                  "converted/job-1.mp4" "mp4" sample_world)) !! "job-1" = Some z' /\
    status z' = Error.
Proof.
  destruct (process_conversion_completed_iff_success_and_output
              (tool_exits 0 "") "job-1" "uploads/job-1.avi" "converted/job-1.mp4" "mp4"
              sample_world
              (snd (log_spawn (ffmpeg_command "uploads/job-1.avi"
                                 "converted/job-1.mp4" "mp4"
                                 (mkFormat "mp4" "libx264" "aac")) sample_world))
              true "" sample_task eq_refl eq_refl)
    as (z' & Hz' & _ & _ & Herr).
  exists z'. split; [exact Hz' |].
  apply Herr; [reflexivity |].
  vm_compute. intros H. discriminate H.
Defined.

Lemma process_conversion_with_returns transcode id input_path output_path output_format w :
  fst (process_conversion_with transcode id input_path output_path output_format w)
  = Ok tt.
Proof.
  rewrite process_conversion_with_run.
  destruct (transcode input_path output_path output_format w)
    as [[[uspekh diag] | e] w1];
    destruct (tasks w1 !! id); reflexivity.
Qed.

Example process_conversion_after_cleanup :
  process_conversion (tool_exits 1 "Invalid data found when processing input")
    "job-1" "uploads/job-1.avi" "converted/job-1.mp4" "mp4" world_without_task
  = (Ok tt,
     snd (log_spawn (ffmpeg_command "uploads/job-1.avi" "converted/job-1.mp4" "mp4"
                       (mkFormat "mp4" "libx264" "aac")) world_without_task)).
Proof. vm_compute. reflexivity. Qed.

(** C5. Whatever the transcoder called by the runner does, returning or
    raising: the runner itself returns normally; if the record of the token
    is absent from the registry when the transcoder is done, the runner
    leaves the world exactly as the transcoder left it, so nothing is written
    and no record is created; if the transcoder raised [e] and the record is
    there, the record becomes ['error'] with [str(e)] as its message.  This
    holds in particular for [process_conversion], the runner over [convert]. *)
Theorem process_conversion_tolerates_deletion_and_faults
    (transcode : string -> string -> string -> M (bool * string))
    (tool : list string -> Z -> World -> result CompletedProcess * World)
    (id input_path output_path output_format : string) (w : World) :
  fst (process_conversion_with transcode id input_path output_path output_format w)
    = Ok tt /\
  fst (process_conversion tool id input_path output_path output_format w) = Ok tt /\
  (forall r w1,
     transcode input_path output_path output_format w = (r, w1) ->
     tasks w1 !! id = None ->
     process_conversion_with transcode id input_path output_path output_format w
       = (Ok tt, w1)) /\
  (forall r w1,
     convert tool input_path output_path output_format w = (r, w1) ->
     tasks w1 !! id = None ->
     process_conversion tool id input_path output_path output_format w
       = (Ok tt, w1)) /\
  (forall e w1 z,
     transcode input_path output_path output_format w = (Raise e, w1) ->
     tasks w1 !! id = Some z ->
     exists w2 z',
       process_conversion_with transcode id input_path output_path output_format w
         = (Ok tt, w2) /\
       tasks w2 !! id = Some z' /\
       z' = mark_error z (exc_str e) /\
       status z' = Error /\ error z' = Some (exc_str e) /\
       (forall other, other <> id -> tasks w2 !! other = tasks w1 !! other)).
Proof.
  split; [apply process_conversion_with_returns |].
  split; [apply process_conversion_with_returns |].
  assert (Hgone : forall tr r w1,
             tr input_path output_path output_format w = (r, w1) ->
             tasks w1 !! id = None ->
             process_conversion_with tr id input_path output_path output_format w
             = (Ok tt, w1)).
  { intros tr r w1 Htr Hnone. rewrite process_conversion_with_run, Htr.
    destruct r as [[uspekh diag] | e]; now rewrite Hnone. }
  split; [apply Hgone |].
  split; [apply Hgone |].
  intros e w1 z Htr Hsome.
  rewrite process_conversion_with_run, Htr, Hsome.
  eexists _, _. split; [reflexivity |]. simpl.
  split; [apply lookup_insert_eq |].
  repeat split.
  intros other Hother. now apply lookup_insert_ne.
Qed.

Lemma process_conversion_tolerates_deletion_and_faults_witness :
  process_conversion tool_writes_output "job-1" "uploads/job-1.avi"
    "converted/job-1.mp4" "mp4" world_without_task
  = (Ok tt,
     snd (convert tool_writes_output "uploads/job-1.avi" "converted/job-1.mp4" "mp4"
            world_without_task)) /\
  exists w2,
    process_conversion_with (fun _ _ _ => raise (mkExc OtherException "disk quota exceeded"))
      "job-1" "uploads/job-1.avi" "converted/job-1.mp4" "mp4" sample_world
    = (Ok tt, w2) /\
    tasks w2 !! "job-1" = Some (mark_error sample_task "disk quota exceeded").
Proof.
  destruct (process_conversion_tolerates_deletion_and_faults
              (fun _ _ _ => raise (mkExc OtherException "disk quota exceeded"))
              tool_writes_output "job-1" "uploads/job-1.avi" "converted/job-1.mp4"
              "mp4" world_without_task) as (_ & _ & _ & Hgone & _).
  split.
  - apply (Hgone (fst (convert tool_writes_output "uploads/job-1.avi"
                         "converted/job-1.mp4" "mp4" world_without_task)));
      [apply surjective_pairing | reflexivity].
  - destruct (process_conversion_tolerates_deletion_and_faults
                (fun _ _ _ => raise (mkExc OtherException "disk quota exceeded"))
                tool_writes_output "job-1" "uploads/job-1.avi" "converted/job-1.mp4"
                "mp4" sample_world) as (_ & _ & _ & _ & Hfault).
    destruct (Hfault (mkExc OtherException "disk quota exceeded") sample_world
                sample_task eq_refl eq_refl)
      as (w2 & z' & Hrun & Hz' & -> & _).
    exists w2. split; assumption.
Defined.

(** ** Polling and cleanup *)

Lemma status_absent id w :
  tasks w !! id = None -> Routes.status id w = (Ok StatusNotFound, w).
Proof.
  intros Hnone. unfold Routes.status, bind, task_exists, ret. simpl.
  rewrite Hnone. rewrite bool_decide_eq_false_2; [reflexivity |].
  intros [x Hx]. discriminate.
Qed.

Lemma status_present id w z :
  tasks w !! id = Some z ->
  Routes.status id w = (Ok (StatusJson (status z) (error z)), w).
Proof.
  intros Hsome. unfold Routes.status, bind, task_exists, get_task, ret. simpl.
  rewrite bool_decide_eq_true_2 by eauto. simpl. now rewrite Hsome.
Qed.

Lemma cleanup_absent remove_fault id w :
  tasks w !! id = None ->
  Routes.cleanup remove_fault id w = (Ok (CleanupNotFound task_not_found_message), w).
Proof.
  intros Hnone. unfold Routes.cleanup, bind, task_exists, ret. simpl.
  rewrite Hnone. rewrite bool_decide_eq_false_2; [reflexivity |].
  intros [x Hx]. discriminate.
Qed.

Lemma cleanup_present remove_fault id w z :
  tasks w !! id = Some z ->
  Routes.cleanup remove_fault id w =
    if bool_decide (input_path z ∈ files w) then
      match remove_fault (input_path z) with
      | Some e => (Ok (CleanupFailed (exc_str e)), w)
      | None =>
          cleanup_output_phase remove_fault id z
            (mkWorld (tasks w) (files w ∖ {[input_path z]}) (spawned w) (threads w))
      end
    else cleanup_output_phase remove_fault id z w.
Proof.
  intros Hsome.
  assert (Hex : bool_decide (is_Some (tasks w !! id)) = true).
  { apply bool_decide_eq_true_2. eauto. }
  unfold Routes.cleanup, cleanup_output_phase, Routes.os_remove, try_except, bind,
    task_exists, get_task, delete_task, task_exists, path_exists, set_tasks,
    set_files, raise, ret.
  simpl. rewrite Hex. simpl. rewrite Hsome. unfold bind. simpl.
  destruct (bool_decide (input_path z ∈ files w)) eqn:Hin; simpl.
  - rewrite Hin.
    destruct (remove_fault (input_path z)) as [e |]; simpl; [reflexivity |].
    destruct (bool_decide (output_path z ∈ files w ∖ {[input_path z]})) eqn:Hout;
      simpl.
    + rewrite Hout.
      destruct (remove_fault (output_path z)) as [e |]; simpl; [reflexivity |].
      now rewrite Hex.
    + now rewrite Hex.
  - destruct (bool_decide (output_path z ∈ files w)) eqn:Hout; simpl.
    + rewrite Hout.
      destruct (remove_fault (output_path z)) as [e |]; simpl; [reflexivity |].
      now rewrite Hex.
    + now rewrite Hex.
Qed.

Example cleanup_sample :
  Routes.cleanup no_remove_fault "job-1" sample_world
  = (Ok CleanupDone,
     mkWorld ∅ ∅ [] [mkJob "job-1" "uploads/job-1.avi" "converted/job-1.mp4" "mp4"]).
Proof. vm_compute. reflexivity. Qed.

(** When [os.remove] is refused, [cleanup] answers with the failure and the
    record stays: the next poll still finds the job. *)
Lemma cleanup_refused_keeps_record :
  tasks sample_world !! "job-1" = Some sample_task /\
  Routes.cleanup remove_denied "job-1" sample_world
    = (Ok (CleanupFailed "[Errno 13] Permission denied: 'uploads/job-1.avi'"),
       sample_world) /\
  fst (Routes.cleanup remove_denied "job-1" sample_world) <> Ok CleanupDone /\
  Routes.status "job-1" (snd (Routes.cleanup remove_denied "job-1" sample_world))
    <> (Ok StatusNotFound, snd (Routes.cleanup remove_denied "job-1" sample_world)).
Proof.
  split; [reflexivity |].
  split; [vm_compute; reflexivity |].
  split; [vm_compute; discriminate |].
  vm_compute. discriminate.
Qed.

(** C9 (amended).  For a token absent from the registry [cleanup] answers
    'not found' and touches nothing.  For a token that is present: when
    [os.remove] is not refused on the job's files that exist, both files are
    gone afterwards (a missing one is skipped), the record is deleted, the
    answer is success and the next poll of the token says [not_found]; when
    [os.remove] is refused with [e], the answer is the failure with [str(e)]
    and the record stays in the registry. *)
Theorem cleanup_outcomes
    (remove_fault : string -> option PyException) (id : string) (w : World) :
  (tasks w !! id = None ->
   Routes.cleanup remove_fault id w
     = (Ok (CleanupNotFound task_not_found_message), w)) /\
  (forall z,
     tasks w !! id = Some z ->
     ((input_path z ∈ files w -> remove_fault (input_path z) = None) ->
      (output_path z ∈ files w -> remove_fault (output_path z) = None) ->
      exists w',
        Routes.cleanup remove_fault id w = (Ok CleanupDone, w') /\
        tasks w' = delete id (tasks w) /\
        files w' = files w ∖ {[input_path z]} ∖ {[output_path z]} /\
        (input_path z ∉ files w') /\ (output_path z ∉ files w') /\
        tasks w' !! id = None /\
        Routes.status id w' = (Ok StatusNotFound, w') /\
        (forall other, other <> id -> tasks w' !! other = tasks w !! other)) /\
     (forall e,
        input_path z ∈ files w -> remove_fault (input_path z) = Some e ->
        Routes.cleanup remove_fault id w = (Ok (CleanupFailed (exc_str e)), w)) /\
     (forall e,
        (input_path z ∈ files w -> remove_fault (input_path z) = None) ->
        output_path z ∈ files w -> remove_fault (output_path z) = Some e ->
        exists w',
          Routes.cleanup remove_fault id w = (Ok (CleanupFailed (exc_str e)), w') /\
          tasks w' = tasks w /\
          files w' = files w ∖ {[input_path z]})).
Proof.
  split; [apply cleanup_absent |].
  intros z Hsome. rewrite (cleanup_present remove_fault id w z Hsome).
  unfold cleanup_output_phase.
  split; [| split].
  - intros Hin_ok Hout_ok.
    assert (Hfinish : forall w',
              tasks w' = delete id (tasks w) ->
              files w' = files w ∖ {[input_path z]} ∖ {[output_path z]} ->
              tasks w' = delete id (tasks w) /\
              files w' = files w ∖ {[input_path z]} ∖ {[output_path z]} /\
              (input_path z ∉ files w') /\ (output_path z ∉ files w') /\
              tasks w' !! id = None /\
              Routes.status id w' = (Ok StatusNotFound, w') /\
              (forall other, other <> id -> tasks w' !! other = tasks w !! other)).
    { intros w' Ht Hf.
      assert (Hnone : tasks w' !! id = None) by (rewrite Ht; apply lookup_delete_eq).
      repeat split; auto.
      - rewrite Hf, !elem_of_difference, !elem_of_singleton. intuition.
      - rewrite Hf, !elem_of_difference, !elem_of_singleton. intuition.
      - now apply status_absent.
      - intros other Hother. rewrite Ht. now apply lookup_delete_ne. }
    destruct (decide (input_path z ∈ files w)) as [Hin | Hin].
    + rewrite (bool_decide_eq_true_2 _ Hin), (Hin_ok Hin). simpl.
      destruct (decide (output_path z ∈ files w ∖ {[input_path z]})) as [Hout | Hout].
      * rewrite (bool_decide_eq_true_2 _ Hout).
        assert (Hout' : output_path z ∈ files w) by set_solver.
        rewrite (Hout_ok Hout').
        eexists. split; [reflexivity |]. apply Hfinish; reflexivity.
      * rewrite (bool_decide_eq_false_2 _ Hout).
        eexists. split; [reflexivity |]. apply Hfinish; [reflexivity |].
        simpl. set_solver.
    + rewrite (bool_decide_eq_false_2 _ Hin).
      destruct (decide (output_path z ∈ files w)) as [Hout | Hout].
      * rewrite (bool_decide_eq_true_2 _ Hout), (Hout_ok Hout).
        eexists. split; [reflexivity |]. apply Hfinish; [reflexivity |].
        simpl. set_solver.
      * rewrite (bool_decide_eq_false_2 _ Hout).
        eexists. split; [reflexivity |]. apply Hfinish; [reflexivity |].
        simpl. set_solver.
  - intros e Hin He. now rewrite (bool_decide_eq_true_2 _ Hin), He.
  - intros e Hin_ok Hout He.
    assert (Hne : output_path z <> input_path z).
    { intros Heq. rewrite Heq in Hout, He. rewrite (Hin_ok Hout) in He. discriminate. }
    destruct (decide (input_path z ∈ files w)) as [Hin | Hin].
    + rewrite (bool_decide_eq_true_2 _ Hin), (Hin_ok Hin). simpl.
      rewrite bool_decide_eq_true_2 by set_solver. rewrite He.
      eexists. split; [reflexivity |]. split; reflexivity.
    + rewrite (bool_decide_eq_false_2 _ Hin).
      rewrite (bool_decide_eq_true_2 _ Hout), He.
      eexists. split; [reflexivity |]. split; [reflexivity |]. set_solver.
Qed.

Lemma cleanup_outcomes_witness :
  (exists w',
     Routes.cleanup no_remove_fault "job-1" sample_world = (Ok CleanupDone, w') /\
     Routes.status "job-1" w' = (Ok StatusNotFound, w')) /\
  Routes.cleanup no_remove_fault "job-1" world_without_task
    = (Ok (CleanupNotFound task_not_found_message), world_without_task) /\
  Routes.cleanup remove_denied "job-1" sample_world
    = (Ok (CleanupFailed "[Errno 13] Permission denied: 'uploads/job-1.avi'"),
       sample_world).
Proof.
  split; [| split].
  - destruct (cleanup_outcomes no_remove_fault "job-1" sample_world) as (_ & Hpresent).
    destruct (Hpresent sample_task eq_refl) as (Hdone & _).
    destruct Hdone as (w' & Hrun & _ & _ & _ & _ & _ & Hpoll & _);
      [reflexivity | reflexivity |].
    exists w'. split; assumption.
  - destruct (cleanup_outcomes no_remove_fault "job-1" world_without_task)
      as (Habsent & _).
    apply Habsent. reflexivity.
  - destruct (cleanup_outcomes remove_denied "job-1" sample_world) as (_ & Hpresent).
    destruct (Hpresent sample_task eq_refl) as (_ & Hrefused & _).
    apply (Hrefused (mkExc OtherException
                       "[Errno 13] Permission denied: 'uploads/job-1.avi'")).
    + vm_compute. reflexivity.
    + reflexivity.
Defined.

(** ** Upload intake *)

Lemma is_allowed_returns str_lower self filename :
  exists b, is_allowed str_lower self filename = Ok b.
Proof.
  unfold is_allowed. destruct (contains "." filename) eqn:Hdot; [| eauto].
  destruct (rsplit1_sep _ _ Hdot) as (stem & e & _ & _ & ->). simpl. eauto.
Qed.

Lemma get_video_info_run tool decode_probe filepath w :
  exists info,
    get_video_info tool decode_probe filepath w =
      (Ok info,
       snd (tool (ffprobe_command filepath) 10%Z
              (snd (log_spawn (ffprobe_command filepath) w)))).
Proof.
  unfold get_video_info, try_except, subprocess_run, bind, lift, ret, log_spawn.
  simpl.
  destruct (tool (ffprobe_command filepath) 10%Z _) as [[rezultat | e] w1]; simpl;
    [| eauto].
  destruct (returncode rezultat =? 0)%Z; [| eauto].
  destruct (decode_probe (stdout rezultat)); eauto.
Qed.

(** The [try] block of [upload_file], step by step. *)
Lemma upload_body_run str_lower secure_filename tool decode_probe
      fail format_vyhoda unikalnyy_id save_fault start_fault w :
  Routes.upload_body str_lower secure_filename tool decode_probe
    fail format_vyhoda unikalnyy_id save_fault start_fault w =
  match py_index (rsplit1 "." (secure_filename (filename fail))) 1 with
  | Raise e => (Raise e, w)
  | Ok rasshirenie_ =>
      let put_vhodnogo :=
        path_join UPLOAD_FOLDER (unikalnyy_id +:+ "." +:+ str_lower rasshirenie_) in
      match save_fault with
      | Some e => (Raise e, w)
      | None =>
          match get_video_info tool decode_probe put_vhodnogo
                  (mkWorld (tasks w) ({[put_vhodnogo]} ∪ files w)
                           (spawned w) (threads w)) with
          | (Raise e, w2) => (Raise e, w2)
          | (Ok video_informatsiya, w2) =>
              match catalog_getitem format_vyhoda with
              | Raise e => (Raise e, w2)
              | Ok nastroyki =>
                  let imya_vyhodnogo := unikalnyy_id +:+ "." +:+ ext nastroyki in
                  let put_vyhodnogo := path_join CONVERTED_FOLDER imya_vyhodnogo in
                  let zadacha :=
                    new_task unikalnyy_id put_vhodnogo put_vyhodnogo
                      imya_vyhodnogo (secure_filename (filename fail))
                      format_vyhoda video_informatsiya in
                  match start_fault with
                  | Some e =>
                      (Raise e,
                       mkWorld (<[unikalnyy_id := zadacha]> (tasks w2))
                               (files w2) (spawned w2) (threads w2))
                  | None =>
                      (Ok (RedirectProcessing unikalnyy_id),
                       mkWorld
                         (<[unikalnyy_id := zadacha]> (tasks w2))
                         (files w2) (spawned w2)
                         (threads w2 ++
                            [mkJob unikalnyy_id put_vhodnogo put_vyhodnogo
                                   format_vyhoda])%list)
                  end
              end
          end
      end
  end.
Proof.
  unfold Routes.upload_body, bind, lift, save, raise, set_files, create_task,
    thread_start, set_tasks, set_threads, ret.
  destruct (py_index _ 1) as [rasshirenie_ | e]; [| reflexivity].
  destruct save_fault as [e |]; [reflexivity |]. simpl.
  destruct (get_video_info _ _ _ _) as [[info | e] w2]; [| reflexivity].
  unfold bind. destruct (catalog_getitem format_vyhoda); [| reflexivity].
  destruct start_fault; reflexivity.
Qed.

Lemma upload_error_prefix_not_unsupported s :
  upload_error_prefix +:+ s <> unsupported_format_message.
Proof. unfold upload_error_prefix, unsupported_format_message. simpl. discriminate. Qed.

(** Past the format check no path of [upload_file] answers with the
    unsupported-format rejection. *)
Lemma upload_after_format_check_not_unsupported
      str_lower secure_filename tool decode_probe fail format_vyhoda
      unikalnyy_id save_fault start_fault w :
  fst (Routes.upload_after_format_check str_lower secure_filename tool decode_probe
         fail format_vyhoda unikalnyy_id save_fault start_fault w)
  <> Ok (RedirectError unsupported_format_message).
Proof.
  unfold Routes.upload_after_format_check, bind, lift.
  destruct (is_allowed_returns str_lower file_validator (filename fail)) as [b ->].
  destruct b; simpl; [| discriminate].
  unfold try_except. rewrite upload_body_run.
  assert (Hhandler : forall e w',
            fst (match exc_class e with
                 | RequestEntityTooLarge => ret (RedirectError too_large_message)
                 | _ => ret (RedirectError (upload_error_prefix +:+ exc_str e))
                 end w')
            <> Ok (RedirectError unsupported_format_message)).
  { intros e w'. destruct (exc_class e); simpl; try discriminate;
      intros H; injection H as H;
      now apply upload_error_prefix_not_unsupported in H. }
  destruct (py_index _ 1) as [rasshirenie_ | e]; [| apply Hhandler].
  destruct save_fault as [e |]; [apply Hhandler |]. cbv zeta.
  destruct (get_video_info _ _ _ _) as [[info | e] w2]; [| apply Hhandler].
  destruct (catalog_getitem format_vyhoda) as [nastroyki | e]; [| apply Hhandler].
  cbv zeta. destruct start_fault as [e |]; [apply Hhandler |].
  simpl. discriminate.
Qed.

Example upload_without_format_field :
  fst (Routes.upload_file lower_ascii secure_filename_id tool_writes_output
         decode_unavailable (mkRequest (Some (mkFile "clip.AVI")) None)
         "job-2" None None world_without_task)
  = Ok (RedirectProcessing "job-2").
Proof. vm_compute. reflexivity. Qed.

Example upload_with_unknown_format :
  Routes.upload_file lower_ascii secure_filename_id tool_writes_output
    decode_unavailable (mkRequest (Some (mkFile "clip.avi")) (Some "gif"))
    "job-2" None None world_without_task
  = (Ok (RedirectError unsupported_format_message), world_without_task).
Proof. vm_compute. reflexivity. Qed.

Example upload_without_file_or_format :
  Routes.upload_file lower_ascii secure_filename_id tool_writes_output
    decode_unavailable (mkRequest None None) "job-2" None None world_without_task
  = (Ok (RedirectError no_file_message), world_without_task).
Proof. reflexivity. Qed.

(** C10. A request whose form has no [format] field is handled with the
    format ['mp4'], which the catalog has: when it carries a file with a
    non-empty name, [upload_file] goes on past the format check to the
    extension check and what follows, and a job it accepts is recorded with
    format ['mp4'] and an output name ending in [.mp4].  For every request,
    the unsupported-format rejection is answered only when the form supplies
    an identifier and that identifier is outside the catalog. *)
Theorem upload_missing_format_defaults_to_mp4
    (str_lower secure_filename : string -> string)
    (tool : list string -> Z -> World -> result CompletedProcess * World)
    (decode_probe : string -> result VideoInfo)
    (req : Request) (unikalnyy_id : string) (save_fault start_fault : option PyException)
    (w : World) :
  (form_format req = None ->
   Routes.requested_format req = "mp4" /\
   format_supported (Routes.requested_format req) = true /\
   fst (Routes.upload_file str_lower secure_filename tool decode_probe
          req unikalnyy_id save_fault start_fault w)
     <> Ok (RedirectError unsupported_format_message) /\
   (forall fail,
      request_file req = Some fail -> filename fail <> "" ->
      Routes.upload_file str_lower secure_filename tool decode_probe
        req unikalnyy_id save_fault start_fault w
      = Routes.upload_after_format_check str_lower secure_filename tool decode_probe
          fail "mp4" unikalnyy_id save_fault start_fault w) /\
   (forall task_id w',
      Routes.upload_file str_lower secure_filename tool decode_probe
        req unikalnyy_id save_fault start_fault w = (Ok (RedirectProcessing task_id), w') ->
      exists zadacha,
        tasks w' !! task_id = Some zadacha /\
        format zadacha = "mp4" /\
        output_filename zadacha = task_id +:+ ".mp4")) /\
  (fst (Routes.upload_file str_lower secure_filename tool decode_probe
          req unikalnyy_id save_fault start_fault w)
     = Ok (RedirectError unsupported_format_message) ->
   exists f, form_format req = Some f /\ f ∉ supported_formats).
Proof.
  assert (Hconverse :
            fst (Routes.upload_file str_lower secure_filename tool decode_probe
                   req unikalnyy_id save_fault start_fault w)
              = Ok (RedirectError unsupported_format_message) ->
            exists f, form_format req = Some f /\ f ∉ supported_formats).
  { unfold Routes.upload_file, Routes.requested_format.
    destruct (request_file req) as [fail |]; [| discriminate].
    destruct (String.eqb (filename fail) ""); [discriminate |].
    destruct (format_supported (default "mp4" (form_format req))) eqn:Hsup; simpl.
    - intros H. now apply upload_after_format_check_not_unsupported in H.
    - intros _. destruct (form_format req) as [f |]; simpl in Hsup.
      + exists f. split; [reflexivity |].
        rewrite <- format_supported_spec, Hsup. discriminate.
      + discriminate Hsup. }
  split; [| exact Hconverse].
  intros Hnone.
  assert (Hfmt : Routes.requested_format req = "mp4").
  { unfold Routes.requested_format. now rewrite Hnone. }
  split; [exact Hfmt |]. split; [now rewrite Hfmt |]. split; [| split].
  - intros H. destruct (Hconverse H) as (f & Hf & _). congruence.
  - intros fail Hfile Hname. unfold Routes.upload_file.
    rewrite Hfile, Hfmt.
    destruct (String.eqb (filename fail) "") eqn:Heq.
    + apply String.eqb_eq in Heq. contradiction.
    + reflexivity.
  - intros task_id w'. unfold Routes.upload_file. rewrite Hfmt.
    destruct (request_file req) as [fail |]; [| discriminate].
    destruct (String.eqb (filename fail) ""); [discriminate |].
    change (format_supported "mp4") with true. simpl.
    unfold Routes.upload_after_format_check, bind, lift.
    destruct (is_allowed str_lower file_validator (filename fail)) as [b | e];
      [| discriminate].
    destruct b; simpl; [| discriminate].
    unfold try_except. rewrite upload_body_run.
    assert (Hhandler : forall e w0,
              match exc_class e with
              | RequestEntityTooLarge => ret (RedirectError too_large_message)
              | _ => ret (RedirectError (upload_error_prefix +:+ exc_str e))
              end w0 <> (Ok (RedirectProcessing task_id), w')).
    { intros e w0. destruct (exc_class e); discriminate. }
    destruct (py_index _ 1) as [rasshirenie_ | e];
      [| intros H; now apply Hhandler in H].
    destruct save_fault as [e |]; [intros H; now apply Hhandler in H |]. cbv zeta.
    destruct (get_video_info _ _ _ _) as [[info | e] w2];
      [| intros H; now apply Hhandler in H].
    change (catalog_getitem "mp4") with (Ok (mkFormat "mp4" "libx264" "aac")).
    cbv zeta. destruct start_fault as [e |]; [intros H; now apply Hhandler in H |].
    simpl. intros H. injection H as <- <-. simpl.
    rewrite lookup_insert_eq. eexists. split; [reflexivity |]. split; reflexivity.
Qed.

Lemma upload_missing_format_defaults_to_mp4_witness :
  Routes.upload_file lower_ascii secure_filename_id tool_writes_output
    decode_unavailable (mkRequest (Some (mkFile "clip.AVI")) None)
    "job-2" None None world_without_task
  = Routes.upload_after_format_check lower_ascii secure_filename_id tool_writes_output
      decode_unavailable (mkFile "clip.AVI") "mp4" "job-2" None None world_without_task /\
  exists f, Some "gif" = Some f /\ f ∉ supported_formats.
Proof.
  split.
  - destruct (upload_missing_format_defaults_to_mp4 lower_ascii secure_filename_id
                tool_writes_output decode_unavailable
                (mkRequest (Some (mkFile "clip.AVI")) None)
                "job-2" None None world_without_task) as (Hdefault & _).
    destruct (Hdefault eq_refl) as (_ & _ & _ & Hpast & _).
    apply Hpast; [reflexivity | discriminate].
  - destruct (upload_missing_format_defaults_to_mp4 lower_ascii secure_filename_id
                tool_writes_output decode_unavailable
                (mkRequest (Some (mkFile "clip.avi")) (Some "gif"))
                "job-2" None None world_without_task) as (_ & Hconverse).
    apply Hconverse. vm_compute. reflexivity.
Defined.

(** ** The running system: what each step does to the registry *)

Lemma convert_keeps_registry tool input_path output_path output_format w r w1 :
  keeps_registry tool ->
  convert tool input_path output_path output_format w = (r, w1) ->
  tasks w1 = tasks w /\ threads w1 = threads w.
Proof.
  intros Hkeeps. destruct (OUTPUT_FORMATS !! output_format) as [nastroyki |] eqn:Hfmt.
  - rewrite (convert_supported _ _ _ _ _ _ Hfmt). cbv zeta.
    destruct (Hkeeps (ffmpeg_command input_path output_path output_format nastroyki)
                600%Z
                (snd (log_spawn (ffmpeg_command input_path output_path output_format
                                   nastroyki) w))) as [Htasks Hthreads].
    destruct (tool _ _ _) as [[rezultat | e] w2]; simpl in *;
      intros H; injection H as <- <-; auto.
  - rewrite (convert_unsupported _ _ _ _ _ Hfmt). intros H. injection H as <- <-. auto.
Qed.

Lemma process_conversion_registry tool id input_path output_path output_format w r w' :
  keeps_registry tool ->
  process_conversion tool id input_path output_path output_format w = (r, w') ->
  threads w' = threads w /\
  (forall other, other <> id -> tasks w' !! other = tasks w !! other) /\
  match tasks w !! id with
  | None => tasks w' !! id = None
  | Some z =>
      exists z',
        tasks w' !! id = Some z' /\
        (z' = mark_completed z \/ exists msg, msg <> "" /\ z' = mark_error z msg)
  end.
Proof.
  intros Hkeeps. unfold process_conversion. rewrite process_conversion_with_run.
  destruct (convert_returns tool input_path output_path output_format w)
    as (uspekh & diag & w1 & Hconv).
  rewrite Hconv.
  destruct (convert_keeps_registry _ _ _ _ _ _ _ Hkeeps Hconv) as [Htasks Hthreads].
  rewrite Htasks.
  destruct (tasks w !! id) as [z |] eqn:Hz.
  - intros H. injection H as <- <-. simpl. rewrite ?Htasks.
    split; [exact Hthreads |]. split.
    + intros other Hother. now apply lookup_insert_ne.
    + rewrite lookup_insert_eq. eexists. split; [reflexivity |].
      destruct (uspekh && bool_decide (output_path ∈ files w1)); [now left |].
      right. eexists. split; [| reflexivity].
      apply str_or_nonempty. discriminate.
  - intros H. injection H as <- <-. rewrite ?Htasks.
    split; [exact Hthreads |]. split; [reflexivity | exact Hz].
Qed.

Lemma upload_file_registry str_lower secure_filename tool decode_probe
      req unikalnyy_id save_fault start_fault w r w' :
  keeps_registry tool ->
  Routes.upload_file str_lower secure_filename tool decode_probe
    req unikalnyy_id save_fault start_fault w = (r, w') ->
  (tasks w' = tasks w /\ threads w' = threads w) \/
  (exists t j,
     tasks w' = <[unikalnyy_id := t]> (tasks w) /\
     status t = Processing /\ error t = None /\
     threads w' = (threads w ++ [j])%list /\ job_task_id j = unikalnyy_id) \/
  (exists t,
     tasks w' = <[unikalnyy_id := t]> (tasks w) /\
     status t = Processing /\ error t = None /\
     threads w' = threads w).
Proof.
  intros Hkeeps. unfold Routes.upload_file.
  destruct (request_file req) as [fail |];
    [| intros H; injection H as <- <-; now left].
  destruct (String.eqb (filename fail) "");
    [intros H; injection H as <- <-; now left |].
  destruct (negb (format_supported (Routes.requested_format req)));
    [intros H; injection H as <- <-; now left |].
  unfold Routes.upload_after_format_check, bind, lift.
  destruct (is_allowed str_lower file_validator (filename fail)) as [b | e];
    [| intros H; injection H as <- <-; now left].
  destruct b; simpl; [| intros H; injection H as <- <-; now left].
  unfold try_except. rewrite upload_body_run.
  assert (Hhandler : forall e w0,
            tasks w0 = tasks w -> threads w0 = threads w ->
            match exc_class e with
            | RequestEntityTooLarge => ret (RedirectError too_large_message)
            | _ => ret (RedirectError (upload_error_prefix +:+ exc_str e))
            end w0 = (r, w') ->
            tasks w' = tasks w /\ threads w' = threads w).
  { intros e w0 Ht Hth. destruct (exc_class e); intros H; injection H as <- <-; auto. }
  destruct (py_index _ 1) as [rasshirenie_ | e];
    [| intros H; left; now apply (Hhandler e w)].
  destruct save_fault as [e |]; [intros H; left; now apply (Hhandler e w) |].
  cbv zeta.
  match goal with
  | |- context [get_video_info tool decode_probe ?path ?w1] =>
      destruct (get_video_info_run tool decode_probe path w1) as [info Hprobe];
      destruct (Hkeeps (ffprobe_command path) 10%Z
                  (snd (log_spawn (ffprobe_command path) w1))) as [Htasks Hthreads];
      rewrite Hprobe
  end.
  simpl in Htasks, Hthreads.
  destruct (catalog_getitem (Routes.requested_format req)) as [nastroyki | e].
  - cbv zeta. destruct start_fault as [e |].
    + intros H. right. right. destruct (exc_class e); injection H as <- <-; simpl;
        rewrite Htasks, Hthreads; eexists; repeat split; reflexivity.
    + intros H. injection H as <- <-. right. left. simpl.
      rewrite Htasks, Hthreads. eexists _, _. repeat split; reflexivity.
  - intros H. left. eapply Hhandler; [| | exact H]; assumption.
Qed.

Lemma upload_file_tasks str_lower secure_filename tool decode_probe
      req unikalnyy_id save_fault start_fault w r w' :
  keeps_registry tool ->
  Routes.upload_file str_lower secure_filename tool decode_probe
    req unikalnyy_id save_fault start_fault w = (r, w') ->
  tasks w' = tasks w \/
  exists t,
    tasks w' = <[unikalnyy_id := t]> (tasks w) /\
    status t = Processing /\ error t = None.
Proof.
  intros Hkeeps Hrun.
  destruct (upload_file_registry _ _ _ _ _ _ _ _ _ _ _ Hkeeps Hrun)
    as [[Ht _] | [(t & _ & Ht & Hs & He & _) | (t & Ht & Hs & He & _)]];
    [now left | right; eauto | right; eauto].
Qed.

Lemma cleanup_registry remove_fault id w r w' :
  Routes.cleanup remove_fault id w = (r, w') ->
  threads w' = threads w /\
  (tasks w' = tasks w \/ tasks w' = delete id (tasks w)).
Proof.
  destruct (tasks w !! id) as [z |] eqn:Hz.
  - rewrite (cleanup_present remove_fault id w z Hz). unfold cleanup_output_phase.
    repeat match goal with
           | |- context [bool_decide ?P] => destruct (bool_decide P)
           | |- context [remove_fault ?x] => destruct (remove_fault x)
           end;
      intros H; injection H as <- <-; simpl; auto.
  - rewrite (cleanup_absent remove_fault id w Hz).
    intros H. injection H as <- <-. auto.
Qed.

Lemma status_unchanged id w r w' :
  Routes.status id w = (r, w') -> w' = w.
Proof.
  destruct (tasks w !! id) as [z |] eqn:Hz.
  - rewrite (status_present id w z Hz). congruence.
  - rewrite (status_absent id w Hz). congruence.
Qed.

Lemma keeps_registry_tool_writes_output : keeps_registry tool_writes_output.
Proof. intros komanda timeout w. split; reflexivity. Qed.

Lemma keeps_registry_tool_exits code text : keeps_registry (tool_exits code text).
Proof. intros komanda timeout w. split; reflexivity. Qed.

(** ** The running system: the invariant *)

Lemma system_invariant_ext w w' :
  tasks w' = tasks w -> threads w' = threads w ->
  system_invariant w -> system_invariant w'.
Proof.
  unfold system_invariant, pending. intros -> ->. auto.
Qed.

Lemma system_invariant_initial w : initial w -> system_invariant w.
Proof.
  intros [Htasks Hthreads]. unfold system_invariant, pending.
  rewrite Htasks, Hthreads. split; [apply NoDup_nil; exact I |].
  intros id t Hlookup. rewrite lookup_empty in Hlookup. discriminate.
Qed.

Lemma new_record_obeys t :
  status t = Processing -> error t = None -> error_iff_status t.
Proof.
  intros Hs He. unfold error_iff_status, error_nonempty. rewrite Hs, He.
  split; [intros (s & H & _); discriminate | discriminate].
Qed.

Lemma settled_record_obeys z z' :
  error_iff_status z -> status z = Processing ->
  z' = mark_completed z \/ (exists msg, msg <> "" /\ z' = mark_error z msg) ->
  error_iff_status z' /\ terminal (status z').
Proof.
  unfold error_iff_status, error_nonempty, terminal.
  intros [Hz _] Hs [-> | (msg & Hmsg & ->)]; simpl.
  - split; [| now left]. split; [| discriminate].
    intros H. apply Hz in H. congruence.
  - split; [| now right]. split; [reflexivity |]. intros _. eauto.
Qed.

Lemma pending_split w before j after :
  threads w = (before ++ j :: after)%list ->
  NoDup (pending w) ->
  NoDup (job_task_id <$> (before ++ after)%list) /\
  (job_task_id j ∉ (job_task_id <$> (before ++ after)%list)) /\
  (forall id, id ∈ (job_task_id <$> (before ++ after)%list) -> id ∈ pending w) /\
  job_task_id j ∈ pending w.
Proof.
  unfold pending. intros ->. rewrite !fmap_app, fmap_cons.
  intros Hnodup. apply NoDup_app in Hnodup as (Hb & Hdisj & Hja).
  apply NoDup_cons in Hja as (Hj & Ha).
  repeat split.
  - apply NoDup_app. repeat split; [exact Hb | | exact Ha].
    intros x Hx Hxa. apply (Hdisj x Hx). now apply elem_of_cons; right.
  - rewrite elem_of_app. intros [Hin | Hin]; [| contradiction].
    apply (Hdisj _ Hin). now apply elem_of_cons; left.
  - intros id. rewrite !elem_of_app, elem_of_cons. tauto.
  - rewrite elem_of_app, elem_of_cons. tauto.
Qed.

Lemma step_preserves_invariant str_lower secure_filename w a w' :
  system_invariant w ->
  step str_lower secure_filename w a w' ->
  system_invariant w'.
Proof.
  intros Hinv Hstep. destruct Hstep as
    [tool decode_probe req unikalnyy_id save_fault start_fault w r w' Hkeeps Hfresh Hnew Hrun
    | tool j before after w r w' Hkeeps Hthreads Hrun
    | task_id w r w' Hrun
    | remove_fault task_id w r w' Hrun].
  - destruct (upload_file_registry _ _ _ _ _ _ _ _ _ _ _ Hkeeps Hrun)
      as [[Ht Hth] | [(t & j & Ht & Hs & He & Hth & Hj) | (t & Ht & Hs & He & Hth)]].
    + now apply (system_invariant_ext w w').
    + destruct Hinv as [Hnodup Hrec]. unfold system_invariant, pending in *.
      rewrite Ht, Hth, fmap_app. simpl. rewrite Hj. split.
      * apply NoDup_app. repeat split; [exact Hnodup | | apply NoDup_singleton].
        intros x Hx Hx'. apply list_elem_of_singleton in Hx'. subst x. contradiction.
      * intros id t' Hlookup.
        destruct (decide (unikalnyy_id = id)) as [-> | Hne].
        -- rewrite lookup_insert_eq in Hlookup. injection Hlookup as <-.
           split; [now apply new_record_obeys | auto].
        -- rewrite lookup_insert_ne in Hlookup by exact Hne.
           destruct (Hrec id t' Hlookup) as [Hobeys Hpend].
           split; [exact Hobeys |].
           rewrite elem_of_app, list_elem_of_singleton.
           intros [Hin | Heq]; [auto | congruence].
    + destruct Hinv as [Hnodup Hrec]. unfold system_invariant, pending in *.
      rewrite Ht, Hth. split; [exact Hnodup |].
      intros id t' Hlookup.
      destruct (decide (unikalnyy_id = id)) as [-> | Hne].
      * rewrite lookup_insert_eq in Hlookup. injection Hlookup as <-.
        split; [now apply new_record_obeys | auto].
      * rewrite lookup_insert_ne in Hlookup by exact Hne.
        now apply Hrec.
  - destruct Hinv as [Hnodup Hrec].
    destruct (pending_split w before j after Hthreads Hnodup)
      as (Hnodup' & Hj & Hsub & Hjpending).
    destruct (process_conversion_registry _ _ _ _ _ _ _ _ Hkeeps Hrun)
      as (Hth & Hother & Hmine).
    simpl in Hth, Hother, Hmine.
    unfold system_invariant, pending. rewrite Hth. split; [exact Hnodup' |].
    intros id t Hlookup.
    destruct (decide (id = job_task_id j)) as [-> | Hne].
    + destruct (tasks w !! job_task_id j) as [z |] eqn:Hz; [| congruence].
      destruct Hmine as (z' & Hz' & Hcases).
      rewrite Hz' in Hlookup. injection Hlookup as <-.
      destruct (Hrec _ z Hz) as [Hobeys Hpend].
      destruct (settled_record_obeys z z' Hobeys (Hpend Hjpending) Hcases) as [H _].
      split; [exact H | intros Hin; contradiction].
    + rewrite (Hother id Hne) in Hlookup.
      destruct (Hrec id t Hlookup) as [Hobeys Hpend].
      split; [exact Hobeys | intros Hin; apply Hpend, Hsub, Hin].
  - now rewrite (status_unchanged _ _ _ _ Hrun).
  - destruct (cleanup_registry _ _ _ _ _ Hrun) as [Hth [Ht | Ht]].
    + now apply (system_invariant_ext w w').
    + destruct Hinv as [Hnodup Hrec]. unfold system_invariant, pending in *.
      rewrite Hth, Ht. split; [exact Hnodup |].
      intros id t Hlookup. apply lookup_delete_Some in Hlookup as [_ Hlookup].
      now apply Hrec.
Qed.

Lemma reachable_invariant str_lower secure_filename w :
  reachable str_lower secure_filename w -> system_invariant w.
Proof.
  induction 1 as [w Hinit | w a w' _ IH Hstep].
  - now apply system_invariant_initial.
  - now apply (step_preserves_invariant str_lower secure_filename w a w').
Qed.

Lemma steps_reachable str_lower secure_filename w trace w' :
  reachable str_lower secure_filename w ->
  steps str_lower secure_filename w trace w' ->
  reachable str_lower secure_filename w'.
Proof.
  intros Hreach Hsteps. induction Hsteps as [w | w a w' trace w'' Hstep _ IH].
  - exact Hreach.
  - apply IH. now apply (reachable_step str_lower secure_filename w a w').
Qed.

Example world_uploaded_record :
  tasks world_uploaded !! "job-1"
  = Some (new_task "job-1" "uploads/job-1.avi" "converted/job-1.mp4" "job-1.mp4"
            "clip.AVI" "mp4" None) /\
  threads world_uploaded = [sample_job].
Proof. split; vm_compute; reflexivity. Qed.

Example world_converted_record :
  tasks world_converted !! "job-1"
  = Some (mark_completed
            (new_task "job-1" "uploads/job-1.avi" "converted/job-1.mp4" "job-1.mp4"
               "clip.AVI" "mp4" None)) /\
  threads world_converted = [].
Proof. split; vm_compute; reflexivity. Qed.

Lemma reachable_world_converted :
  reachable lower_ascii secure_filename_id world_converted.
Proof.
  apply (reachable_step lower_ascii secure_filename_id world_uploaded
           (Run sample_job) world_converted).
  - apply (reachable_step lower_ascii secure_filename_id world_empty
             (Upload sample_request "job-1") world_uploaded).
    + apply reachable_initial. split; reflexivity.
    + apply (step_upload lower_ascii secure_filename_id tool_writes_output
               decode_unavailable sample_request "job-1" None None world_empty
               (fst (Routes.upload_file lower_ascii secure_filename_id
                       tool_writes_output decode_unavailable sample_request
                       "job-1" None None world_empty))).
      * apply keeps_registry_tool_writes_output.
      * reflexivity.
      * simpl. apply not_elem_of_nil.
      * apply surjective_pairing.
  - apply (step_run lower_ascii secure_filename_id tool_writes_output sample_job
             [] [] world_uploaded
             (fst (process_conversion tool_writes_output "job-1" "uploads/job-1.avi"
                     "converted/job-1.mp4" "mp4" (take_thread [] [] world_uploaded)))).
    + apply keeps_registry_tool_writes_output.
    + vm_compute. reflexivity.
    + apply surjective_pairing.
Qed.

(** C3. In every world the system can reach, by uploads, runs of started
    threads, polls and cleanups in any order, every record of the registry
    has a non-empty [error] exactly when its status is ['error']; so has
    every record after one more step, whatever the step; and a record is
    created that way. *)
Theorem error_field_iff_error_state
    (str_lower secure_filename : string -> string) (w : World)
    (id : string) (t : ConversionTask)
    (Hreach : reachable str_lower secure_filename w)
    (Hlookup : tasks w !! id = Some t) :
  error_iff_status t /\
  (forall a w' id' t',
     step str_lower secure_filename w a w' ->
     tasks w' !! id' = Some t' -> error_iff_status t') /\
  (forall task_id input_path output_path output_filename original_filename
          output_format video_info,
     error_iff_status
       (new_task task_id input_path output_path output_filename original_filename
                 output_format video_info)).
Proof.
  split; [| split].
  - destruct (reachable_invariant _ _ _ Hreach) as [_ Hrec].
    now destruct (Hrec id t Hlookup).
  - intros a w' id' t' Hstep Hlookup'.
    destruct (step_preserves_invariant _ _ _ _ _
                (reachable_invariant _ _ _ Hreach) Hstep) as [_ Hrec].
    now destruct (Hrec id' t' Hlookup').
  - intros. now apply new_record_obeys.
Qed.

Lemma error_field_iff_error_state_witness :
  error_iff_status
    (mark_completed
       (new_task "job-1" "uploads/job-1.avi" "converted/job-1.mp4" "job-1.mp4"
          "clip.AVI" "mp4" None)).
Proof.
  destruct (error_field_iff_error_state lower_ascii secure_filename_id
              world_converted "job-1"
              (mark_completed
                 (new_task "job-1" "uploads/job-1.avi" "converted/job-1.mp4"
                    "job-1.mp4" "clip.AVI" "mp4" None))
              reachable_world_converted) as (Hobeys & _).
  - vm_compute. reflexivity.
  - exact Hobeys.
Defined.

(** ** The running system: terminal states *)

Lemma terminal_not_pending w id t :
  system_invariant w -> tasks w !! id = Some t -> terminal (status t) ->
  id ∉ pending w.
Proof.
  intros [_ Hrec] Hlookup Hterm Hin.
  destruct (Hrec id t Hlookup) as [_ Hpend].
  rewrite (Hpend Hin) in Hterm. destruct Hterm; discriminate.
Qed.

Lemma leaves_only_by_cleanup str_lower secure_filename w a w' id t :
  step str_lower secure_filename w a w' ->
  tasks w !! id = Some t -> tasks w' !! id = None -> a = Cleanup id.
Proof.
  intros Hstep Hlookup Hgone. destruct Hstep as
    [tool decode_probe req unikalnyy_id save_fault start_fault w r w' Hkeeps Hfresh Hnew Hrun
    | tool j before after w r w' Hkeeps Hthreads Hrun
    | task_id w r w' Hrun
    | remove_fault task_id w r w' Hrun].
  - destruct (upload_file_tasks _ _ _ _ _ _ _ _ _ _ _ Hkeeps Hrun)
      as [Ht | (t' & Ht & _)]; rewrite Ht in Hgone; [congruence |].
    rewrite lookup_insert_ne in Hgone by congruence. congruence.
  - destruct (process_conversion_registry _ _ _ _ _ _ _ _ Hkeeps Hrun)
      as (_ & Hother & Hmine). simpl in Hother, Hmine.
    destruct (decide (id = job_task_id j)) as [-> | Hne].
    + rewrite Hlookup in Hmine. destruct Hmine as (z' & Hz' & _). congruence.
    + rewrite (Hother id Hne) in Hgone. congruence.
  - rewrite (status_unchanged _ _ _ _ Hrun) in Hgone. congruence.
  - destruct (cleanup_registry _ _ _ _ _ Hrun) as [_ [Ht | Ht]];
      rewrite Ht in Hgone; [congruence |].
    apply lookup_delete_None in Hgone as [-> | Hgone]; [reflexivity | congruence].
Qed.

Lemma terminal_step str_lower secure_filename w a w' id t :
  system_invariant w ->
  step str_lower secure_filename w a w' ->
  tasks w !! id = Some t -> terminal (status t) ->
  tasks w' !! id = Some t \/ (tasks w' !! id = None /\ a = Cleanup id).
Proof.
  intros Hinv Hstep Hlookup Hterm.
  pose proof (terminal_not_pending w id t Hinv Hlookup Hterm) as Hidle.
  destruct Hstep as
    [tool decode_probe req unikalnyy_id save_fault start_fault w r w' Hkeeps Hfresh Hnew Hrun
    | tool j before after w r w' Hkeeps Hthreads Hrun
    | task_id w r w' Hrun
    | remove_fault task_id w r w' Hrun].
  - left. destruct (upload_file_tasks _ _ _ _ _ _ _ _ _ _ _ Hkeeps Hrun)
      as [Ht | (t' & Ht & _)]; rewrite Ht; [exact Hlookup |].
    rewrite lookup_insert_ne by congruence. exact Hlookup.
  - left. destruct Hinv as [Hnodup _].
    destruct (pending_split w before j after Hthreads Hnodup) as (_ & _ & _ & Hj).
    destruct (process_conversion_registry _ _ _ _ _ _ _ _ Hkeeps Hrun)
      as (_ & Hother & _). simpl in Hother.
    rewrite Hother; [exact Hlookup |]. intros ->. contradiction.
  - left. now rewrite (status_unchanged _ _ _ _ Hrun).
  - destruct (cleanup_registry _ _ _ _ _ Hrun) as [_ [Ht | Ht]]; rewrite Ht.
    + now left.
    + destruct (decide (task_id = id)) as [-> | Hne].
      * right. split; [apply lookup_delete_eq | reflexivity].
      * left. now rewrite lookup_delete_ne.
Qed.

(** C6. From any reachable world in which the token has a record: a step
    makes the record disappear only if it is the cleanup of that token; and
    once the record is ['completed'] or ['error'], every step leaves it as it
    is, field for field, or is the cleanup that deletes it, so along any run
    without a cleanup of the token the record stays what it was. *)
Theorem terminal_state_is_final
    (str_lower secure_filename : string -> string) (w : World)
    (id : string) (t : ConversionTask)
    (Hreach : reachable str_lower secure_filename w)
    (Hlookup : tasks w !! id = Some t) :
  (forall a w',
     step str_lower secure_filename w a w' ->
     tasks w' !! id = None -> a = Cleanup id) /\
  (terminal (status t) ->
   (forall a w',
      step str_lower secure_filename w a w' ->
      tasks w' !! id = Some t \/ (tasks w' !! id = None /\ a = Cleanup id)) /\
   (forall trace w',
      steps str_lower secure_filename w trace w' ->
      Cleanup id ∉ trace ->
      tasks w' !! id = Some t)).
Proof.
  split.
  - intros a w' Hstep Hgone.
    exact (leaves_only_by_cleanup _ _ _ _ _ _ _ Hstep Hlookup Hgone).
  - intros Hterm. split.
    + intros a w' Hstep.
      apply (terminal_step str_lower secure_filename w a w' id t); auto.
      now apply (reachable_invariant str_lower secure_filename).
    + intros trace w' Hsteps. revert Hreach Hlookup.
      induction Hsteps as [w | w a w1 trace w2 Hstep _ IH];
        intros Hreach Hlookup Hclean; [exact Hlookup |].
      destruct (terminal_step str_lower secure_filename w a w1 id t
                  (reachable_invariant _ _ _ Hreach) Hstep Hlookup Hterm)
        as [Hkept | [_ ->]].
      * apply IH; [now apply (reachable_step str_lower secure_filename w a w1)
                  | exact Hkept |].
        intros Hin. apply Hclean. now apply elem_of_cons; right.
      * exfalso. apply Hclean. now apply elem_of_cons; left.
Qed.

Lemma terminal_state_is_final_witness :
  tasks world_converted !! "job-1"
    = Some (mark_completed
              (new_task "job-1" "uploads/job-1.avi" "converted/job-1.mp4"
                 "job-1.mp4" "clip.AVI" "mp4" None)) \/
  (tasks world_converted !! "job-1" = None /\ Poll "job-1" = Cleanup "job-1").
Proof.
  destruct (terminal_state_is_final lower_ascii secure_filename_id world_converted
              "job-1"
              (mark_completed
                 (new_task "job-1" "uploads/job-1.avi" "converted/job-1.mp4"
                    "job-1.mp4" "clip.AVI" "mp4" None))
              reachable_world_converted) as (_ & Hfinal).
  - vm_compute. reflexivity.
  - destruct Hfinal as (Hstep & _); [left; reflexivity |].
    apply (Hstep (Poll "job-1") world_converted).
    apply (step_poll lower_ascii secure_filename_id "job-1" world_converted
             (fst (Routes.status "job-1" world_converted))).
    vm_compute. reflexivity.
Defined.

(** * Further properties of the code *)

(** ** The registry: [TaskManager] *)

(** [create_task] followed by [get_task]: the new record is what the lookup
    gives, in ['processing'] and without error, whatever the token held
    before; every other token, the files, the threads and the log are as
    they were. *)
Theorem create_task_then_get
    (id input_path output_path output_filename original_filename output_format
       : string) (video_info : option VideoInfo) (w : World) :
  let zadacha := new_task id input_path output_path output_filename
                          original_filename output_format video_info in
  let w1 := snd (create_task id input_path output_path output_filename
                   original_filename output_format video_info w) in
  fst (create_task id input_path output_path output_filename
         original_filename output_format video_info w) = Ok zadacha /\
  get_task id w1 = (Ok (Some zadacha), w1) /\
  task_exists id w1 = (Ok true, w1) /\
  status zadacha = Processing /\ error zadacha = None /\
  (forall other, other <> id -> get_task other w1 = (Ok (tasks w !! other), w1)) /\
  files w1 = files w /\ threads w1 = threads w /\ spawned w1 = spawned w.
Proof.
  cbv zeta. unfold create_task, get_task, task_exists, bind, set_tasks, ret. simpl.
  rewrite lookup_insert_eq.
  repeat split.
  intros other Hother. now rewrite lookup_insert_ne.
Qed.

Lemma delete_task_run id w :
  delete_task id w =
    (Ok tt, mkWorld (delete id (tasks w)) (files w) (spawned w) (threads w)).
Proof.
  unfold delete_task, bind, task_exists, set_tasks, ret. simpl.
  destruct (tasks w !! id) as [z |] eqn:Hz.
  - rewrite bool_decide_eq_true_2 by eauto. reflexivity.
  - rewrite bool_decide_eq_false_2 by (intros [x Hx]; discriminate).
    rewrite (delete_id (tasks w) id Hz). now destruct w.
Qed.

(** [delete_task]: afterwards the token is unknown and every other token is
    as before; on an unknown token nothing changes at all; deleting twice is
    deleting once; and deleting a token right after creating it, when it was
    unknown before, gives back the world as it was. *)
Theorem delete_task_removes_only_its_token (id : string) (w : World) :
  let w1 := snd (delete_task id w) in
  fst (delete_task id w) = Ok tt /\
  get_task id w1 = (Ok None, w1) /\
  task_exists id w1 = (Ok false, w1) /\
  (forall other, other <> id -> tasks w1 !! other = tasks w !! other) /\
  (tasks w !! id = None -> delete_task id w = (Ok tt, w)) /\
  delete_task id w1 = (Ok tt, w1) /\
  (forall input_path output_path output_filename original_filename output_format
          video_info,
     tasks w !! id = None ->
     snd (delete_task id
            (snd (create_task id input_path output_path output_filename
                    original_filename output_format video_info w))) = w).
Proof.
  cbv zeta. rewrite !delete_task_run. simpl.
  unfold get_task, task_exists. simpl. rewrite lookup_delete_eq.
  split; [reflexivity |]. split; [reflexivity |].
  split.
  { rewrite bool_decide_eq_false_2 by (intros [x Hx]; discriminate). reflexivity. }
  split; [intros other Hother; now apply lookup_delete_ne |].
  split.
  { intros Hnone. rewrite (delete_id (tasks w) id Hnone). now destruct w. }
  split.
  { rewrite delete_delete_eq. reflexivity. }
  intros input_path output_path output_filename original_filename output_format
    video_info Hnone.
  unfold create_task, bind, set_tasks, ret. simpl.
  rewrite delete_task_run. simpl.
  rewrite delete_insert_eq, (delete_id (tasks w) id Hnone). now destruct w.
Qed.

Lemma delete_task_removes_only_its_token_witness :
  delete_task "job-1" world_without_task = (Ok tt, world_without_task) /\
  snd (delete_task "job-1"
         (snd (create_task "job-1" "uploads/job-1.avi" "converted/job-1.mp4"
                 "job-1.mp4" "clip.avi" "mp4" None world_without_task)))
  = world_without_task.
Proof.
  destruct (delete_task_removes_only_its_token "job-1" world_without_task)
    as (_ & _ & _ & _ & Habsent & _ & Hround).
  split.
  - apply Habsent. reflexivity.
  - apply Hround. reflexivity.
Defined.

(** ** The File Validator: only the last extension counts *)

Lemma is_allowed_of_parts str_lower self stem e :
  contains "." e = false ->
  is_allowed str_lower self (stem +:+ "." +:+ e)
  = Ok (bool_decide (str_lower e ∈ allowed_extensions self)).
Proof.
  intros He. unfold is_allowed.
  change (stem +:+ "." +:+ e) with (stem +:+ String "." e).
  now rewrite contains_append_sep, (rsplit1_cut "." stem e He).
Qed.

(** For an extension without a dot, the answer of [is_allowed] does not
    depend on what stands before the last dot, be it empty or itself full of
    dots, and two extensions with the same lower-case form get the same
    answer: a validator with any allow-list decides by [lower] of the text
    after the last dot alone. *)
Theorem is_allowed_depends_on_last_extension_only
    (str_lower : string -> string) (self : FileValidator)
    (stem1 stem2 e1 e2 : string)
    (He1 : contains "." e1 = false) (He2 : contains "." e2 = false)
    (Hlower : str_lower e1 = str_lower e2) :
  is_allowed str_lower self (stem1 +:+ "." +:+ e1)
  = is_allowed str_lower self (stem2 +:+ "." +:+ e2) /\
  is_allowed str_lower self (stem1 +:+ "." +:+ e1)
  = Ok (bool_decide (str_lower e1 ∈ allowed_extensions self)).
Proof.
  rewrite (is_allowed_of_parts _ _ stem1 e1 He1),
          (is_allowed_of_parts _ _ stem2 e2 He2), Hlower.
  split; reflexivity.
Qed.

Lemma is_allowed_depends_on_last_extension_only_witness :
  is_allowed lower_ascii file_validator "setup.exe.Mp4"
  = is_allowed lower_ascii file_validator ".mp4".
Proof.
  apply (is_allowed_depends_on_last_extension_only lower_ascii file_validator
           "setup.exe" "" "Mp4" "mp4"); reflexivity.
Defined.

(** ** Frame-rate parsing: the shape of the answer *)

Lemma split_nonempty c s : split c s <> [].
Proof.
  destruct s as [|a s]; simpl; [discriminate |].
  destruct (Ascii.eqb a c); [discriminate |].
  destruct (split c s); discriminate.
Qed.

Lemma split_two_or_more c b d :
  exists y z rest, split c (b +:+ String c d) = y :: z :: rest.
Proof.
  induction b as [|x b (y & z & rest & IH)]; simpl.
  - rewrite Ascii.eqb_refl.
    destruct (split c d) as [|z rest] eqn:Hd; [now apply split_nonempty in Hd |].
    eauto.
  - rewrite IH. destruct (Ascii.eqb x c); eauto.
Qed.

Lemma split_three_or_more c a b d :
  exists x y z rest,
    split c (a +:+ String c (b +:+ String c d)) = x :: y :: z :: rest.
Proof.
  induction a as [|h a (x & y & z & rest & IH)]; simpl.
  - rewrite Ascii.eqb_refl.
    destruct (split_two_or_more c b d) as (y & z & rest & ->). eauto.
  - rewrite IH. destruct (Ascii.eqb h c); eauto.
Qed.

Lemma unpack_three_or_more py_float x y z rest :
  exists e, unpack_two_floats py_float (x :: y :: z :: rest) = Raise e.
Proof.
  simpl. destruct (py_float x); simpl; [| eauto].
  destruct (py_float y); simpl; [| eauto].
  destruct (py_float z); simpl; eauto.
Qed.

(** A string with two or more slashes is never a frame rate: whatever stands
    between the slashes, numbers included, the answer is [None]. *)
Theorem parse_fps_two_slashes_is_none
    (py_float : string -> result float) (a b c : string) :
  _parse_fps py_float (a +:+ "/" +:+ b +:+ "/" +:+ c) = PyNone.
Proof.
  unfold _parse_fps, parse_fps_body.
  change (a +:+ "/" +:+ b +:+ "/" +:+ c)
    with (a +:+ String "/" (b +:+ String "/" c)).
  rewrite contains_append_sep.
  destruct (split_three_or_more "/" a b c) as (x & y & z & rest & ->).
  destruct (unpack_three_or_more py_float x y z rest) as [e ->].
  reflexivity.
Qed.

(** Whatever [float] does, the answer of [_parse_fps] is [None], the integer
    [0] or a float; it is an integer only for a string with a slash, and
    then it is [0]; without a slash it is exactly what [float] gives, or
    [None] when [float] refuses.  For a rational with two parsed sides and a
    denominator that is not zero the answer is the float quotient, so the
    division never raises. *)
Theorem parse_fps_answer_shape
    (py_float : string -> result float) (fps_str : string) :
  (_parse_fps py_float fps_str = PyNone \/
   _parse_fps py_float fps_str = PyInt 0 \/
   exists f, _parse_fps py_float fps_str = PyFloat f) /\
  (forall z, _parse_fps py_float fps_str = PyInt z ->
             z = 0%Z /\ contains "/" fps_str = true) /\
  (contains "/" fps_str = false ->
   _parse_fps py_float fps_str =
     match py_float fps_str with
     | Ok f => PyFloat f
     | Raise _ => PyNone
     end) /\
  (forall a b num den,
     fps_str = a +:+ "/" +:+ b ->
     contains "/" a = false -> contains "/" b = false ->
     py_float a = Ok num -> py_float b = Ok den ->
     PrimFloat.eqb den PrimFloat.zero = false ->
     _parse_fps py_float fps_str = PyFloat (PrimFloat.div num den)).
Proof.
  assert (Hshape :
            (_parse_fps py_float fps_str = PyNone \/
             exists f, _parse_fps py_float fps_str = PyFloat f) \/
            (_parse_fps py_float fps_str = PyInt 0 /\ contains "/" fps_str = true)).
  { unfold _parse_fps, parse_fps_body.
    destruct (contains "/" fps_str).
    - destruct (unpack_two_floats py_float (split "/" fps_str)) as [[num den] | e];
        simpl; [| now left; left].
      destruct (PrimFloat.eqb den PrimFloat.zero) eqn:Hden; simpl; [now right |].
      unfold py_truediv. rewrite Hden. simpl. left. right. eauto.
    - destruct (py_float fps_str); simpl; left; [right; eauto | now left]. }
  split; [| split; [| split]].
  - destruct Hshape as [[H | H] | [H _]]; auto.
  - intros z Hz. destruct Hshape as [[H | [f H]] | [H Hslash]];
      rewrite H in Hz; try discriminate.
    injection Hz as <-. auto.
  - intros Hslash. unfold _parse_fps, parse_fps_body. rewrite Hslash.
    now destruct (py_float fps_str).
  - intros a b num den -> Ha Hb Hnum Hden Hnonzero. unfold _parse_fps.
    rewrite (parse_fps_two_parts py_float a b num den Ha Hb Hnum Hden), Hnonzero.
    simpl. unfold py_truediv. now rewrite Hnonzero.
Qed.

Lemma parse_fps_answer_shape_witness :
  _parse_fps float_of_digits "60000/1001"
  = PyFloat (PrimFloat.div 60000%float 1001%float).
Proof.
  destruct (parse_fps_answer_shape float_of_digits "60000/1001")
    as (_ & _ & _ & Hquot).
  apply (Hquot "60000" "1001"); reflexivity.
Defined.

(** ** The encoder's command line *)

Lemma insert_before_last_snoc {A} (x y : A) (l : list A) :
  insert_before_last x (l ++ [y])%list = (l ++ [x; y])%list.
Proof.
  induction l as [|a l IH]; [reflexivity |].
  simpl. rewrite IH. destruct (l ++ [y])%list eqn:Hl; [| reflexivity].
  destruct l; discriminate.
Qed.

(** The command [convert] hands to [subprocess.run]: the program name, [-i]
    with the input path, the two codecs of the catalog entry, [-y], then for
    ['webm'] alone the four quality arguments in the order they were
    inserted, and always the output path as the last argument. *)
Theorem ffmpeg_command_shape
    (input_path output_path output_format : string) (nastroyki : FormatSettings) :
  ffmpeg_command input_path output_path output_format nastroyki =
    ([ "ffmpeg"; "-i"; input_path;
       "-c:v"; codec nastroyki; "-c:a"; audio nastroyki; "-y" ]
     ++ (if String.eqb output_format "webm"
         then ["-b:v"; "0"; "-crf"; "30"] else [])
     ++ [output_path])%list /\
  List.last (ffmpeg_command input_path output_path output_format nastroyki) ""
    = output_path /\
  (forall tool w n,
     OUTPUT_FORMATS !! output_format = Some n ->
     exists r,
       convert tool input_path output_path output_format w =
         (r, snd (tool (ffmpeg_command input_path output_path output_format n)
                    600%Z
                    (snd (log_spawn
                            (ffmpeg_command input_path output_path output_format n)
                            w))))).
Proof.
  split; [| split].
  - unfold ffmpeg_command. destruct (String.eqb output_format "webm"); reflexivity.
  - unfold ffmpeg_command. destruct (String.eqb output_format "webm"); reflexivity.
  - intros tool w n Hfmt. rewrite (convert_supported _ _ _ _ _ _ Hfmt). cbv zeta.
    destruct (tool _ _ _) as [[rezultat | e] w1]; eauto.
Qed.

Lemma ffmpeg_command_shape_witness :
  exists r,
    convert tool_writes_output "uploads/a.avi" "converted/a.webm" "webm" world_empty
    = (r, snd (tool_writes_output
                 (ffmpeg_command "uploads/a.avi" "converted/a.webm" "webm"
                    (mkFormat "webm" "libvpx-vp9" "libopus"))
                 600%Z
                 (snd (log_spawn
                         (ffmpeg_command "uploads/a.avi" "converted/a.webm" "webm"
                            (mkFormat "webm" "libvpx-vp9" "libopus"))
                         world_empty)))).
Proof.
  destruct (ffmpeg_command_shape "uploads/a.avi" "converted/a.webm" "webm"
              (mkFormat "webm" "libvpx-vp9" "libopus")) as (_ & _ & Hrun).
  apply (Hrun tool_writes_output world_empty). reflexivity.
Defined.

(** ** The Media Probe *)

(** [get_video_info] never raises.  It runs the probe command once, with a
    ten-second limit; the answer is the decoded record only when the call
    returned, the exit status is zero and the decoding went through, and
    [None] in every other case: an exception of the call (a timeout, a
    missing binary), a non-zero exit, output that cannot be decoded.  The
    world it leaves is the one the probe left. *)
Theorem get_video_info_is_best_effort
    (tool : list string -> Z -> World -> result CompletedProcess * World)
    (decode_probe : string -> result VideoInfo) (filepath : string) (w : World) :
  let run := tool (ffprobe_command filepath) 10%Z
                  (snd (log_spawn (ffprobe_command filepath) w)) in
  get_video_info tool decode_probe filepath w =
    (Ok (match fst run with
         | Ok rezultat =>
             if (returncode rezultat =? 0)%Z then
               match decode_probe (stdout rezultat) with
               | Ok info => Some info
               | Raise _ => None
               end
             else None
         | Raise _ => None
         end),
     snd run) /\
  spawned (snd (log_spawn (ffprobe_command filepath) w))
    = ffprobe_command filepath :: spawned w /\
  List.last (ffprobe_command filepath) "" = filepath.
Proof.
  cbv zeta. split; [| split; reflexivity].
  unfold get_video_info, try_except, subprocess_run, bind, lift, ret, log_spawn.
  simpl.
  destruct (tool (ffprobe_command filepath) 10%Z _) as [[rezultat | e] w1]; simpl;
    [| reflexivity].
  destruct (returncode rezultat =? 0)%Z; [| reflexivity].
  destruct (decode_probe (stdout rezultat)); reflexivity.
Qed.

(** The stream search of [get_video_info].  Items before the first one of
    the wanted kind must each have a ['codec_type']; the first item of that
    kind is the answer, and nothing after it is looked at, well formed or
    not.  If an item without ['codec_type'], or one that is not a dict, comes
    before any match, the search raises.  With no item of the kind the
    answer is [None]. *)
Theorem first_stream_takes_the_first
    (kind : string) (before after : list PyObj) (s : PyObj)
    (Hbefore : Forall (fun x => exists ct, getitem x "codec_type" = Ok ct /\
                                           str_equals ct kind = false) before) :
  (forall ct, getitem s "codec_type" = Ok ct -> str_equals ct kind = true ->
              first_stream kind (before ++ s :: after) = Ok (Some s)) /\
  (forall e, getitem s "codec_type" = Raise e ->
             first_stream kind (before ++ s :: after) = Raise e) /\
  first_stream kind before = Ok None.
Proof.
  induction Hbefore as [| x before (ct & Hx & Hne) _ IH]; simpl.
  - split; [| split; [| reflexivity]].
    + intros ct Hs Hkind. rewrite Hs. simpl. rewrite Hkind. reflexivity.
    + intros e Hs. rewrite Hs. reflexivity.
  - rewrite Hx. simpl. rewrite Hne. exact IH.
Qed.

Lemma first_stream_takes_the_first_witness :
  first_stream "video"
    ([ODict [("codec_type", OStr "audio"); ("codec_name", OStr "aac")]]
     ++ ODict [("codec_type", OStr "video"); ("codec_name", OStr "h264")]
     :: [OInt 7])
  = Ok (Some (ODict [("codec_type", OStr "video"); ("codec_name", OStr "h264")])).
Proof.
  destruct (first_stream_takes_the_first "video"
              [ODict [("codec_type", OStr "audio"); ("codec_name", OStr "aac")]]
              [OInt 7]
              (ODict [("codec_type", OStr "video"); ("codec_name", OStr "h264")]))
    as (Hfound & _).
  - apply Forall_cons. split; [| apply Forall_nil; exact I].
    exists (OStr "audio"). split; reflexivity.
  - apply (Hfound (OStr "video")); reflexivity.
Defined.

Lemma result_bind_ok {A B} (r : result A) (k : A -> result B) (b : B) :
  result_bind r k = Ok b -> exists a, r = Ok a /\ k a = Ok b.
Proof. destruct r as [a | e]; simpl; [eauto | discriminate]. Qed.

(** When the field extraction of [get_video_info] goes through, the decoded
    value had ['streams'] and ['format']; the video codec, width, height and
    frame rate come from the first video stream, with the defaults
    ['unknown'], [0] and ['0/1'] for a missing key, and are all [None] when
    there is no video stream; the audio codec comes from the first audio
    stream in the same way. *)
Theorem probe_fields_follow_first_streams
    (float_of : PyObj -> result float) (int_of : PyObj -> result Z)
    (dannye : PyObj) (p : ProbedInfo)
    (Hok : probe_fields float_of int_of dannye = Ok p) :
  exists streams items video_potok audio_potok format_,
    getitem dannye "streams" = Ok streams /\
    iterate streams = Ok items /\
    first_stream "video" items = Ok video_potok /\
    first_stream "audio" items = Ok audio_potok /\
    getitem dannye "format" = Ok format_ /\
    dict_get format_ "format_name" (OStr "unknown") = Ok (probed_format_name p) /\
    match video_potok with
    | None =>
        probed_video_codec p = ONone /\ probed_width p = None /\
        probed_height p = None /\ probed_fps p = PyNone
    | Some v =>
        dict_get v "codec_name" (OStr "unknown") = Ok (probed_video_codec p) /\
        (exists x n, dict_get v "width" (OInt 0) = Ok x /\ int_of x = Ok n /\
                     probed_width p = Some n) /\
        (exists x n, dict_get v "height" (OInt 0) = Ok x /\ int_of x = Ok n /\
                     probed_height p = Some n) /\
        (exists rate, dict_get v "r_frame_rate" (OStr "0/1") = Ok rate /\
                      probed_fps p = parse_fps_of float_of rate)
    end /\
    match audio_potok with
    | None => probed_audio_codec p = ONone
    | Some a => dict_get a "codec_name" (OStr "unknown") = Ok (probed_audio_codec p)
    end.
Proof.
  unfold probe_fields in Hok.
  apply result_bind_ok in Hok as (streams & Hstreams & Hok).
  apply result_bind_ok in Hok as (items & Hitems & Hok).
  apply result_bind_ok in Hok as (video_potok & Hvideo & Hok).
  apply result_bind_ok in Hok as (audio_potok & Haudio & Hok).
  apply result_bind_ok in Hok as (format_ & Hformat & Hok).
  apply result_bind_ok in Hok as (duration_ & _ & Hok).
  apply result_bind_ok in Hok as (duration & _ & Hok).
  apply result_bind_ok in Hok as (size_ & _ & Hok).
  apply result_bind_ok in Hok as (size & _ & Hok).
  apply result_bind_ok in Hok as (bitrate_ & _ & Hok).
  apply result_bind_ok in Hok as (bitrate & _ & Hok).
  apply result_bind_ok in Hok as (format_name & Hname & Hok).
  apply result_bind_ok in Hok as (video_codec & Hvcodec & Hok).
  apply result_bind_ok in Hok as (audio_codec & Hacodec & Hok).
  apply result_bind_ok in Hok as (width & Hwidth & Hok).
  apply result_bind_ok in Hok as (height & Hheight & Hok).
  apply result_bind_ok in Hok as (fps & Hfps & Hok).
  injection Hok as <-. simpl.
  exists streams, items, video_potok, audio_potok, format_.
  repeat (split; [assumption |]).
  split.
  - destruct video_potok as [v |].
    + split; [exact Hvcodec |].
      apply result_bind_ok in Hwidth as (x & Hx & Hwidth).
      apply result_bind_ok in Hwidth as (n & Hn & Hwidth). injection Hwidth as <-.
      apply result_bind_ok in Hheight as (y & Hy & Hheight).
      apply result_bind_ok in Hheight as (m & Hm & Hheight). injection Hheight as <-.
      apply result_bind_ok in Hfps as (rate & Hrate & Hfps). injection Hfps as <-.
      split; [exists x, n; auto |].
      split; [exists y, m; auto |].
      exists rate. auto.
    + injection Hvcodec as <-. injection Hwidth as <-.
      injection Hheight as <-. injection Hfps as <-. auto.
  - destruct audio_potok as [a |]; [exact Hacodec | now injection Hacodec as <-].
Qed.

Example probe_fields_sample :
  probe_fields float_of_obj int_of_obj sample_probe
  = Ok (mkProbed 5%float 1048576 800000 (OStr "avi") (OStr "h264") (OStr "aac")
                 (Some 1280%Z) (Some 720%Z) (PyFloat 30%float)).
Proof. vm_compute. reflexivity. Qed.

Lemma probe_fields_follow_first_streams_witness :
  exists format_,
    getitem sample_probe "format" = Ok format_ /\
    dict_get format_ "format_name" (OStr "unknown") = Ok (OStr "avi").
Proof.
  destruct (probe_fields_follow_first_streams float_of_obj int_of_obj sample_probe
              (mkProbed 5%float 1048576 800000 (OStr "avi") (OStr "h264")
                        (OStr "aac") (Some 1280%Z) (Some 720%Z) (PyFloat 30%float)))
    as (streams & items & video_potok & audio_potok & format_ & _ & _ & _ & _
        & Hformat & Hname & _).
  - vm_compute. reflexivity.
  - exists format_. split; assumption.
Defined.

(** A probe output with no video and no audio stream and a ['format'] that
    has none of the four keys gives the defaults: [float(0)] and [int(0)]
    for duration, size and bitrate, ['unknown'] for the format name, and
    [None] for every stream field. *)
Theorem probe_fields_defaults
    (float_of : PyObj -> result float) (int_of : PyObj -> result Z)
    (dannye streams : PyObj) (items : list PyObj) (entries : list (string * PyObj))
    (f0 : float) (z0 : Z)
    (Hstreams : getitem dannye "streams" = Ok streams)
    (Hitems : iterate streams = Ok items)
    (Hvideo : first_stream "video" items = Ok None)
    (Haudio : first_stream "audio" items = Ok None)
    (Hformat : getitem dannye "format" = Ok (ODict entries))
    (Hduration : dict_lookup entries "duration" = None)
    (Hsize : dict_lookup entries "size" = None)
    (Hbitrate : dict_lookup entries "bit_rate" = None)
    (Hname : dict_lookup entries "format_name" = None)
    (Hfloat : float_of (OInt 0) = Ok f0)
    (Hint : int_of (OInt 0) = Ok z0) :
  probe_fields float_of int_of dannye
  = Ok (mkProbed f0 z0 z0 (OStr "unknown") ONone ONone None None PyNone).
Proof.
  unfold probe_fields.
  rewrite Hstreams; simpl. rewrite Hitems; simpl.
  rewrite Hvideo; simpl. rewrite Haudio; simpl. rewrite Hformat; simpl.
  rewrite Hduration, Hsize, Hbitrate, Hname; simpl.
  rewrite Hfloat; simpl. rewrite Hint; simpl. reflexivity.
Qed.

Lemma probe_fields_defaults_witness :
  probe_fields float_of_obj int_of_obj
    (ODict [("streams", OList []); ("format", ODict [])])
  = Ok (mkProbed 0%float 0 0 (OStr "unknown") ONone ONone None None PyNone).
Proof.
  apply (probe_fields_defaults float_of_obj int_of_obj
           (ODict [("streams", OList []); ("format", ODict [])])
           (OList []) [] []); reflexivity.
Defined.

(** ** The Job Runner: one record, one message *)

(** With a tool that leaves the registry alone, [process_conversion] writes
    to the record of its own token and to nothing else in the registry: the
    set of tokens is the same, every other record is the same, no thread is
    started, and of its own record only status and error can change. *)
Theorem process_conversion_touches_only_its_record
    (tool : list string -> Z -> World -> result CompletedProcess * World)
    (id put_vhodnogo put_vyhodnogo output_format : string) (w : World)
    (Hkeeps : keeps_registry tool) :
  let w' := snd (process_conversion tool id put_vhodnogo put_vyhodnogo output_format w) in
  threads w' = threads w /\
  dom (tasks w') = dom (tasks w) /\
  (forall other, other <> id -> tasks w' !! other = tasks w !! other) /\
  (tasks w !! id = None -> tasks w' !! id = None) /\
  (forall z,
     tasks w !! id = Some z ->
     exists z',
       tasks w' !! id = Some z' /\
       task_id z' = task_id z /\
       input_path z' = input_path z /\
       output_path z' = output_path z /\
       output_filename z' = output_filename z /\
       original_filename z' = original_filename z /\
       format z' = format z /\ video_info z' = video_info z).
Proof.
  cbv zeta.
  destruct (process_conversion_registry tool id put_vhodnogo put_vyhodnogo
              output_format w _ _ Hkeeps (surjective_pairing _))
    as (Hthreads & Hother & Hmine).
  split; [exact Hthreads |].
  split.
  { apply set_eq. intros k. rewrite !elem_of_dom.
    destruct (decide (k = id)) as [-> | Hne]; [| now rewrite Hother].
    destruct (tasks w !! id) as [z |].
    - destruct Hmine as (z' & -> & _). split; eauto.
    - rewrite Hmine. reflexivity. }
  split; [exact Hother |].
  split.
  { intros Hnone. now rewrite Hnone in Hmine. }
  intros z Hz. rewrite Hz in Hmine. destruct Hmine as (z' & Hz' & Hcases).
  exists z'. split; [exact Hz' |].
  destruct Hcases as [-> | (msg & _ & ->)]; repeat split.
Qed.

Lemma process_conversion_touches_only_its_record_witness :
  tasks (snd (process_conversion tool_writes_output "job-9" "uploads/job-9.avi"
                "converted/job-9.mp4" "mp4" sample_world)) !! "job-1"
  = Some sample_task.
Proof.
  destruct (process_conversion_touches_only_its_record tool_writes_output "job-9"
              "uploads/job-9.avi" "converted/job-9.mp4" "mp4" sample_world
              keeps_registry_tool_writes_output) as (_ & _ & Hother & _).
  rewrite (Hother "job-1"); [reflexivity | discriminate].
Defined.

(** The message [process_conversion] records for a job whose record is
    there, with a tool that leaves the registry alone.  For a format outside
    the catalog it is the unsupported-format message, and no command is
    run.  When the call of the tool raises, it is the timeout message for a
    timeout and otherwise [str(e)], or the default text if that is empty.
    When the tool returns with a non-zero status, or returns zero without the
    output file being there, it is what the tool wrote to its error stream,
    or the default text if it wrote nothing. *)
Theorem process_conversion_records_the_diagnostic
    (tool : list string -> Z -> World -> result CompletedProcess * World)
    (id input_path output_path output_format : string) (w : World)
    (z : ConversionTask)
    (Hkeeps : keeps_registry tool)
    (Hz : tasks w !! id = Some z) :
  let w' := snd (process_conversion tool id input_path output_path output_format w) in
  (OUTPUT_FORMATS !! output_format = None ->
   tasks w' !! id = Some (mark_error z unsupported_format_message) /\
   spawned w' = spawned w /\ files w' = files w) /\
  (forall nastroyki,
     OUTPUT_FORMATS !! output_format = Some nastroyki ->
     let komanda := ffmpeg_command input_path output_path output_format nastroyki in
     let w0 := snd (log_spawn komanda w) in
     (forall e w1,
        tool komanda 600%Z w0 = (Raise e, w1) ->
        tasks w' !! id =
          Some (mark_error z
                  match exc_class e with
                  | TimeoutExpired => timeout_message
                  | _ => str_or (exc_str e) unknown_error_message
                  end)) /\
     (forall rezultat w1,
        tool komanda 600%Z w0 = (Ok rezultat, w1) ->
        returncode rezultat <> 0%Z \/ output_path ∉ files w1 ->
        tasks w' !! id =
          Some (mark_error z (str_or (stderr rezultat) unknown_error_message)))).
Proof.
  cbv zeta. split.
  - intros Hnone. unfold process_conversion.
    rewrite process_conversion_with_run, (convert_unsupported _ _ _ _ _ Hnone), Hz.
    simpl. rewrite lookup_insert_eq. repeat split.
  - intros nastroyki Hfmt.
    pose proof (convert_supported tool input_path output_path output_format
                  nastroyki w Hfmt) as Hconv. cbv zeta in Hconv.
    destruct (Hkeeps (ffmpeg_command input_path output_path output_format nastroyki)
                600%Z
                (snd (log_spawn (ffmpeg_command input_path output_path output_format
                                   nastroyki) w))) as [Htasks _].
    split.
    + intros e w1 Htool. unfold process_conversion.
      rewrite process_conversion_with_run, Hconv, Htool.
      rewrite Htool in Htasks. simpl in Htasks. rewrite Htasks, Hz. simpl.
      rewrite lookup_insert_eq. now destruct (exc_class e).
    + intros rezultat w1 Htool Hfail. unfold process_conversion.
      rewrite process_conversion_with_run, Hconv, Htool.
      rewrite Htool in Htasks. simpl in Htasks. rewrite Htasks, Hz. simpl.
      rewrite lookup_insert_eq.
      destruct Hfail as [Hcode | Hfile].
      * apply Z.eqb_neq in Hcode. now rewrite Hcode.
      * rewrite (bool_decide_eq_false_2 _ Hfile), andb_false_r. reflexivity.
Qed.

Lemma process_conversion_records_the_diagnostic_witness :
  tasks (snd (process_conversion tool_times_out "job-1" "uploads/job-1.avi"
                "converted/job-1.mp4" "mp4" sample_world)) !! "job-1"
  = Some (mark_error sample_task timeout_message) /\
  tasks (snd (process_conversion tool_writes_output "job-1" "uploads/job-1.avi"
                "converted/job-1.gif" "gif" sample_world)) !! "job-1"
  = Some (mark_error sample_task unsupported_format_message).
Proof.
  split.
  - destruct (process_conversion_records_the_diagnostic tool_times_out "job-1"
                "uploads/job-1.avi" "converted/job-1.mp4" "mp4" sample_world
                sample_task) as (_ & Hrun).
    + intros komanda timeout w. split; reflexivity.
    + reflexivity.
    + destruct (Hrun (mkFormat "mp4" "libx264" "aac") eq_refl) as (Hraise & _).
      apply (Hraise (mkExc TimeoutExpired
                       "Command 'ffmpeg' timed out after 600 seconds")
               (snd (log_spawn (ffmpeg_command "uploads/job-1.avi"
                                  "converted/job-1.mp4" "mp4"
                                  (mkFormat "mp4" "libx264" "aac")) sample_world))).
      reflexivity.
  - destruct (process_conversion_records_the_diagnostic tool_writes_output "job-1"
                "uploads/job-1.avi" "converted/job-1.gif" "gif" sample_world
                sample_task keeps_registry_tool_writes_output eq_refl)
      as (Hunsupported & _).
    apply Hunsupported. vm_compute. reflexivity.
Defined.

(** ** Upload intake: the checks, the accepted upload, the failed upload *)

Lemma catalog_getitem_supported f :
  format_supported f = true -> exists nastroyki, catalog_getitem f = Ok nastroyki /\
                                                 OUTPUT_FORMATS !! f = Some nastroyki.
Proof.
  unfold format_supported, catalog_getitem. intros H.
  apply bool_decide_eq_true in H as [nastroyki ->]. eauto.
Qed.

(** The checks of [upload_file] in their order, each answered before
    anything is written: no file part, or a file part with an empty name,
    is answered 'no file' even if the format is unknown; a named file with
    a format outside the catalog is answered 'unsupported format' even if
    its extension is not allowed; a named file with a known format and an
    extension that is not allowed is answered with the list of allowed
    formats.  The world is returned as it came. *)
Theorem upload_file_checks_in_order
    (str_lower secure_filename : string -> string)
    (tool : list string -> Z -> World -> result CompletedProcess * World)
    (decode_probe : string -> result VideoInfo)
    (req : Request) (unikalnyy_id : string) (save_fault start_fault : option PyException)
    (w : World) :
  let answer := Routes.upload_file str_lower secure_filename tool decode_probe
                  req unikalnyy_id save_fault start_fault w in
  (request_file req = None -> answer = (Ok (RedirectError no_file_message), w)) /\
  (forall fail,
     request_file req = Some fail -> filename fail = "" ->
     answer = (Ok (RedirectError no_file_message), w)) /\
  (forall fail,
     request_file req = Some fail -> filename fail <> "" ->
     format_supported (Routes.requested_format req) = false ->
     answer = (Ok (RedirectError unsupported_format_message), w)) /\
  (forall fail,
     request_file req = Some fail -> filename fail <> "" ->
     format_supported (Routes.requested_format req) = true ->
     is_allowed str_lower file_validator (filename fail) = Ok false ->
     answer = (Ok (RedirectError bad_extension_message), w)).
Proof.
  cbv zeta. unfold Routes.upload_file. repeat split.
  - intros ->. reflexivity.
  - intros fail -> ->. reflexivity.
  - intros fail -> Hname ->.
    destruct (String.eqb (filename fail) "") eqn:Heq; [| reflexivity].
    apply String.eqb_eq in Heq. contradiction.
  - intros fail -> Hname -> Hext.
    destruct (String.eqb (filename fail) "") eqn:Heq.
    + apply String.eqb_eq in Heq. contradiction.
    + simpl. unfold Routes.upload_after_format_check, bind, lift.
      rewrite Hext. reflexivity.
Qed.

Lemma upload_file_checks_in_order_witness :
  Routes.upload_file lower_ascii secure_filename_id tool_writes_output
    decode_unavailable (mkRequest (Some (mkFile "notes.txt")) (Some "gif"))
    "job-2" None None sample_world
  = (Ok (RedirectError unsupported_format_message), sample_world).
Proof.
  destruct (upload_file_checks_in_order lower_ascii secure_filename_id
              tool_writes_output decode_unavailable
              (mkRequest (Some (mkFile "notes.txt")) (Some "gif"))
              "job-2" None None sample_world) as (_ & _ & Hformat & _).
  apply (Hformat (mkFile "notes.txt")); [reflexivity | discriminate |].
  vm_compute. reflexivity.
Defined.

(** An upload that passes the checks, whose sanitised name still has an
    extension, whose file is written without fault and whose thread the
    interpreter starts, is accepted: the
    answer is the redirect to the processing page of the new token; the file
    is at [uploads/<token>.<lower-cased extension of the sanitised name>];
    the probe has run on that path; the record of the token is new, with
    that input path, the output path [converted/<token>.<catalog extension>],
    the sanitised name as original name, the requested format and the
    probed metadata; and one thread is started with the same token, paths
    and format. *)
Theorem upload_file_accepted
    (str_lower secure_filename : string -> string)
    (tool : list string -> Z -> World -> result CompletedProcess * World)
    (decode_probe : string -> result VideoInfo)
    (req : Request) (unikalnyy_id : string) (w : World)
    (fail : FileStorage) (nastroyki : FormatSettings) (rasshirenie : string)
    (Hfile : request_file req = Some fail)
    (Hname : filename fail <> "")
    (Hformat : OUTPUT_FORMATS !! Routes.requested_format req = Some nastroyki)
    (Hallowed : is_allowed str_lower file_validator (filename fail) = Ok true)
    (Hext : py_index (rsplit1 "." (secure_filename (filename fail))) 1
            = Ok rasshirenie) :
  let put_vhodnogo :=
    path_join UPLOAD_FOLDER (unikalnyy_id +:+ "." +:+ str_lower rasshirenie) in
  let imya_vyhodnogo := unikalnyy_id +:+ "." +:+ ext nastroyki in
  let put_vyhodnogo := path_join CONVERTED_FOLDER imya_vyhodnogo in
  let probed :=
    get_video_info tool decode_probe put_vhodnogo
      (mkWorld (tasks w) ({[put_vhodnogo]} ∪ files w) (spawned w) (threads w)) in
  exists video_informatsiya,
    fst probed = Ok video_informatsiya /\
    Routes.upload_file str_lower secure_filename tool decode_probe
      req unikalnyy_id None None w
    = (Ok (RedirectProcessing unikalnyy_id),
       mkWorld
         (<[unikalnyy_id :=
              new_task unikalnyy_id put_vhodnogo put_vyhodnogo imya_vyhodnogo
                (secure_filename (filename fail)) (Routes.requested_format req)
                video_informatsiya]> (tasks (snd probed)))
         (files (snd probed)) (spawned (snd probed))
         (threads (snd probed) ++
            [mkJob unikalnyy_id put_vhodnogo put_vyhodnogo
                   (Routes.requested_format req)])%list).
Proof.
  cbv zeta.
  match goal with
  | |- context [get_video_info tool decode_probe ?path ?w1] =>
      destruct (get_video_info_run tool decode_probe path w1) as [info Hprobe]
  end.
  exists info. rewrite Hprobe. split; [reflexivity |].
  unfold Routes.upload_file. rewrite Hfile.
  destruct (String.eqb (filename fail) "") eqn:Heq.
  { apply String.eqb_eq in Heq. contradiction. }
  assert (Hsup : format_supported (Routes.requested_format req) = true).
  { unfold format_supported. apply bool_decide_eq_true_2. eauto. }
  rewrite Hsup. simpl.
  unfold Routes.upload_after_format_check, bind, lift. rewrite Hallowed. simpl.
  unfold try_except. rewrite upload_body_run, Hext. cbv zeta. rewrite Hprobe.
  unfold catalog_getitem. rewrite Hformat. reflexivity.
Qed.

Lemma upload_file_accepted_witness :
  exists w',
    Routes.upload_file lower_ascii secure_filename_id tool_writes_output
      decode_unavailable sample_request "job-1" None None world_empty
    = (Ok (RedirectProcessing "job-1"), w') /\
    threads w' = [sample_job].
Proof.
  destruct (upload_file_accepted lower_ascii secure_filename_id tool_writes_output
              decode_unavailable sample_request "job-1" world_empty
              (mkFile "clip.AVI") (mkFormat "mp4" "libx264" "aac") "AVI")
    as (info & _ & Hrun); try reflexivity; [discriminate |].
  eexists. split; [exact Hrun |]. vm_compute. reflexivity.
Defined.

(** An upload that is not accepted starts no thread, and leaves no trace
    unless it is the thread that could not be started.  When
    [Thread.start()] does not raise and the answer is not the redirect to a
    processing page, the registry is the same, no thread was started and no
    command was run.  When it raises, everything before it has been done:
    the file is saved, the probe has run, the record of the new token is in
    the registry; the [except] answers with the size message or the
    upload-error text and [str(e)], and the record stays, ['processing'],
    with no thread to settle it.  Before the probe two things can go wrong
    inside the [try] block: a sanitised name without a dot, answered with
    the upload-error text and the [IndexError] message, and a fault of
    [fail.save], answered with the size message for
    [RequestEntityTooLarge] and otherwise with the upload-error text and
    [str(e)]. *)
Theorem upload_file_not_accepted_starts_no_thread
    (str_lower secure_filename : string -> string)
    (tool : list string -> Z -> World -> result CompletedProcess * World)
    (decode_probe : string -> result VideoInfo)
    (req : Request) (unikalnyy_id : string) (save_fault start_fault : option PyException)
    (w : World) :
  let answer := Routes.upload_file str_lower secure_filename tool decode_probe
                  req unikalnyy_id save_fault start_fault w in
  ((forall id, fst answer <> Ok (RedirectProcessing id)) ->
   (start_fault = None ->
    tasks (snd answer) = tasks w /\ threads (snd answer) = threads w /\
    spawned (snd answer) = spawned w) /\
   (keeps_registry tool ->
    threads (snd answer) = threads w /\
    (tasks (snd answer) = tasks w \/
     exists e t,
       start_fault = Some e /\
       tasks (snd answer) = <[unikalnyy_id := t]> (tasks w) /\
       status t = Processing /\ error t = None))) /\
  (forall fail nastroyki rasshirenie e,
     request_file req = Some fail -> filename fail <> "" ->
     OUTPUT_FORMATS !! Routes.requested_format req = Some nastroyki ->
     is_allowed str_lower file_validator (filename fail) = Ok true ->
     py_index (rsplit1 "." (secure_filename (filename fail))) 1 = Ok rasshirenie ->
     save_fault = None -> start_fault = Some e ->
     let put_vhodnogo :=
       path_join UPLOAD_FOLDER (unikalnyy_id +:+ "." +:+ str_lower rasshirenie) in
     let imya_vyhodnogo := unikalnyy_id +:+ "." +:+ ext nastroyki in
     let put_vyhodnogo := path_join CONVERTED_FOLDER imya_vyhodnogo in
     let probed :=
       get_video_info tool decode_probe put_vhodnogo
         (mkWorld (tasks w) ({[put_vhodnogo]} ∪ files w) (spawned w) (threads w)) in
     exists video_informatsiya,
       fst probed = Ok video_informatsiya /\
       answer
       = (Ok (RedirectError
                match exc_class e with
                | RequestEntityTooLarge => too_large_message
                | _ => upload_error_prefix +:+ exc_str e
                end),
          mkWorld
            (<[unikalnyy_id :=
                 new_task unikalnyy_id put_vhodnogo put_vyhodnogo imya_vyhodnogo
                   (secure_filename (filename fail)) (Routes.requested_format req)
                   video_informatsiya]> (tasks (snd probed)))
            (files (snd probed)) (spawned (snd probed)) (threads (snd probed)))) /\
  (forall fail e,
     request_file req = Some fail -> filename fail <> "" ->
     format_supported (Routes.requested_format req) = true ->
     is_allowed str_lower file_validator (filename fail) = Ok true ->
     py_index (rsplit1 "." (secure_filename (filename fail))) 1 = Raise e ->
     fst answer
     = Ok (RedirectError (upload_error_prefix +:+ "list index out of range"))) /\
  (forall fail rasshirenie e,
     request_file req = Some fail -> filename fail <> "" ->
     format_supported (Routes.requested_format req) = true ->
     is_allowed str_lower file_validator (filename fail) = Ok true ->
     py_index (rsplit1 "." (secure_filename (filename fail))) 1 = Ok rasshirenie ->
     save_fault = Some e ->
     fst answer
     = Ok (RedirectError
             match exc_class e with
             | RequestEntityTooLarge => too_large_message
             | _ => upload_error_prefix +:+ exc_str e
             end)).
Proof.
  cbv zeta. split; [| split; [| split]].
  - intros Hnot. split.
    + intros ->. revert Hnot. unfold Routes.upload_file.
      destruct (request_file req) as [fail |]; [| auto].
      destruct (String.eqb (filename fail) ""); [auto |].
      destruct (format_supported (Routes.requested_format req)) eqn:Hsup; simpl;
        [| auto].
      destruct (catalog_getitem_supported _ Hsup) as (nastroyki & Hcat & _).
      unfold Routes.upload_after_format_check, bind, lift.
      destruct (is_allowed str_lower file_validator (filename fail)) as [b | e];
        [| auto].
      destruct b; simpl; [| auto].
      unfold try_except. rewrite upload_body_run.
      destruct (py_index _ 1) as [rasshirenie_ | e];
        [| simpl; destruct (exc_class e); auto].
      destruct save_fault as [e |]; [simpl; destruct (exc_class e); auto |].
      cbv zeta.
      match goal with
      | |- context [get_video_info tool decode_probe ?path ?w1] =>
          destruct (get_video_info_run tool decode_probe path w1) as [info ->]
      end.
      rewrite Hcat. simpl. intros Hnot. exfalso. now apply (Hnot unikalnyy_id).
    + intros Hkeeps. revert Hnot. unfold Routes.upload_file.
      destruct (request_file req) as [fail |]; [| auto].
      destruct (String.eqb (filename fail) ""); [auto |].
      destruct (format_supported (Routes.requested_format req)) eqn:Hsup; simpl;
        [| auto].
      destruct (catalog_getitem_supported _ Hsup) as (nastroyki & Hcat & _).
      unfold Routes.upload_after_format_check, bind, lift.
      destruct (is_allowed str_lower file_validator (filename fail)) as [b | e];
        [| auto].
      destruct b; simpl; [| auto].
      unfold try_except. rewrite upload_body_run.
      destruct (py_index _ 1) as [rasshirenie_ | e];
        [| simpl; destruct (exc_class e); auto].
      destruct save_fault as [e |]; [simpl; destruct (exc_class e); auto |].
      cbv zeta.
      match goal with
      | |- context [get_video_info tool decode_probe ?path ?w1] =>
          destruct (get_video_info_run tool decode_probe path w1) as [info Hprobe];
          destruct (Hkeeps (ffprobe_command path) 10%Z
                      (snd (log_spawn (ffprobe_command path) w1)))
            as [Htasks Hthreads];
          rewrite Hprobe
      end.
      simpl in Htasks, Hthreads. rewrite Hcat. cbv zeta.
      destruct start_fault as [e |].
      * intros _.
        destruct (exc_class e); simpl; rewrite Htasks, Hthreads;
          (split; [reflexivity |]; right; eexists _, _;
           split; [reflexivity |]; split; [reflexivity |]; split; reflexivity).
      * simpl. intros Hnot. exfalso. now apply (Hnot unikalnyy_id).
  - intros fail nastroyki rasshirenie e Hfile Hname Hformat Hallowed Hext -> ->.
    match goal with
    | |- context [get_video_info tool decode_probe ?path ?w1] =>
        destruct (get_video_info_run tool decode_probe path w1) as [info Hprobe]
    end.
    exists info. rewrite Hprobe. split; [reflexivity |].
    unfold Routes.upload_file. rewrite Hfile.
    destruct (String.eqb (filename fail) "") eqn:Heq.
    { apply String.eqb_eq in Heq. contradiction. }
    assert (Hsup : format_supported (Routes.requested_format req) = true).
    { unfold format_supported. apply bool_decide_eq_true_2. eauto. }
    rewrite Hsup. simpl.
    unfold Routes.upload_after_format_check, bind, lift. rewrite Hallowed. simpl.
    unfold try_except. rewrite upload_body_run, Hext. cbv zeta. rewrite Hprobe.
    unfold catalog_getitem. rewrite Hformat. simpl. now destruct (exc_class e).
  - intros fail e Hfile Hname Hsup Hallowed Hext. unfold Routes.upload_file.
    rewrite Hfile, Hsup.
    destruct (String.eqb (filename fail) "") eqn:Heq.
    { apply String.eqb_eq in Heq. contradiction. }
    simpl. unfold Routes.upload_after_format_check, bind, lift.
    rewrite Hallowed. simpl. unfold try_except. rewrite upload_body_run, Hext.
    unfold py_index in Hext. destruct (rsplit1 _ _ !! 1); [discriminate |].
    injection Hext as <-. reflexivity.
  - intros fail rasshirenie e Hfile Hname Hsup Hallowed Hext ->.
    unfold Routes.upload_file. rewrite Hfile, Hsup.
    destruct (String.eqb (filename fail) "") eqn:Heq.
    { apply String.eqb_eq in Heq. contradiction. }
    simpl. unfold Routes.upload_after_format_check, bind, lift.
    rewrite Hallowed. simpl. unfold try_except. rewrite upload_body_run, Hext.
    simpl. now destruct (exc_class e).
Qed.

Lemma upload_file_not_accepted_starts_no_thread_witness :
  Routes.upload_file lower_ascii secure_filename_id tool_writes_output
    decode_unavailable sample_request "job-1" None
    (Some (RuntimeError "can't start new thread")) world_empty
  = (Ok (RedirectError (upload_error_prefix +:+ "can't start new thread")),
     world_start_failed) /\
  fst (Routes.upload_file lower_ascii secure_filename_cyrillic tool_writes_output
         decode_unavailable (mkRequest (Some (mkFile "видео.mp4")) None)
         "job-2" None None sample_world)
  = Ok (RedirectError (upload_error_prefix +:+ "list index out of range")) /\
  tasks (snd (Routes.upload_file lower_ascii secure_filename_id tool_writes_output
                decode_unavailable (mkRequest (Some (mkFile "clip.mp4")) None)
                "job-2" (Some (mkExc OtherException "[Errno 28] No space left on device"))
                None sample_world))
  = tasks sample_world.
Proof.
  split; [| split].
  - destruct (upload_file_not_accepted_starts_no_thread lower_ascii
                secure_filename_id tool_writes_output decode_unavailable
                sample_request "job-1" None
                (Some (RuntimeError "can't start new thread")) world_empty)
      as (_ & Hstart & _).
    assert (Hname : filename (mkFile "clip.AVI") <> "") by discriminate.
    destruct (Hstart (mkFile "clip.AVI") (mkFormat "mp4" "libx264" "aac") "AVI"
                (RuntimeError "can't start new thread")
                eq_refl Hname eq_refl eq_refl eq_refl eq_refl eq_refl)
      as (info & Hinfo & Hanswer).
    vm_compute in Hinfo. injection Hinfo as <-.
    rewrite Hanswer. vm_compute. reflexivity.
  - destruct (upload_file_not_accepted_starts_no_thread lower_ascii
                secure_filename_cyrillic tool_writes_output decode_unavailable
                (mkRequest (Some (mkFile "видео.mp4")) None)
                "job-2" None None sample_world) as (_ & _ & Hindex & _).
    apply (Hindex (mkFile "видео.mp4") (IndexError "list index out of range"));
      try reflexivity. discriminate.
  - destruct (upload_file_not_accepted_starts_no_thread lower_ascii
                secure_filename_id tool_writes_output decode_unavailable
                (mkRequest (Some (mkFile "clip.mp4")) None) "job-2"
                (Some (mkExc OtherException "[Errno 28] No space left on device"))
                None sample_world) as (Hnothing & _).
    destruct Hnothing as [Hquiet _]; [intros id; vm_compute; discriminate |].
    now destruct (Hquiet eq_refl).
Defined.

(** ** The running system: what the records look like *)

Lemma py_index_rsplit1_extension c s e :
  py_index (rsplit1 c s) 1 = Ok e ->
  exists stem,
    s = stem +:+ String c e /\ contains c e = false /\
    py_index (rsplit1 c s) 0 = Ok stem.
Proof.
  destruct (contains c s) eqn:Hs.
  - destruct (rsplit1_sep c s Hs) as (stem & e' & -> & He' & ->).
    unfold py_index. simpl. intros H. injection H as <-. eauto.
  - rewrite (rsplit1_no_sep c s Hs). unfold py_index. simpl. discriminate.
Qed.

(** What an upload does to the registry and to the list of threads, with the
    record and the thread written out. *)
Lemma upload_file_effect str_lower secure_filename tool decode_probe
      req unikalnyy_id save_fault start_fault w r w' :
  keeps_registry tool ->
  Routes.upload_file str_lower secure_filename tool decode_probe
    req unikalnyy_id save_fault start_fault w = (r, w') ->
  (tasks w' = tasks w /\ threads w' = threads w) \/
  (exists t j,
     tasks w' = <[unikalnyy_id := t]> (tasks w) /\
     threads w' = (threads w ++ [j])%list /\
     job_task_id j = unikalnyy_id /\
     status t = Processing /\
     record_well_formed str_lower unikalnyy_id t /\
     job_matches j t) \/
  (exists t,
     tasks w' = <[unikalnyy_id := t]> (tasks w) /\
     threads w' = threads w /\
     status t = Processing /\
     record_well_formed str_lower unikalnyy_id t).
Proof.
  intros Hkeeps. unfold Routes.upload_file.
  destruct (request_file req) as [fail |];
    [| intros H; injection H as <- <-; now left].
  destruct (String.eqb (filename fail) "");
    [intros H; injection H as <- <-; now left |].
  destruct (format_supported (Routes.requested_format req)) eqn:Hsup; simpl;
    [| intros H; injection H as <- <-; now left].
  destruct (catalog_getitem_supported _ Hsup) as (nastroyki & Hcat & Hfmt).
  unfold Routes.upload_after_format_check, bind, lift.
  destruct (is_allowed str_lower file_validator (filename fail)) as [b | e];
    [| intros H; injection H as <- <-; now left].
  destruct b; simpl; [| intros H; injection H as <- <-; now left].
  unfold try_except. rewrite upload_body_run.
  destruct (py_index _ 1) as [rasshirenie_ | e] eqn:Hext;
    [| simpl; destruct (exc_class e); intros H; injection H as <- <-; now left].
  destruct save_fault as [e |];
    [simpl; destruct (exc_class e); intros H; injection H as <- <-; now left |].
  cbv zeta.
  match goal with
  | |- context [get_video_info tool decode_probe ?path ?w1] =>
      destruct (get_video_info_run tool decode_probe path w1) as [info Hprobe];
      destruct (Hkeeps (ffprobe_command path) 10%Z
                  (snd (log_spawn (ffprobe_command path) w1))) as [Htasks Hthreads];
      rewrite Hprobe
  end.
  simpl in Htasks, Hthreads. rewrite Hcat.
  destruct (py_index_rsplit1_extension _ _ _ Hext) as (stem & Hname & Hdot & _).
  cbv zeta. destruct start_fault as [e |].
  - intros H. right. right.
    destruct (exc_class e); injection H as <- <-; simpl; rewrite Htasks, Hthreads;
      (eexists; split; [reflexivity |]; split; [reflexivity |];
       split; [reflexivity |]; split; [reflexivity |];
       exists nastroyki, stem, rasshirenie_; simpl; repeat split; assumption).
  - intros H. injection H as <- <-. right. left. simpl. rewrite Htasks, Hthreads.
    eexists _, _. split; [reflexivity |]. split; [reflexivity |].
    split; [reflexivity |]. split; [reflexivity |].
    split; [| repeat split].
    split; [reflexivity |].
    exists nastroyki, stem, rasshirenie_. simpl. repeat split; assumption.
Qed.

Lemma bookkeeping_initial str_lower w :
  initial w -> bookkeeping_invariant str_lower w.
Proof.
  intros [Htasks Hthreads]. unfold bookkeeping_invariant.
  rewrite Htasks, Hthreads. split.
  - intros id t H. rewrite lookup_empty in H. discriminate.
  - intros j t H. now apply elem_of_nil in H.
Qed.

Lemma record_well_formed_settled str_lower id z z' :
  record_well_formed str_lower id z ->
  z' = mark_completed z \/ (exists msg, msg <> "" /\ z' = mark_error z msg) ->
  record_well_formed str_lower id z' /\ status z' <> Processing.
Proof.
  intros Hwf [-> | (msg & _ & ->)]; (split; [exact Hwf | discriminate]).
Qed.

Lemma step_preserves_bookkeeping str_lower secure_filename w a w' :
  system_invariant w -> bookkeeping_invariant str_lower w ->
  step str_lower secure_filename w a w' ->
  bookkeeping_invariant str_lower w'.
Proof.
  intros [Hnodup Hrec] [Hwf Hjobs] Hstep. destruct Hstep as
    [tool decode_probe req unikalnyy_id save_fault start_fault w r w' Hkeeps Hfresh Hnew Hrun
    | tool j before after w r w' Hkeeps Hthreads Hrun
    | task_id w r w' Hrun
    | remove_fault task_id w r w' Hrun].
  - destruct (upload_file_effect _ _ _ _ _ _ _ _ _ _ _ Hkeeps Hrun)
      as [[Ht Hth] | [(t & j & Ht & Hth & Hj & Hs & Hnewwf & Hmatch)
                     | (t & Ht & Hth & Hs & Hnewwf)]];
      unfold bookkeeping_invariant, pending in *; rewrite Ht, Hth.
    + split; assumption.
    + split.
      * intros id t' Hlookup.
        destruct (decide (unikalnyy_id = id)) as [<- | Hne].
        -- rewrite lookup_insert_eq in Hlookup. now injection Hlookup as <-.
        -- rewrite lookup_insert_ne in Hlookup by exact Hne. now apply Hwf.
      * intros j' t' Hin Hlookup. apply elem_of_app in Hin as [Hin | Hin].
        -- assert (Hne : unikalnyy_id <> job_task_id j').
           { intros Heq. apply Hnew. rewrite Heq.
             now apply list_elem_of_fmap_2. }
           rewrite lookup_insert_ne in Hlookup by exact Hne. now apply Hjobs.
        -- apply list_elem_of_singleton in Hin. subst j'.
           rewrite Hj, lookup_insert_eq in Hlookup. now injection Hlookup as <-.
    + split.
      * intros id t' Hlookup.
        destruct (decide (unikalnyy_id = id)) as [<- | Hne].
        -- rewrite lookup_insert_eq in Hlookup. now injection Hlookup as <-.
        -- rewrite lookup_insert_ne in Hlookup by exact Hne. now apply Hwf.
      * intros j' t' Hin Hlookup.
        assert (Hne : unikalnyy_id <> job_task_id j').
        { intros Heq. apply Hnew. rewrite Heq. now apply list_elem_of_fmap_2. }
        rewrite lookup_insert_ne in Hlookup by exact Hne. now apply Hjobs.
  - destruct (pending_split w before j after Hthreads Hnodup)
      as (_ & Hj & Hsub & Hjpending).
    destruct (process_conversion_registry _ _ _ _ _ _ _ _ Hkeeps Hrun)
      as (Hth & Hother & Hmine).
    simpl in Hth, Hother, Hmine.
    unfold bookkeeping_invariant, pending. rewrite Hth. split.
    + intros id t Hlookup.
      destruct (decide (id = job_task_id j)) as [-> | Hne].
      * destruct (tasks w !! job_task_id j) as [z |] eqn:Hz; [| congruence].
        destruct Hmine as (z' & Hz' & Hcases).
        rewrite Hz' in Hlookup. injection Hlookup as <-.
        pose proof (Hwf _ z Hz) as Hzwf.
        now destruct (record_well_formed_settled str_lower _ z z' Hzwf Hcases).
      * rewrite (Hother id Hne) in Hlookup. now apply Hwf.
    + intros j' t Hin Hlookup.
      assert (Hin' : j' ∈ threads w).
      { rewrite Hthreads. apply elem_of_app in Hin as [Hin | Hin];
          apply elem_of_app; [now left | right; now apply elem_of_cons; right]. }
      assert (Hne : job_task_id j' <> job_task_id j).
      { intros Heq. apply Hj. rewrite <- Heq. now apply list_elem_of_fmap_2. }
      rewrite (Hother _ Hne) in Hlookup. now apply Hjobs.
  - rewrite (status_unchanged _ _ _ _ Hrun). split; assumption.
  - destruct (cleanup_registry _ _ _ _ _ Hrun) as [Hth [Ht | Ht]];
      unfold bookkeeping_invariant, pending in *; rewrite Hth, Ht.
    + split; assumption.
    + split.
      * intros id t Hlookup. apply lookup_delete_Some in Hlookup as [_ Hlookup].
        now apply Hwf.
      * intros j t Hin Hlookup. apply lookup_delete_Some in Hlookup as [_ Hlookup].
        now apply Hjobs.
Qed.

Lemma reachable_bookkeeping str_lower secure_filename w :
  reachable str_lower secure_filename w -> bookkeeping_invariant str_lower w.
Proof.
  induction 1 as [w Hinit | w a w' Hreach IH Hstep].
  - now apply bookkeeping_initial.
  - apply (step_preserves_bookkeeping str_lower secure_filename w a w'); auto.
    now apply (reachable_invariant str_lower secure_filename).
Qed.

Lemma reachable_world_uploaded :
  reachable lower_ascii secure_filename_id world_uploaded.
Proof.
  apply (reachable_step lower_ascii secure_filename_id world_empty
           (Upload sample_request "job-1") world_uploaded).
  - apply reachable_initial. split; reflexivity.
  - apply (step_upload lower_ascii secure_filename_id tool_writes_output
             decode_unavailable sample_request "job-1" None None world_empty
             (fst (Routes.upload_file lower_ascii secure_filename_id
                     tool_writes_output decode_unavailable sample_request
                     "job-1" None None world_empty))).
    + apply keeps_registry_tool_writes_output.
    + reflexivity.
    + simpl. apply not_elem_of_nil.
    + apply surjective_pairing.
Qed.

Lemma step_run_sample tool :
  keeps_registry tool ->
  step lower_ascii secure_filename_id world_uploaded (Run sample_job)
    (snd (process_conversion tool "job-1" "uploads/job-1.avi"
            "converted/job-1.mp4" "mp4" (take_thread [] [] world_uploaded))).
Proof.
  intros Hkeeps.
  apply (step_run lower_ascii secure_filename_id tool sample_job [] []
           world_uploaded
           (fst (process_conversion tool "job-1" "uploads/job-1.avi"
                   "converted/job-1.mp4" "mp4" (take_thread [] [] world_uploaded)))).
  - exact Hkeeps.
  - vm_compute. reflexivity.
  - apply surjective_pairing.
Qed.

Lemma reachable_world_failed :
  reachable lower_ascii secure_filename_id world_failed.
Proof.
  apply (reachable_step lower_ascii secure_filename_id world_uploaded
           (Run sample_job) world_failed).
  - apply reachable_world_uploaded.
  - apply step_run_sample. apply keeps_registry_tool_exits.
Qed.

(** In every world the system can reach, a record is the one [upload_file]
    made for its token: the token is its own, the format is in the catalog,
    the input path is the upload folder with the token and the lower-cased
    extension of the sanitised name, the output path is the folder of
    converted files with the token and the catalog's extension; and a thread
    that waits for the token was started with exactly these paths and this
    format. *)
Theorem records_derive_from_their_token
    (str_lower secure_filename : string -> string) (w : World)
    (id : string) (t : ConversionTask)
    (Hreach : reachable str_lower secure_filename w)
    (Hlookup : tasks w !! id = Some t) :
  record_well_formed str_lower id t /\
  (forall j, j ∈ threads w -> job_task_id j = id -> job_matches j t).
Proof.
  destruct (reachable_bookkeeping _ _ _ Hreach) as [Hwf Hjobs].
  split; [now apply Hwf |].
  intros j Hin Hid. apply Hjobs; [exact Hin | now rewrite Hid].
Qed.

Lemma records_derive_from_their_token_witness :
  record_well_formed lower_ascii "job-1"
    (new_task "job-1" "uploads/job-1.avi" "converted/job-1.mp4" "job-1.mp4"
       "clip.AVI" "mp4" None).
Proof.
  destruct (records_derive_from_their_token lower_ascii secure_filename_id
              world_uploaded "job-1"
              (new_task "job-1" "uploads/job-1.avi" "converted/job-1.mp4"
                 "job-1.mp4" "clip.AVI" "mp4" None)
              reachable_world_uploaded) as (Hwf & _).
  - vm_compute. reflexivity.
  - exact Hwf.
Defined.

Lemma reachable_world_start_failed :
  reachable lower_ascii secure_filename_id world_start_failed.
Proof.
  apply (reachable_step lower_ascii secure_filename_id world_empty
           (Upload sample_request "job-1") world_start_failed).
  - apply reachable_initial. split; reflexivity.
  - apply (step_upload lower_ascii secure_filename_id tool_writes_output
             decode_unavailable sample_request "job-1" None
             (Some (RuntimeError "can't start new thread")) world_empty
             (fst (Routes.upload_file lower_ascii secure_filename_id
                     tool_writes_output decode_unavailable sample_request
                     "job-1" None (Some (RuntimeError "can't start new thread"))
                     world_empty))).
    + apply keeps_registry_tool_writes_output.
    + reflexivity.
    + simpl. apply not_elem_of_nil.
    + apply surjective_pairing.
Qed.

Example world_start_failed_record :
  tasks world_start_failed !! "job-1"
  = Some (new_task "job-1" "uploads/job-1.avi" "converted/job-1.mp4" "job-1.mp4"
            "clip.AVI" "mp4" None) /\
  threads world_start_failed = [] /\
  spawned world_start_failed = [ffprobe_command "uploads/job-1.avi"].
Proof. repeat split; vm_compute; reflexivity. Qed.

(** A record no thread waits for is out of every runner's reach. *)
Lemma idle_step str_lower secure_filename w a w' id t :
  step str_lower secure_filename w a w' ->
  tasks w !! id = Some t -> id ∉ pending w ->
  (tasks w' !! id = Some t /\ id ∉ pending w') \/
  (tasks w' !! id = None /\ a = Cleanup id).
Proof.
  intros Hstep Hlookup Hidle. destruct Hstep as
    [tool decode_probe req unikalnyy_id save_fault start_fault w r w' Hkeeps Hfresh Hnew Hrun
    | tool j before after w r w' Hkeeps Hthreads Hrun
    | task_id w r w' Hrun
    | remove_fault task_id w r w' Hrun].
  - left.
    assert (Hne : unikalnyy_id <> id) by congruence.
    destruct (upload_file_registry _ _ _ _ _ _ _ _ _ _ _ Hkeeps Hrun)
      as [[Ht Hth] | [(t' & j & Ht & _ & _ & Hth & Hj) | (t' & Ht & _ & _ & Hth)]];
      unfold pending in *; rewrite Ht, Hth.
    + split; assumption.
    + rewrite lookup_insert_ne by exact Hne. split; [exact Hlookup |].
      rewrite fmap_app, elem_of_app. simpl. rewrite list_elem_of_singleton, Hj.
      intros [Hin | Heq]; [contradiction | congruence].
    + rewrite lookup_insert_ne by exact Hne. split; assumption.
  - left.
    destruct (process_conversion_registry _ _ _ _ _ _ _ _ Hkeeps Hrun)
      as (Hth & Hother & _). simpl in Hth, Hother.
    assert (Hsub : forall x, x ∈ (job_task_id <$> (before ++ after)%list) ->
                             x ∈ pending w).
    { intros x. unfold pending.
      rewrite Hthreads, !fmap_app, fmap_cons, !elem_of_app, elem_of_cons. tauto. }
    assert (Hne : id <> job_task_id j).
    { intros ->. apply Hidle. unfold pending.
      rewrite Hthreads, fmap_app, fmap_cons, elem_of_app, elem_of_cons. tauto. }
    rewrite (Hother id Hne). split; [exact Hlookup |].
    unfold pending at 1. rewrite Hth. intros Hin. now apply Hidle, Hsub.
  - left. rewrite (status_unchanged _ _ _ _ Hrun). split; assumption.
  - destruct (cleanup_registry _ _ _ _ _ Hrun) as [Hth [Ht | Ht]];
      unfold pending in *; rewrite Hth, Ht.
    + left. split; assumption.
    + destruct (decide (task_id = id)) as [-> | Hne].
      * right. split; [apply lookup_delete_eq | reflexivity].
      * left. rewrite lookup_delete_ne by exact Hne. split; assumption.
Qed.

(** In every reachable world no two waiting threads share a token, and the
    record a thread waits for is ['processing'].  The converse fails: the
    record of an upload whose thread could not be started is ['processing']
    with no thread waiting.  A record no thread waits for is never written
    again: every step leaves it as it is, field for field, with still no
    thread waiting, or is the cleanup that deletes it; so along any run
    without a cleanup of the token a ['processing'] record without a thread
    stays ['processing']. *)
Theorem record_without_thread_never_settles
    (str_lower secure_filename : string -> string) (w : World)
    (id : string) (t : ConversionTask)
    (Hreach : reachable str_lower secure_filename w)
    (Hlookup : tasks w !! id = Some t) :
  NoDup (pending w) /\
  (id ∈ pending w -> status t = Processing) /\
  (id ∉ pending w ->
   (forall a w',
      step str_lower secure_filename w a w' ->
      (tasks w' !! id = Some t /\ id ∉ pending w') \/
      (tasks w' !! id = None /\ a = Cleanup id)) /\
   (forall trace w',
      steps str_lower secure_filename w trace w' ->
      Cleanup id ∉ trace ->
      tasks w' !! id = Some t /\ id ∉ pending w')).
Proof.
  destruct (reachable_invariant _ _ _ Hreach) as [Hnodup Hrec].
  split; [exact Hnodup |]. split; [now destruct (Hrec id t Hlookup) |].
  intros Hidle. split.
  - intros a w' Hstep.
    exact (idle_step _ _ _ _ _ _ _ Hstep Hlookup Hidle).
  - intros trace w' Hsteps. clear Hreach Hnodup Hrec. revert Hlookup Hidle.
    induction Hsteps as [w | w a w1 trace w2 Hstep _ IH];
      intros Hlookup Hidle Hclean; [split; assumption |].
    destruct (idle_step _ _ _ _ _ _ _ Hstep Hlookup Hidle)
      as [[Hkept Hidle1] | [_ ->]].
    + apply IH; [exact Hkept | exact Hidle1 |].
      intros Hin. apply Hclean. now apply elem_of_cons; right.
    + exfalso. apply Hclean. now apply elem_of_cons; left.
Qed.

Lemma record_without_thread_never_settles_witness :
  status (new_task "job-1" "uploads/job-1.avi" "converted/job-1.mp4" "job-1.mp4"
            "clip.AVI" "mp4" None) = Processing /\
  tasks world_start_failed !! "job-1"
  = Some (new_task "job-1" "uploads/job-1.avi" "converted/job-1.mp4" "job-1.mp4"
            "clip.AVI" "mp4" None) /\
  "job-1" ∉ pending world_start_failed.
Proof.
  split; [reflexivity |].
  destruct (record_without_thread_never_settles lower_ascii secure_filename_id
              world_start_failed "job-1"
              (new_task "job-1" "uploads/job-1.avi" "converted/job-1.mp4"
                 "job-1.mp4" "clip.AVI" "mp4" None)
              reachable_world_start_failed) as (_ & _ & Hstuck).
  - vm_compute. reflexivity.
  - destruct Hstuck as [_ Htrace]; [apply not_elem_of_nil |].
    apply (Htrace [Poll "job-1"] world_start_failed).
    + apply (steps_cons lower_ascii secure_filename_id world_start_failed
               (Poll "job-1") world_start_failed [] world_start_failed).
      * apply (step_poll lower_ascii secure_filename_id "job-1" world_start_failed
                 (fst (Routes.status "job-1" world_start_failed))).
        vm_compute. reflexivity.
      * apply steps_refl.
    + intros Hin. apply list_elem_of_singleton in Hin. discriminate.
Defined.

(** When a started thread runs, in a reachable world: its token no longer
    waits afterwards; if the record was deleted in the meantime it stays
    deleted; if the record is there it was ['processing'] and is now
    ['completed'] or ['error']; and the records of all other tokens are
    untouched. *)
Theorem run_settles_its_job
    (str_lower secure_filename : string -> string) (w w' : World) (j : Job)
    (Hreach : reachable str_lower secure_filename w)
    (Hstep : step str_lower secure_filename w (Run j) w') :
  (job_task_id j ∉ pending w') /\
  (tasks w !! job_task_id j = None -> tasks w' !! job_task_id j = None) /\
  (forall z,
     tasks w !! job_task_id j = Some z ->
     status z = Processing /\
     exists z', tasks w' !! job_task_id j = Some z' /\ terminal (status z')) /\
  (forall other, other <> job_task_id j -> tasks w' !! other = tasks w !! other).
Proof.
  destruct (reachable_invariant _ _ _ Hreach) as [Hnodup Hrec].
  inversion Hstep as
    [ | tool j0 before after w0 r w0' Hkeeps Hthreads Hrun | | ]; subst.
  destruct (pending_split w before j after Hthreads Hnodup)
    as (_ & Hj & _ & Hjpending).
  destruct (process_conversion_registry _ _ _ _ _ _ _ _ Hkeeps Hrun)
    as (Hth & Hother & Hmine).
  simpl in Hth, Hother, Hmine.
  split; [unfold pending; now rewrite Hth |].
  split; [intros Hnone; now rewrite Hnone in Hmine |].
  split; [| exact Hother].
  intros z Hz. rewrite Hz in Hmine. destruct Hmine as (z' & Hz' & Hcases).
  destruct (Hrec _ z Hz) as [Hobeys Hpend].
  split; [now apply Hpend |].
  exists z'. split; [exact Hz' |].
  now destruct (settled_record_obeys z z' Hobeys (Hpend Hjpending) Hcases).
Qed.

Lemma run_settles_its_job_witness :
  exists z',
    tasks world_failed !! "job-1" = Some z' /\ terminal (status z').
Proof.
  destruct (run_settles_its_job lower_ascii secure_filename_id world_uploaded
              world_failed sample_job reachable_world_uploaded)
    as (_ & _ & Hsettled & _).
  - apply step_run_sample. apply keeps_registry_tool_exits.
  - destruct (Hsettled (new_task "job-1" "uploads/job-1.avi" "converted/job-1.mp4"
                          "job-1.mp4" "clip.AVI" "mp4" None)) as (_ & Hz').
    + vm_compute. reflexivity.
    + exact Hz'.
Defined.

(** ** The pages, the polling answer and the cleanup of one job *)

Lemma upload_file_redirect str_lower secure_filename tool decode_probe
      req unikalnyy_id save_fault start_fault w id w' :
  Routes.upload_file str_lower secure_filename tool decode_probe
    req unikalnyy_id save_fault start_fault w = (Ok (RedirectProcessing id), w') ->
  id = unikalnyy_id /\
  exists t, tasks w' !! id = Some t /\ status t = Processing /\ error t = None.
Proof.
  unfold Routes.upload_file.
  destruct (request_file req) as [fail |]; [| discriminate].
  destruct (String.eqb (filename fail) ""); [discriminate |].
  destruct (negb (format_supported (Routes.requested_format req)));
    [discriminate |].
  unfold Routes.upload_after_format_check, bind, lift.
  destruct (is_allowed str_lower file_validator (filename fail)) as [b | e];
    [| discriminate].
  destruct b; simpl; [| discriminate].
  unfold try_except. rewrite upload_body_run.
  destruct (py_index _ 1) as [rasshirenie_ | e];
    [| simpl; destruct (exc_class e); discriminate].
  destruct save_fault as [e |]; [simpl; destruct (exc_class e); discriminate |].
  cbv zeta.
  destruct (get_video_info _ _ _ _) as [[info | e] w2];
    [| simpl; destruct (exc_class e); discriminate].
  destruct (catalog_getitem (Routes.requested_format req)) as [nastroyki | e];
    [| simpl; destruct (exc_class e); discriminate].
  cbv zeta.
  destruct start_fault as [e |]; [simpl; destruct (exc_class e); discriminate |].
  intros H. injection H as <- <-. split; [reflexivity |]. simpl.
  rewrite lookup_insert_eq. eexists. repeat split.
Qed.

(** Right after an upload is answered with the redirect to a processing
    page, the token in the redirect is the generated one, a poll of it
    answers ['processing'] with no error, and the processing page renders
    the record; neither of the two reads changes anything. *)
Theorem accepted_upload_polls_as_processing
    (str_lower secure_filename : string -> string)
    (tool : list string -> Z -> World -> result CompletedProcess * World)
    (decode_probe : string -> result VideoInfo)
    (req : Request) (unikalnyy_id : string) (save_fault start_fault : option PyException)
    (w w' : World) (id : string)
    (Hupload : Routes.upload_file str_lower secure_filename tool decode_probe
                 req unikalnyy_id save_fault start_fault w
               = (Ok (RedirectProcessing id), w')) :
  id = unikalnyy_id /\
  Routes.status id w' = (Ok (StatusJson Processing None), w') /\
  exists t,
    tasks w' !! id = Some t /\
    Pages.processing id w'
    = (Ok (RenderTemplate "processing.html" id (ConversionTask_to_dict t)), w') /\
    dict_lookup
      match ConversionTask_to_dict t with ODict entries => entries | _ => [] end
      "status" = Some (OStr "processing").
Proof.
  destruct (upload_file_redirect _ _ _ _ _ _ _ _ _ _ _ Hupload)
    as (Hid & t & Ht & Hs & He).
  split; [exact Hid |]. split.
  - rewrite (status_present id w' t Ht), Hs, He. reflexivity.
  - exists t. split; [exact Ht |]. split.
    + unfold Pages.processing, bind, task_exists, get_task, ret. simpl.
      rewrite bool_decide_eq_true_2 by eauto. simpl. now rewrite Ht.
    + simpl. now rewrite Hs.
Qed.

Lemma accepted_upload_polls_as_processing_witness :
  Routes.status "job-1" world_uploaded
  = (Ok (StatusJson Processing None), world_uploaded).
Proof.
  destruct (accepted_upload_polls_as_processing lower_ascii secure_filename_id
              tool_writes_output decode_unavailable sample_request "job-1" None None
              world_empty world_uploaded "job-1") as (_ & Hpoll & _).
  - vm_compute. reflexivity.
  - exact Hpoll.
Defined.

(** ** The runner between its two stores *)

Lemma process_conversion_to_first_store_run tool id input_path output_path
      output_format w :
  process_conversion_to_first_store tool id input_path output_path output_format w =
    match convert tool input_path output_path output_format w with
    | (Ok (uspekh, diag), w1) =>
        match tasks w1 !! id with
        | Some z =>
            if uspekh && bool_decide (output_path ∈ files w1)
            then (Ok None,
                  mkWorld (<[id := mark_completed z]> (tasks w1))
                          (files w1) (spawned w1) (threads w1))
            else (Ok (Some (str_or diag unknown_error_message)),
                  mkWorld (<[id := store_status_error z]> (tasks w1))
                          (files w1) (spawned w1) (threads w1))
        | None => (Ok None, w1)
        end
    | (Raise e, w1) =>
        match tasks w1 !! id with
        | Some z =>
            (Ok (Some (exc_str e)),
             mkWorld (<[id := store_status_error z]> (tasks w1))
                     (files w1) (spawned w1) (threads w1))
        | None => (Ok None, w1)
        end
    end.
Proof.
  unfold process_conversion_to_first_store, try_except, bind, get_task,
    path_exists, update_task, set_tasks, ret.
  destruct (convert tool input_path output_path output_format w)
    as [[[uspekh diag] | e] w1]; simpl.
  - destruct (tasks w1 !! id) as [z |]; [| reflexivity].
    destruct uspekh, (bool_decide (output_path ∈ files w1)); reflexivity.
  - destruct (tasks w1 !! id) as [z |]; reflexivity.
Qed.

Lemma process_conversion_second_store_run id msg w :
  process_conversion_second_store id msg w =
    (Ok tt,
     match tasks w !! id with
     | Some z =>
         mkWorld (<[id := store_error z msg]> (tasks w))
                 (files w) (spawned w) (threads w)
     | None => w
     end).
Proof.
  unfold process_conversion_second_store, bind, get_task, update_task,
    set_tasks, ret.
  destruct (tasks w !! id) as [z |]; reflexivity.
Qed.

(** The runner is its first part followed, when it has stored the status of
    a failure, by the second store. *)
Lemma process_conversion_in_two_stores tool id input_path output_path
      output_format w :
  process_conversion tool id input_path output_path output_format w =
    match process_conversion_to_first_store tool id input_path output_path
            output_format w with
    | (Ok (Some msg), w1) => process_conversion_second_store id msg w1
    | (Ok None, w1) => (Ok tt, w1)
    | (Raise e, w1) => (Raise e, w1)
    end.
Proof.
  unfold process_conversion.
  rewrite process_conversion_with_run, process_conversion_to_first_store_run.
  destruct (convert tool input_path output_path output_format w)
    as [[[uspekh diag] | e] w1].
  - destruct (tasks w1 !! id) as [z |]; [| reflexivity].
    destruct (uspekh && bool_decide (output_path ∈ files w1)); [reflexivity |].
    rewrite process_conversion_second_store_run. simpl.
    rewrite lookup_insert_eq, insert_insert_eq. reflexivity.
  - destruct (tasks w1 !! id) as [z |]; [| reflexivity].
    rewrite process_conversion_second_store_run. simpl.
    rewrite lookup_insert_eq, insert_insert_eq. reflexivity.
Qed.

Lemma process_conversion_to_first_store_registry tool id input_path output_path
      output_format w r w' :
  keeps_registry tool ->
  process_conversion_to_first_store tool id input_path output_path output_format w
  = (r, w') ->
  threads w' = threads w /\
  (forall other, other <> id -> tasks w' !! other = tasks w !! other) /\
  match tasks w !! id with
  | None => r = Ok None /\ tasks w' !! id = None
  | Some z =>
      (r = Ok None /\ tasks w' !! id = Some (mark_completed z)) \/
      (exists msg,
         msg <> "" /\ r = Ok (Some msg) /\
         tasks w' !! id = Some (store_status_error z))
  end.
Proof.
  intros Hkeeps. rewrite process_conversion_to_first_store_run.
  destruct (convert_returns tool input_path output_path output_format w)
    as (uspekh & diag & w1 & Hconv).
  rewrite Hconv.
  destruct (convert_keeps_registry _ _ _ _ _ _ _ Hkeeps Hconv) as [Htasks Hthreads].
  rewrite <- Htasks.
  destruct (tasks w1 !! id) as [z |] eqn:Hz.
  - destruct (uspekh && bool_decide (output_path ∈ files w1));
      intros H; injection H as <- <-; simpl;
      (split; [exact Hthreads |]; split;
       [intros other Hother; now apply lookup_insert_ne |]);
      rewrite lookup_insert_eq.
    + now left.
    + right. eexists. split; [| split; reflexivity].
      apply str_or_nonempty. discriminate.
  - intros H. injection H as <- <-.
    split; [exact Hthreads |]. split; [reflexivity | split; [reflexivity | exact Hz]].
Qed.

Lemma NoDup_fmap_remove {A} (f : A -> string) (before after : list A) (x : A) :
  NoDup (f <$> (before ++ x :: after)%list) ->
  NoDup (f <$> (before ++ after)%list) /\
  (f x ∉ (f <$> (before ++ after)%list)) /\
  (forall y, y ∈ (f <$> (before ++ after)%list) ->
             y ∈ (f <$> (before ++ x :: after)%list)) /\
  f x ∈ (f <$> (before ++ x :: after)%list).
Proof.
  rewrite !fmap_app, fmap_cons.
  intros Hnodup. apply NoDup_app in Hnodup as (Hb & Hdisj & Hja).
  apply NoDup_cons in Hja as (Hj & Ha).
  repeat split.
  - apply NoDup_app. repeat split; [exact Hb | | exact Ha].
    intros y Hy Hya. apply (Hdisj y Hy). now apply elem_of_cons; right.
  - rewrite elem_of_app. intros [Hin | Hin]; [| contradiction].
    apply (Hdisj _ Hin). now apply elem_of_cons; left.
  - intros y. rewrite !elem_of_app, elem_of_cons. tauto.
  - rewrite elem_of_app, elem_of_cons. tauto.
Qed.

Lemma settled_shape_obeys t : settled_shape t -> error_iff_status t.
Proof.
  unfold settled_shape, error_iff_status, error_nonempty.
  intros [[Hs He] | [Hs He]]; split; try tauto.
  intros (msg & Hmsg & _). congruence.
Qed.

Lemma fine_invariant_initial w : initial w -> fine_invariant (mkInterleaved w []).
Proof.
  intros [Htasks Hthreads]. unfold fine_invariant, pending, paused. simpl.
  rewrite Htasks, Hthreads. simpl.
  split; [apply NoDup_nil; exact I |]. split; [apply NoDup_nil; exact I |].
  split; [intros id Hin; now apply elem_of_nil in Hin |].
  split; [intros p Hin; now apply elem_of_nil in Hin |].
  intros id t Hlookup. rewrite lookup_empty in Hlookup. discriminate.
Qed.

Lemma fine_step_preserves_invariant str_lower secure_filename s s' :
  fine_invariant s ->
  fine_step str_lower secure_filename s s' ->
  fine_invariant s'.
Proof.
  intros (Hnodup & Hpaused & Hdisj & Hmsg & Hrec) Hstep.
  destruct Hstep as
    [w a w' ps Hstep Hcond
    | tool j before after w m w' ps Hkeeps Hthreads Hrun
    | w before p after r w' Hrun];
    unfold fine_invariant, paused in *; simpl in *.
  - destruct Hstep as
      [tool decode_probe req unikalnyy_id save_fault start_fault w r w'
         Hkeeps Hfresh Hnew Hrun
      | tool j before after w r w' Hkeeps Hthreads Hrun
      | task_id w r w' Hrun
      | remove_fault task_id w r w' Hrun].
    + destruct (upload_file_registry _ _ _ _ _ _ _ _ _ _ _ Hkeeps Hrun)
        as [[Ht Hth] | [(t & j & Ht & Hs & He & Hth & Hj)
                       | (t & Ht & Hs & He & Hth)]];
        unfold pending in *; rewrite Ht, Hth.
      * repeat (split; [assumption |]). assumption.
      * rewrite fmap_app. simpl. rewrite Hj. split.
        { apply NoDup_app. repeat split; [exact Hnodup | | apply NoDup_singleton].
          intros x Hx Hx'. apply list_elem_of_singleton in Hx'. subst x.
          contradiction. }
        split; [exact Hpaused |]. split.
        { intros id. rewrite elem_of_app, list_elem_of_singleton.
          intros [Hin | ->]; [now apply Hdisj | exact Hcond]. }
        split; [exact Hmsg |].
        intros id t' Hlookup.
        destruct (decide (unikalnyy_id = id)) as [<- | Hne].
        -- rewrite lookup_insert_eq in Hlookup. injection Hlookup as <-.
           split; [auto |]. split; [intros Hin; contradiction |].
           intros _. left. split; [congruence | exact He].
        -- rewrite lookup_insert_ne in Hlookup by exact Hne.
           destruct (Hrec id t' Hlookup) as (Hp & Hh & Hsettled).
           split; [| split; assumption].
           rewrite elem_of_app, list_elem_of_singleton.
           intros [Hin | Heq]; [auto | congruence].
      * split; [exact Hnodup |]. split; [exact Hpaused |].
        split; [exact Hdisj |]. split; [exact Hmsg |].
        intros id t' Hlookup.
        destruct (decide (unikalnyy_id = id)) as [<- | Hne].
        -- rewrite lookup_insert_eq in Hlookup. injection Hlookup as <-.
           split; [auto |]. split; [intros Hin; contradiction |].
           intros _. left. split; [congruence | exact He].
        -- rewrite lookup_insert_ne in Hlookup by exact Hne. now apply Hrec.
    + contradiction.
    + rewrite (status_unchanged _ _ _ _ Hrun).
      repeat (split; [assumption |]). assumption.
    + destruct (cleanup_registry _ _ _ _ _ Hrun) as [Hth [Ht | Ht]];
        unfold pending in *; rewrite Hth, Ht.
      * repeat (split; [assumption |]). assumption.
      * repeat (split; [assumption |]).
        intros id t Hlookup. apply lookup_delete_Some in Hlookup as [_ Hlookup].
        now apply Hrec.
  - destruct (pending_split w before j after Hthreads Hnodup)
      as (Hnodup' & Hj & Hsub & Hjpending).
    destruct (process_conversion_to_first_store_registry _ _ _ _ _ _ _ _
                Hkeeps Hrun) as (Hth & Hother & Hmine).
    simpl in Hth, Hother, Hmine.
    assert (Hkept : forall id t,
              id <> job_task_id j -> tasks w' !! id = Some t ->
              (id ∈ (job_task_id <$> (before ++ after)%list) ->
               status t = Processing) /\
              (id ∈ (half_task_id <$> ps) -> half_written t) /\
              (id ∉ (half_task_id <$> ps) -> settled_shape t)).
    { intros id t Hne Hlookup. rewrite (Hother id Hne) in Hlookup.
      destruct (Hrec id t Hlookup) as (Hp & Hh & Hsettled).
      split; [intros Hin; now apply Hp, Hsub | split; assumption]. }
    unfold pending. rewrite Hth.
    destruct (tasks w !! job_task_id j) as [z |] eqn:Hz.
    + destruct (Hrec _ z Hz) as (Hp & _ & Hsettled).
      pose proof (Hp Hjpending) as Hstatus.
      pose proof (Hdisj _ Hjpending) as Hfree.
      assert (Herror : error z = None).
      { destruct (Hsettled Hfree) as [[_ He] | [Hs _]]; [exact He | congruence]. }
      destruct Hmine as [[Hm Hz'] | (msg & Hne & Hm & Hz')];
        injection Hm as ->; simpl.
      * split; [exact Hnodup' |]. split; [exact Hpaused |].
        split; [intros id Hin; now apply Hdisj, Hsub |]. split; [exact Hmsg |].
        intros id t Hlookup.
        destruct (decide (id = job_task_id j)) as [-> | Hother'];
          [| now apply Hkept].
        rewrite Hz' in Hlookup. injection Hlookup as <-.
        split; [intros Hin; contradiction |].
        split; [intros Hin; contradiction |].
        intros _. left. split; [discriminate | exact Herror].
      * rewrite (fmap_app half_task_id ps). simpl.
        split; [exact Hnodup' |]. split.
        { apply NoDup_app. repeat split; [exact Hpaused | | apply NoDup_singleton].
          intros x Hx Hx'. apply list_elem_of_singleton in Hx'. subst x.
          contradiction. }
        split.
        { intros id Hin. rewrite elem_of_app, list_elem_of_singleton.
          intros [Hin' | ->]; [now apply (Hdisj id (Hsub id Hin)) | contradiction]. }
        split.
        { intros p. rewrite elem_of_app, list_elem_of_singleton.
          intros [Hin | ->]; [now apply Hmsg | exact Hne]. }
        intros id t Hlookup.
        destruct (decide (id = job_task_id j)) as [-> | Hother'].
        -- rewrite Hz' in Hlookup. injection Hlookup as <-.
           split; [intros Hin; contradiction |].
           split; [intros _; split; [reflexivity | exact Herror] |].
           intros Hout. exfalso. apply Hout.
           rewrite elem_of_app, list_elem_of_singleton. now right.
        -- destruct (Hkept id t Hother' Hlookup) as (H1 & H2 & H3).
           split; [exact H1 |].
           rewrite elem_of_app, list_elem_of_singleton.
           split; [intros [Hin | Heq]; [auto | contradiction] |].
           intros Hout. apply H3. intros Hin. apply Hout. now left.
    + destruct Hmine as [Hm Hz']. injection Hm as ->.
      split; [exact Hnodup' |]. split; [exact Hpaused |].
      split; [intros id Hin; now apply Hdisj, Hsub |]. split; [exact Hmsg |].
      intros id t Hlookup.
      destruct (decide (id = job_task_id j)) as [-> | Hother'];
        [congruence | now apply Hkept].
  - destruct (NoDup_fmap_remove half_task_id before after p Hpaused)
      as (Hpaused' & Hp & Hsub & Hpin).
    assert (Hpmsg : half_message p <> "").
    { apply Hmsg. rewrite elem_of_app, elem_of_cons. tauto. }
    rewrite process_conversion_second_store_run in Hrun.
    injection Hrun as _ <-.
    assert (Hkept : forall id t,
              id <> half_task_id p -> tasks w !! id = Some t ->
              (id ∈ pending w -> status t = Processing) /\
              (id ∈ (half_task_id <$> (before ++ after)%list) -> half_written t) /\
              (id ∉ (half_task_id <$> (before ++ after)%list) -> settled_shape t)).
    { intros id t Hne Hlookup.
      destruct (Hrec id t Hlookup) as (H1 & H2 & H3).
      split; [exact H1 |]. split; [intros Hin; now apply H2, Hsub |].
      intros Hout. apply H3. intros Hin. apply Hout.
      rewrite fmap_app, fmap_cons, elem_of_app, elem_of_cons in Hin.
      rewrite fmap_app, elem_of_app. destruct Hin as [Hin | [Hin | Hin]]; tauto. }
    assert (Hmsg' : forall q, q ∈ (before ++ after)%list -> half_message q <> "").
    { intros q Hin. apply Hmsg. apply elem_of_app in Hin.
      rewrite elem_of_app, elem_of_cons. tauto. }
    destruct (tasks w !! half_task_id p) as [z |] eqn:Hz.
    + unfold pending in *. simpl. split; [exact Hnodup |]. split; [exact Hpaused' |].
      split; [intros id Hin Hin'; now apply (Hdisj id Hin), Hsub |].
      split; [exact Hmsg' |].
      intros id t Hlookup.
      destruct (decide (id = half_task_id p)) as [-> | Hne].
      * rewrite lookup_insert_eq in Hlookup. injection Hlookup as <-.
        destruct (Hrec _ z Hz) as (_ & Hhalf & _).
        destruct (Hhalf Hpin) as [Hs He].
        split; [intros Hin; exfalso; now apply (Hdisj _ Hin) |].
        split; [intros Hin; contradiction |].
        intros _. right. split; [exact Hs |].
        exists (half_message p). split; [reflexivity | exact Hpmsg].
      * rewrite lookup_insert_ne in Hlookup by congruence. now apply Hkept.
    + split; [exact Hnodup |]. split; [exact Hpaused' |].
      split; [intros id Hin Hin'; now apply (Hdisj id Hin), Hsub |].
      split; [exact Hmsg' |].
      intros id t Hlookup.
      destruct (decide (id = half_task_id p)) as [-> | Hne];
        [congruence | now apply Hkept].
Qed.

Lemma fine_reachable_invariant str_lower secure_filename s :
  fine_reachable str_lower secure_filename s -> fine_invariant s.
Proof.
  induction 1 as [w Hinit | s s' _ IH Hstep].
  - now apply fine_invariant_initial.
  - now apply (fine_step_preserves_invariant str_lower secure_filename s s').
Qed.

(** Every run of the system at the grain of whole handlers and whole
    threads is a run of the finer system in which no request comes between
    the two stores. *)
Lemma reachable_fine_reachable str_lower secure_filename w :
  reachable str_lower secure_filename w ->
  fine_reachable str_lower secure_filename (mkInterleaved w []).
Proof.
  induction 1 as [w Hinit | w a w' _ IH Hstep].
  - now apply fine_reachable_initial.
  - destruct a as [req unikalnyy_id | j | task_id | task_id].
    + apply (fine_reachable_step _ _ (mkInterleaved w []) _ IH).
      apply (fine_request _ _ w (Upload req unikalnyy_id) w' [] Hstep).
      apply not_elem_of_nil.
    + inversion Hstep as
        [ | tool j0 before after w0 r w0' Hkeeps Hthreads Hrun | | ]; subst.
      rewrite process_conversion_in_two_stores in Hrun.
      destruct (process_conversion_to_first_store tool (job_task_id j)
                  (job_input_path j) (job_output_path j) (job_format j)
                  (take_thread before after w)) as [[[msg |] | e] w1] eqn:Hfirst.
      * apply (fine_reachable_step _ _
                 (mkInterleaved w1 ([] ++ [mkHalfDone (job_task_id j) msg])%list)).
        -- apply (fine_reachable_step _ _ (mkInterleaved w []) _ IH).
           exact (fine_run _ _ tool j before after w (Some msg) w1 []
                    Hkeeps Hthreads Hfirst).
        -- exact (fine_second_store _ _ w1 [] (mkHalfDone (job_task_id j) msg) []
                    r w' Hrun).
      * injection Hrun as _ <-.
        apply (fine_reachable_step _ _ (mkInterleaved w []) _ IH).
        exact (fine_run _ _ tool j before after w None w1 [] Hkeeps Hthreads Hfirst).
      * destruct (process_conversion_to_first_store_registry _ _ _ _ _ _ _ _
                    Hkeeps Hfirst) as (_ & _ & Hmine).
        simpl in Hmine.
        destruct (tasks w !! job_task_id j);
          [destruct Hmine as [[Hm _] | (? & _ & Hm & _)] | destruct Hmine as [Hm _]];
          discriminate.
    + apply (fine_reachable_step _ _ (mkInterleaved w []) _ IH).
      exact (fine_request _ _ w (Poll task_id) w' [] Hstep I).
    + apply (fine_reachable_step _ _ (mkInterleaved w []) _ IH).
      exact (fine_request _ _ w (Cleanup task_id) w' [] Hstep I).
Qed.

Lemma result_run id w :
  Pages.result id w =
    (Ok match tasks w !! id with
        | None => ViewRedirect (RedirectError task_not_found_message)
        | Some z =>
            match status z with
            | Error =>
                ViewRedirect
                  (RedirectError (error_or (error z) conversion_error_message))
            | Processing => ViewRedirect (RedirectProcessing id)
            | Completed =>
                if bool_decide (output_path z ∈ files w)
                then RenderTemplate "result.html" id (ConversionTask_to_dict z)
                else ViewRedirect (RedirectError file_not_found_message)
            end
        end, w).
Proof.
  unfold Pages.result, bind, task_exists, get_task, path_exists, ret. simpl.
  destruct (tasks w !! id) as [z |] eqn:Hz.
  - rewrite bool_decide_eq_true_2 by eauto. simpl. rewrite Hz.
    destruct (status z); try reflexivity.
    now destruct (bool_decide (output_path z ∈ files w)).
  - rewrite bool_decide_eq_false_2 by (intros [x Hx]; discriminate). reflexivity.
Qed.

Lemma fine_reachable_state_between_stores :
  fine_reachable lower_ascii secure_filename_id state_between_stores.
Proof.
  apply (fine_reachable_step _ _ (mkInterleaved world_uploaded [])).
  - apply reachable_fine_reachable. apply reachable_world_uploaded.
  - exact (fine_run lower_ascii secure_filename_id
             (tool_exits 1 "Invalid data found when processing input")
             sample_job [] [] world_uploaded
             (Some "Invalid data found when processing input")
             (shared state_between_stores) []
             (keeps_registry_tool_exits 1 "Invalid data found when processing input")
             eq_refl eq_refl).
Qed.

Example state_between_stores_record :
  tasks (shared state_between_stores) !! "job-1"
  = Some (store_status_error
            (new_task "job-1" "uploads/job-1.avi" "converted/job-1.mp4" "job-1.mp4"
               "clip.AVI" "mp4" None)).
Proof. vm_compute. reflexivity. Qed.

(** The result page for a token with a record, in every state of the
    system when the two stores of [mark_error] are separate steps and
    requests come at any moment.  The page never writes.  For a job in
    ['error'] it redirects to the error page: with the message of the
    record, which is then not empty, when no thread is between the two
    stores for the token; with the default text when the request comes
    between the two stores, where the record has the status ['error'] and
    no message yet.  For a job in ['processing'] it redirects back to the
    processing page; for a ['completed'] job it renders the result only
    while the output file exists and otherwise redirects to the error page
    with 'file not found'.  The state between the two stores is reached by a
    run whose encoder rejects the input; there the page shows the default
    text and a poll answers ['error'] with no message. *)
Theorem result_page_by_status :
  (forall (str_lower secure_filename : string -> string) (s : Interleaved)
          (id : string) (z : ConversionTask),
     fine_reachable str_lower secure_filename s ->
     tasks (shared s) !! id = Some z ->
     snd (Pages.result id (shared s)) = shared s /\
     (status z = Error ->
      (exists msg,
         error z = Some msg /\ msg <> "" /\ (id ∉ paused s) /\
         fst (Pages.result id (shared s)) = Ok (ViewRedirect (RedirectError msg))) \/
      (error z = None /\ id ∈ paused s /\
       fst (Pages.result id (shared s))
       = Ok (ViewRedirect (RedirectError conversion_error_message)))) /\
     (status z = Processing ->
      fst (Pages.result id (shared s)) = Ok (ViewRedirect (RedirectProcessing id))) /\
     (status z = Completed ->
      fst (Pages.result id (shared s))
      = Ok (if bool_decide (output_path z ∈ files (shared s))
            then RenderTemplate "result.html" id (ConversionTask_to_dict z)
            else ViewRedirect (RedirectError file_not_found_message)))) /\
  (exists s z,
     fine_reachable lower_ascii secure_filename_id s /\
     tasks (shared s) !! "job-1" = Some z /\
     status z = Error /\ error z = None /\
     Pages.result "job-1" (shared s)
     = (Ok (ViewRedirect (RedirectError conversion_error_message)), shared s) /\
     Routes.status "job-1" (shared s) = (Ok (StatusJson Error None), shared s)).
Proof.
  split.
  - intros str_lower secure_filename s id z Hreach Hlookup.
    rewrite result_run, Hlookup. simpl. split; [reflexivity |].
    split; [| split].
    + intros Herr. rewrite Herr.
      destruct (fine_reachable_invariant _ _ _ Hreach) as (_ & _ & _ & _ & Hrec).
      destruct (Hrec id z Hlookup) as (_ & Hhalf & Hsettled).
      destruct (decide (id ∈ paused s)) as [Hin | Hout].
      * right. destruct (Hhalf Hin) as [_ He]. rewrite He. auto.
      * left. destruct (Hsettled Hout) as [[Hs _] | [_ (msg & He & Hne)]];
          [contradiction |].
        exists msg. split; [exact He |]. split; [exact Hne |].
        split; [exact Hout |].
        rewrite He. simpl. destruct msg; [contradiction | reflexivity].
    + intros ->. reflexivity.
    + intros ->. reflexivity.
  - exists state_between_stores. eexists.
    split; [exact fine_reachable_state_between_stores |].
    split; [exact state_between_stores_record |].
    split; [reflexivity |]. split; [reflexivity |].
    split.
    + rewrite result_run, state_between_stores_record. reflexivity.
    + rewrite (status_present _ _ _ state_between_stores_record). reflexivity.
Qed.

Lemma result_page_by_status_witness :
  fst (Pages.result "job-1" (shared state_between_stores))
  = Ok (ViewRedirect (RedirectError conversion_error_message)) /\
  fst (Pages.result "job-1" world_failed)
  = Ok (ViewRedirect (RedirectError "Invalid data found when processing input")).
Proof.
  destruct result_page_by_status as [Hpage _]. split.
  - destruct (Hpage lower_ascii secure_filename_id state_between_stores "job-1" _
                fine_reachable_state_between_stores state_between_stores_record)
      as (_ & Herror & _).
    destruct (Herror eq_refl) as [(msg & Hmsg & _) | (_ & _ & Hshown)];
      [discriminate | exact Hshown].
  - destruct (Hpage lower_ascii secure_filename_id (mkInterleaved world_failed [])
                "job-1"
                (mark_error
                   (new_task "job-1" "uploads/job-1.avi" "converted/job-1.mp4"
                      "job-1.mp4" "clip.AVI" "mp4" None)
                   "Invalid data found when processing input"))
      as (_ & Herror & _).
    + apply reachable_fine_reachable. apply reachable_world_failed.
    + vm_compute. reflexivity.
    + destruct (Herror eq_refl) as [(msg & Hmsg & _ & _ & Hshown) | (He & _)];
        [| discriminate].
      injection Hmsg as <-. exact Hshown.
Defined.

(** [download_file] in a reachable world, for a token with a record: it
    never raises and never writes, and it does not look at the status.
    Whenever the output path exists on disk the file is sent, for a job
    that is still ['processing'] or in ['error'] as well; the name offered
    is the original name up to its last dot, a dot, and the catalog's
    extension for the job's format.  When the path does not exist the
    answer is the redirect with 'file not found'. *)
Theorem download_file_ignores_the_status
    (str_lower secure_filename : string -> string) (w : World)
    (id : string) (z : ConversionTask)
    (Hreach : reachable str_lower secure_filename w)
    (Hlookup : tasks w !! id = Some z) :
  exists nastroyki stem rasshirenie,
    OUTPUT_FORMATS !! format z = Some nastroyki /\
    original_filename z = stem +:+ "." +:+ rasshirenie /\
    contains "." rasshirenie = false /\
    Pages.download_file id w =
      (Ok (if bool_decide (output_path z ∈ files w)
           then SendFile (output_path z) (stem +:+ "." +:+ ext nastroyki)
           else ViewRedirect (RedirectError file_not_found_message)), w).
Proof.
  destruct (reachable_bookkeeping _ _ _ Hreach) as [Hwf _].
  destruct (Hwf id z Hlookup)
    as (_ & nastroyki & stem & e & Hfmt & Hname & Hdot & _).
  exists nastroyki, stem, e. repeat (split; [assumption |]).
  unfold Pages.download_file, bind, task_exists, get_task, path_exists, lift, ret.
  simpl. rewrite bool_decide_eq_true_2 by eauto. simpl. rewrite Hlookup.
  destruct (bool_decide (output_path z ∈ files w)); simpl; [| reflexivity].
  rewrite Hname.
  change (stem +:+ "." +:+ e) with (stem +:+ String "." e).
  rewrite (rsplit1_cut "." stem e Hdot). unfold py_index. simpl.
  unfold catalog_getitem. rewrite Hfmt. reflexivity.
Qed.

Lemma download_file_ignores_the_status_witness :
  exists view, Pages.download_file "job-1" world_failed = (Ok view, world_failed).
Proof.
  destruct (download_file_ignores_the_status lower_ascii secure_filename_id
              world_failed "job-1"
              (mark_error
                 (new_task "job-1" "uploads/job-1.avi" "converted/job-1.mp4"
                    "job-1.mp4" "clip.AVI" "mp4" None)
                 "Invalid data found when processing input")
              reachable_world_failed)
    as (nastroyki & stem & e & _ & _ & _ & Hrun).
  - vm_compute. reflexivity.
  - eexists. exact Hrun.
Defined.

(** [cleanup] never raises and, whatever its outcome, success or refusal
    half way, it touches only the job of its token: no other record changes,
    no thread and no command is started, no file appears, and the only paths
    that can disappear are the input and the output path of that job.  For an
    unknown token the world is returned as it came. *)
Theorem cleanup_touches_only_its_job
    (remove_fault : string -> option PyException) (id : string) (w : World) :
  let w' := snd (Routes.cleanup remove_fault id w) in
  (exists answer, fst (Routes.cleanup remove_fault id w) = Ok answer) /\
  threads w' = threads w /\ spawned w' = spawned w /\
  (forall other, other <> id -> tasks w' !! other = tasks w !! other) /\
  files w' ⊆ files w /\
  (tasks w !! id = None -> w' = w) /\
  (forall z p,
     tasks w !! id = Some z -> p ∈ files w ->
     p <> input_path z -> p <> output_path z -> p ∈ files w').
Proof.
  cbv zeta. destruct (tasks w !! id) as [z |] eqn:Hz.
  - rewrite (cleanup_present remove_fault id w z Hz). unfold cleanup_output_phase.
    destruct (bool_decide (input_path z ∈ files w));
      [destruct (remove_fault (input_path z)) |];
      simpl;
      repeat match goal with
             | |- context [bool_decide ?P] => destruct (bool_decide P)
             | |- context [remove_fault ?x] => destruct (remove_fault x)
             end;
      simpl;
      (split; [eauto |]); (split; [reflexivity |]); (split; [reflexivity |]);
      (split; [intros other Hother; rewrite ?lookup_delete_ne by congruence;
               reflexivity |]);
      (split; [set_solver |]); (split; [discriminate |]);
      intros z0 path Hz0 Hpath Hin Hout; injection Hz0 as <-; set_solver.
  - rewrite (cleanup_absent remove_fault id w Hz). simpl.
    split; [eauto |]. repeat split; try reflexivity; try set_solver.
Qed.

Lemma cleanup_touches_only_its_job_witness :
  "uploads/job-7.avi" ∈
    files (snd (Routes.cleanup no_remove_fault "job-1"
                  (mkWorld (tasks sample_world)
                           ({["uploads/job-7.avi"]} ∪ files sample_world) [] []))).
Proof.
  destruct (cleanup_touches_only_its_job no_remove_fault "job-1"
              (mkWorld (tasks sample_world)
                       ({["uploads/job-7.avi"]} ∪ files sample_world) [] []))
    as (_ & _ & _ & _ & _ & _ & Hkept).
  apply (Hkept sample_task); [reflexivity | | discriminate | discriminate].
  simpl. apply elem_of_union_l. now apply elem_of_singleton.
Defined.

(** ** The dictionaries handed to the templates *)

Lemma pyval_obj_inj v1 v2 : pyval_obj v1 = pyval_obj v2 -> v1 = v2.
Proof. destruct v1, v2; simpl; congruence. Qed.

Lemma opt_obj_str_inj o1 o2 : opt_obj OStr o1 = opt_obj OStr o2 -> o1 = o2.
Proof. destruct o1, o2; simpl; congruence. Qed.

Lemma opt_obj_int_inj o1 o2 : opt_obj OInt o1 = opt_obj OInt o2 -> o1 = o2.
Proof. destruct o1, o2; simpl; congruence. Qed.

Lemma status_str_inj s1 s2 : status_str s1 = status_str s2 -> s1 = s2.
Proof. destruct s1, s2; simpl; congruence || discriminate. Qed.

Lemma VideoInfo_to_dict_inj v1 v2 :
  VideoInfo_to_dict v1 = VideoInfo_to_dict v2 -> v1 = v2.
Proof.
  destruct v1, v2. unfold VideoInfo_to_dict. simpl. intros H.
  injection H as Hd Hs Hb Hf Hvc Hac Hw Hh Hfps.
  apply opt_obj_str_inj in Hvc, Hac. apply opt_obj_int_inj in Hw, Hh.
  apply pyval_obj_inj in Hfps. congruence.
Qed.

(** [to_dict] keeps everything but the token.  Two [VideoInfo] with the same
    dictionary are equal; two records with the same dictionary differ at most
    in their [task_id], which the dictionary does not carry; and the
    dictionary's ['status'] and ['error'] are what the polling handler
    answers for the record. *)
Theorem to_dict_keeps_all_but_the_token (t1 t2 : ConversionTask) :
  (forall v1 v2, VideoInfo_to_dict v1 = VideoInfo_to_dict v2 -> v1 = v2) /\
  (ConversionTask_to_dict t1 = ConversionTask_to_dict t2 ->
   task_id t1 = task_id t2 -> t1 = t2) /\
  (ConversionTask_to_dict t1 = ConversionTask_to_dict t2 <->
   input_path t1 = input_path t2 /\ output_path t1 = output_path t2 /\
   output_filename t1 = output_filename t2 /\
   original_filename t1 = original_filename t2 /\
   format t1 = format t2 /\ video_info t1 = video_info t2 /\
   status t1 = status t2 /\ error t1 = error t2) /\
  (forall w id,
     tasks w !! id = Some t1 ->
     exists state err,
       fst (Routes.status id w) = Ok (StatusJson state err) /\
       getitem (ConversionTask_to_dict t1) "status" = Ok (OStr (status_str state)) /\
       getitem (ConversionTask_to_dict t1) "error" = Ok (opt_obj OStr err)).
Proof.
  assert (Hfields :
            ConversionTask_to_dict t1 = ConversionTask_to_dict t2 ->
            input_path t1 = input_path t2 /\ output_path t1 = output_path t2 /\
            output_filename t1 = output_filename t2 /\
            original_filename t1 = original_filename t2 /\
            format t1 = format t2 /\ video_info t1 = video_info t2 /\
            status t1 = status t2 /\ error t1 = error t2).
  { unfold ConversionTask_to_dict. intros H.
    injection H as Hs Hi Ho Hof Hor Hf Hv He.
    apply status_str_inj in Hs. apply opt_obj_str_inj in He.
    assert (Hv' : video_info t1 = video_info t2).
    { destruct (video_info t1) as [v1 |], (video_info t2) as [v2 |];
        simpl in Hv; try discriminate; [| reflexivity].
      f_equal. now apply VideoInfo_to_dict_inj. }
    repeat split; assumption. }
  split; [exact VideoInfo_to_dict_inj |]. split; [| split].
  - intros H Hid. destruct (Hfields H) as (? & ? & ? & ? & ? & ? & ? & ?).
    destruct t1, t2. simpl in *. congruence.
  - split; [exact Hfields |].
    intros (Hi & Ho & Hof & Hor & Hf & Hv & Hs & He).
    unfold ConversionTask_to_dict. now rewrite Hi, Ho, Hof, Hor, Hf, Hv, Hs, He.
  - intros w id Hlookup. rewrite (status_present id w t1 Hlookup).
    exists (status t1), (error t1). repeat split.
Qed.

Lemma to_dict_keeps_all_but_the_token_witness :
  ConversionTask_to_dict sample_task
  = ConversionTask_to_dict
      (new_task "job-2" "uploads/job-1.avi" "converted/job-1.mp4" "job-1.mp4"
                "clip.avi" "mp4" None).
Proof.
  destruct (to_dict_keeps_all_but_the_token sample_task
              (new_task "job-2" "uploads/job-1.avi" "converted/job-1.mp4"
                        "job-1.mp4" "clip.avi" "mp4" None))
    as (_ & _ & (_ & Hsame) & _).
  apply Hsame. repeat split.
Defined.

(** ** Jobs do not interfere *)

(** A step about one token leaves the record of every other token exactly
    as it is, present or absent: an upload, a run, a poll or a cleanup for
    one job never shows in another job's record. *)
Theorem jobs_do_not_interfere
    (str_lower secure_filename : string -> string) (w w' : World) (a : Action)
    (id : string)
    (Hstep : step str_lower secure_filename w a w')
    (Hother : action_token a <> id) :
  tasks w' !! id = tasks w !! id.
Proof.
  destruct Hstep as
    [tool decode_probe req unikalnyy_id save_fault start_fault w r w' Hkeeps Hfresh Hnew Hrun
    | tool j before after w r w' Hkeeps Hthreads Hrun
    | task_id w r w' Hrun
    | remove_fault task_id w r w' Hrun]; simpl in Hother.
  - destruct (upload_file_tasks _ _ _ _ _ _ _ _ _ _ _ Hkeeps Hrun)
      as [Ht | (t & Ht & _)]; rewrite Ht; [reflexivity |].
    now apply lookup_insert_ne.
  - destruct (process_conversion_registry _ _ _ _ _ _ _ _ Hkeeps Hrun)
      as (_ & Hothers & _). simpl in Hothers. apply Hothers. congruence.
  - now rewrite (status_unchanged _ _ _ _ Hrun).
  - destruct (cleanup_registry _ _ _ _ _ Hrun) as [_ [Ht | Ht]]; rewrite Ht;
      [reflexivity |]. now apply lookup_delete_ne.
Qed.

Lemma jobs_do_not_interfere_witness :
  tasks world_failed !! "job-2" = tasks world_uploaded !! "job-2".
Proof.
  apply (jobs_do_not_interfere lower_ascii secure_filename_id world_uploaded
           world_failed (Run sample_job) "job-2").
  - apply step_run_sample. apply keeps_registry_tool_exits.
  - discriminate.
Defined.
